(** * Invoice-Agent: detector, field extractor, reconciliation and approval

    A shallow embedding of the parts of [email_monitor.py] and
    [database_manager.py] that decide whether a text is an invoice, pull
    the invoice fields out of it, reconcile a stored invoice against its
    purchase order and record an approver's decision, of the monitor's
    mailbox connection and message processing, and of the commands of
    [approver_interface.py] that list and decide pending approvals.

    Modelling conventions.
    - A Python [str] is a Rocq [string] over an alphabet of 256
      characters, fixed by [PyStr.code_point]: the code points 0 to 255
      of Unicode with two of them exchanged, so that the alphabet holds
      the euro sign the patterns name and is closed under [str.lower],
      [str.upper] and [str.title].  Code 164 is the euro sign (U+20AC)
      and code 181 is the capital Y with diaeresis (U+0178), the capital
      of code 255; the pound sign is code 163.  The character classes of
      [re] and the case mappings of [str] are those of Unicode on the
      whole alphabet.
    - A Python [float] (and an SQLite REAL) is an IEEE-754 binary64 value,
      a [spec_float] with precision 53 and maximal exponent 1024; the
      arithmetic is the Standard Library's bit-exact specification.
    - [None] / SQL NULL is [None] of an [option].
    - The SQLite file is a record of three tables, each a list of rows in
      rowid order; a connection works on a copy that replaces the stored
      one at [commit()] and is dropped when the connection is closed
      without a commit. *)

From Stdlib Require Import ZArith List Bool Ascii String Lia SpecFloat.
From Stdlib Require Import Permutation.
From Stdlib Require DecimalString DecimalZ.
Import ListNotations.

Local Open Scope string_scope.
Local Open Scope Z_scope.

(* ================================================================== *)
(** ** Python strings *)

Module PyStr.

Definition code (c : ascii) : nat := nat_of_ascii c.

(** The alphabet: the Unicode code point ([ord]) a character stands
    for. *)
Definition code_point (c : ascii) : Z :=
  if Nat.eqb (code c) 164 then 8364
  else if Nat.eqb (code c) 181 then 376
  else Z.of_nat (code c).

Definition in_range (lo hi : nat) (c : ascii) : bool :=
  (Nat.leb lo (code c) && Nat.leb (code c) hi)%bool.

(** The ranges [A-Z], [a-z] and [0-9]; the last is also the class
    [\d], which holds no other character of the alphabet. *)
Definition is_upper (c : ascii) : bool := in_range 65 90 c.
Definition is_lower (c : ascii) : bool := in_range 97 122 c.
Definition is_digit (c : ascii) : bool := in_range 48 57 c.

(** The capital letters: [A-Z], those of 192..222 (215 is the
    multiplication sign) and 181. *)
Definition is_capital (c : ascii) : bool :=
  (is_upper c || in_range 192 214 c || in_range 216 222 c
   || Nat.eqb (code c) 181)%bool.

(** The small letters that have a capital of their own: [a-z] and those
    of 224..255 (247 is the division sign). *)
Definition is_small (c : ascii) : bool :=
  (is_lower c || in_range 224 246 c || in_range 248 255 c)%bool.

(** The cased characters: the capital and the small letters, the sharp s
    (223) and the two ordinal indicators (170, 186). *)
Definition is_cased (c : ascii) : bool :=
  (is_capital c || is_small c || Nat.eqb (code c) 223
   || Nat.eqb (code c) 170 || Nat.eqb (code c) 186)%bool.

(** [str.isspace] and the class [\s]: tab, line feed, vertical tab, form
    feed, carriage return, the separators 28..31, the space, next line
    (133) and the no-break space (160). *)
Definition is_space (c : ascii) : bool :=
  (in_range 9 13 c || in_range 28 32 c
   || Nat.eqb (code c) 133 || Nat.eqb (code c) 160)%bool.

(** The class [\w]: the underscore and what [str.isalnum] accepts, which
    is the cased characters, the digits, the superscript digits (178,
    179, 185) and the fractions (188..190). *)
Definition is_word (c : ascii) : bool :=
  (is_cased c || is_digit c || Ascii.eqb c "_"
   || in_range 178 179 c || Nat.eqb (code c) 185 || in_range 188 190 c)%bool.

Definition lower_char (c : ascii) : ascii :=
  if Nat.eqb (code c) 181 then ascii_of_nat 255
  else if is_capital c then ascii_of_nat (code c + 32)
  else c.

(** The upper-case form of one character; that of the sharp s has two
    characters. *)
Definition upper_char (c : ascii) : string :=
  if Nat.eqb (code c) 223 then "SS"
  else if Nat.eqb (code c) 255 then String (ascii_of_nat 181) EmptyString
  else if is_small c then String (ascii_of_nat (code c - 32)) EmptyString
  else String c EmptyString.

(** The title-case form of one character. *)
Definition title_char (c : ascii) : string :=
  if Nat.eqb (code c) 223 then "Ss" else upper_char c.

Fixpoint map_chars (f : ascii -> ascii) (s : string) : string :=
  match s with
  | EmptyString => EmptyString
  | String c s' => String (f c) (map_chars f s')
  end.

(** [s.lower()] and [s.upper()]. *)
Definition lower (s : string) : string := map_chars lower_char s.

Fixpoint upper (s : string) : string :=
  match s with
  | EmptyString => EmptyString
  | String c s' => upper_char c ++ upper s'
  end.

(** [s.title()]: a character that follows a cased character is
    lower-cased, any other character is title-cased. *)
Fixpoint title_from (previous_is_cased : bool) (s : string) : string :=
  match s with
  | EmptyString => EmptyString
  | String c s' =>
      (if previous_is_cased then String (lower_char c) EmptyString
       else title_char c)
      ++ title_from (is_cased c) s'
  end.

Definition title (s : string) : string := title_from false s.

(** [s.replace(old, new)] for a one-character [old]. *)
Fixpoint replace_char (old : ascii) (new : string) (s : string) : string :=
  match s with
  | EmptyString => EmptyString
  | String c s' =>
      if Ascii.eqb c old then new ++ replace_char old new s'
      else String c (replace_char old new s')
  end.

Fixpoint lstrip (s : string) : string :=
  match s with
  | String c s' => if is_space c then lstrip s' else s
  | EmptyString => EmptyString
  end.

Fixpoint rstrip (s : string) : string :=
  match s with
  | EmptyString => EmptyString
  | String c s' =>
      match rstrip s' with
      | EmptyString => if is_space c then EmptyString else String c EmptyString
      | t => String c t
      end
  end.

(** [s.strip()]. *)
Definition strip (s : string) : string := rstrip (lstrip s).

(** [sub in s]. *)
Fixpoint contains (sub s : string) : bool :=
  if String.prefix sub s then true
  else match s with
       | EmptyString => false
       | String _ s' => contains sub s'
       end.

(** Truth value of an optional string: [None] and [''] are false. *)
Definition truthy (v : option string) : bool :=
  match v with
  | Some (String _ _) => true
  | _ => false
  end.

(** [str(v)] inside an f-string for a value that may be [None]. *)
Definition format_opt (v : option string) : string :=
  match v with Some s => s | None => "None" end.

Definition opt_eqb (a b : option string) : bool :=
  match a, b with
  | Some x, Some y => String.eqb x y
  | None, None => true
  | _, _ => false
  end.

Definition nl : string := String (ascii_of_nat 10) EmptyString.

(** [sep.join(parts)]. *)
Fixpoint join (sep : string) (parts : list string) : string :=
  match parts with
  | [] => EmptyString
  | [p] => p
  | p :: rest => p ++ sep ++ join sep rest
  end.

End PyStr.

(* ================================================================== *)
(** ** Python floats *)

Module PyFloat.

Definition float := spec_float.

Definition prec : Z := 53.
Definition emax : Z := 1024.

(** The binary64 value nearest to [num / den] (ties to even): the value
    of a decimal literal or of [float("...")] on a decimal numeral. *)
Definition of_decimal (num den : Z) : float :=
  match num, den with
  | Zpos n, Zpos d =>
      SFdiv prec emax (S754_finite false n 0) (S754_finite false d 0)
  | Zneg n, Zpos d =>
      SFdiv prec emax (S754_finite true n 0) (S754_finite false d 0)
  | _, _ => S754_zero false
  end.

Definition sub (x y : float) : float := SFsub prec emax x y.
Definition abs (x : float) : float := SFabs x.

(** [x > y]. *)
Definition gtb (x y : float) : bool := SFltb y x.

Definition eqb (x y : float) : bool := SFeqb x y.

Definition is_zero (x : float) : bool :=
  match x with S754_zero _ => true | _ => false end.

(** Truth value of an optional number: [None], [0.0] and [-0.0] are
    false, everything else (NaN included) is true. *)
Definition truthy (v : option float) : bool :=
  match v with
  | Some x => negb (is_zero x)
  | None => false
  end.

(** Value of a run of leading decimal digits: the accumulated value, the
    number of digits read and the unread rest. *)
Fixpoint read_digits (s : string) (acc : Z) (count : nat)
  : Z * nat * string :=
  match s with
  | String c s' =>
      if PyStr.is_digit c
      then read_digits s' (10 * acc + Z.of_nat (PyStr.code c - 48)) (S count)
      else (acc, count, s)
  | EmptyString => (acc, count, s)
  end.

Fixpoint all_digits (s : string) : bool :=
  match s with
  | EmptyString => true
  | String c s' => (PyStr.is_digit c && all_digits s')%bool
  end.

(** The text left over after a run of digits: nothing, or something that
    starts with no digit. *)
Definition stops (s : string) : Prop :=
  match s with
  | EmptyString => True
  | String c _ => PyStr.is_digit c = false
  end.

(** [float(s)] on the numerals [digits] and [digits.digits]; [None]
    stands for the [ValueError] raised on a string that is not a
    number.  (Python accepts further spellings, signs, exponents and
    surrounding blanks among them; they are treated as errors here,
    which only makes the model raise more often than the code.) *)
Definition of_string (s : string) : option float :=
  match read_digits s 0 0 with
  | (_, O, _) => None
  | (ip, _, EmptyString) => Some (of_decimal ip 1)
  | (ip, _, String c r) =>
      if Ascii.eqb c "."
      then match read_digits r ip 0 with
           | (_, O, _) => None
           | (v, nf, EmptyString) => Some (of_decimal v (10 ^ Z.of_nat nf))
           | _ => None
           end
      else None
  end.

End PyFloat.

(* ================================================================== *)
(** ** The regular expressions of [re], by backtracking *)

Module Re.

Inductive regex : Type :=
| Eps                                   (* the empty pattern *)
| Chr (p : ascii -> bool)               (* one character of a class *)
| Seq (r1 r2 : regex)                   (* r1 r2 *)
| Alt (r1 r2 : regex)                   (* r1|r2, left first *)
| Star (greedy : bool) (r : regex)      (* r* and r*? *)
| Group (n : nat) (r : regex)           (* (r), numbered *)
| WordB.                                (* \b *)

(** A cursor in the subject: the character to its left, the text to its
    right, and the groups closed so far (latest first). *)
Record cursor : Type := {
  before : option ascii;
  rest : string;
  groups : list (nat * string)
}.

Definition advance (c : ascii) (s' : string) (cu : cursor) : cursor :=
  {| before := Some c; rest := s'; groups := groups cu |}.

Fixpoint take (n : nat) (s : string) : string :=
  match n, s with
  | S n', String c s' => String c (take n' s')
  | _, _ => EmptyString
  end.

(** The text between two cursors of one subject. *)
Definition consumed (from to : cursor) : string :=
  take (String.length (rest from) - String.length (rest to)) (rest from).

Definition close_group (n : nat) (from to : cursor) : cursor :=
  {| before := before to; rest := rest to;
     groups := (n, consumed from to) :: groups to |}.

Definition word_at (c : option ascii) : bool :=
  match c with Some a => PyStr.is_word a | None => false end.

Definition next_char (s : string) : option ascii :=
  match s with String c _ => Some c | EmptyString => None end.

Definition shorter (a b : cursor) : bool :=
  Nat.ltb (String.length (rest a)) (String.length (rest b)).

(** A repetition of [step]: another iteration first when greedy, the
    continuation first when lazy.  An iteration that consumes nothing ends
    the repetition, so the count is bounded by the length of the text
    left, which is the [fuel] the repetition starts with. *)
Fixpoint repeat_step (step : cursor -> (cursor -> option cursor) -> option cursor)
  (greedy : bool) (k : cursor -> option cursor) (fuel : nat) (cu : cursor)
  {struct fuel} : option cursor :=
  match fuel with
  | O => k cu
  | S fuel' =>
      if greedy
      then match step cu (fun cu1 =>
                   if shorter cu1 cu
                   then repeat_step step greedy k fuel' cu1 else None) with
           | Some m => Some m
           | None => k cu
           end
      else match k cu with
           | Some m => Some m
           | None =>
               step cu (fun cu1 =>
                 if shorter cu1 cu
                 then repeat_step step greedy k fuel' cu1 else None)
           end
  end.

(** [run r cu k]: match [r] at [cu] and hand every way of doing so, in
    the order in which [re] tries them, to the continuation [k]; the
    first success wins. *)
Fixpoint run (r : regex) (cu : cursor) (k : cursor -> option cursor)
  {struct r} : option cursor :=
  match r with
  | Eps => k cu
  | Chr p =>
      match rest cu with
      | String c s' => if p c then k (advance c s' cu) else None
      | EmptyString => None
      end
  | Seq r1 r2 => run r1 cu (fun cu1 => run r2 cu1 k)
  | Alt r1 r2 =>
      match run r1 cu k with
      | Some m => Some m
      | None => run r2 cu k
      end
  | Star greedy r1 =>
      repeat_step (run r1) greedy k (String.length (rest cu)) cu
  | Group n r1 => run r1 cu (fun cu1 => k (close_group n cu cu1))
  | WordB =>
      if xorb (word_at (before cu)) (word_at (next_char (rest cu)))
      then k cu else None
  end.

(** A match object: where the match starts, the whole match and the
    groups. *)
Record match_object : Type := {
  m_start : nat;
  m_whole : string;
  m_groups : list (nat * string)
}.

Definition start_at (prev : option ascii) (s : string) : cursor :=
  {| before := prev; rest := s; groups := [] |}.

(** [re.search]: the first position, from the left, at which the
    pattern matches. *)
Fixpoint search_from (r : regex) (prev : option ascii) (s : string)
  (off : nat) : option match_object :=
  match run r (start_at prev s) Some with
  | Some cu =>
      Some {| m_start := off;
              m_whole := consumed (start_at prev s) cu;
              m_groups := groups cu |}
  | None =>
      match s with
      | EmptyString => None
      | String c s' => search_from r (Some c) s' (S off)
      end
  end.

Definition search (r : regex) (s : string) : option match_object :=
  search_from r None s 0.

Fixpoint lookup_group (n : nat) (gs : list (nat * string)) : option string :=
  match gs with
  | [] => None
  | (i, s) :: gs' => if Nat.eqb i n then Some s else lookup_group n gs'
  end.

(** [m.group(n)] for [n >= 1]; a group that took no part in the match
    is [None]. *)
Definition group (n : nat) (m : match_object) : option string :=
  lookup_group n (m_groups m).

Definition matches (r : regex) (s : string) : bool :=
  match search r s with Some _ => true | None => false end.

(** *** Pattern syntax *)

Fixpoint cat (rs : list regex) : regex :=
  match rs with
  | [] => Eps
  | [r] => r
  | r :: rs' => Seq r (cat rs')
  end.

Fixpoint alt (rs : list regex) : regex :=
  match rs with
  | [] => Chr (fun _ => false)
  | [r] => r
  | r :: rs' => Alt r (alt rs')
  end.

Definition star (r : regex) : regex := Star true r.        (* r*  *)
Definition plus (r : regex) : regex := Seq r (Star true r). (* r+  *)
Definition lazy_plus (r : regex) : regex := Seq r (Star false r). (* r+? *)
Definition opt (r : regex) : regex := Alt r Eps.            (* r?  *)

(** One literal character; with [re.IGNORECASE] both cases of a letter. *)
Definition chr (c : ascii) : regex := Chr (Ascii.eqb c).
Definition chr_i (c : ascii) : regex :=
  Chr (fun x => Ascii.eqb (PyStr.lower_char x) (PyStr.lower_char c)).

Fixpoint lit (s : string) : regex :=
  match s with
  | EmptyString => Eps
  | String c EmptyString => chr c
  | String c s' => Seq (chr c) (lit s')
  end.

Fixpoint lit_i (s : string) : regex :=
  match s with
  | EmptyString => Eps
  | String c EmptyString => chr_i c
  | String c s' => Seq (chr_i c) (lit_i s')
  end.

Fixpoint mem (c : ascii) (s : string) : bool :=
  match s with
  | EmptyString => false
  | String x s' => (Ascii.eqb c x || mem c s')%bool
  end.

Definition space : regex := Chr PyStr.is_space.   (* \s *)
Definition word : regex := Chr PyStr.is_word.     (* \w *)
Definition digit : regex := Chr PyStr.is_digit.   (* \d *)

(** [[...]] over listed characters, optionally with \s or \w inside. *)
Definition one_of (s : string) : regex := Chr (fun c => mem c s).
Definition one_of_or_space (s : string) : regex :=
  Chr (fun c => (mem c s || PyStr.is_space c)%bool).
Definition none_of (s : string) : regex := Chr (fun c => negb (mem c s)).

(** *** The words of a pattern

    [denotes r w]: the pattern [r] can consume exactly the word [w] (the
    context test of a word boundary consumes nothing). *)
Inductive denotes : regex -> string -> Prop :=
| D_eps : denotes Eps EmptyString
| D_chr (p : ascii -> bool) (c : ascii) :
    p c = true -> denotes (Chr p) (String c EmptyString)
| D_seq (r1 r2 : regex) (w1 w2 : string) :
    denotes r1 w1 -> denotes r2 w2 -> denotes (Seq r1 r2) (w1 ++ w2)
| D_alt_l (r1 r2 : regex) (w : string) :
    denotes r1 w -> denotes (Alt r1 r2) w
| D_alt_r (r1 r2 : regex) (w : string) :
    denotes r2 w -> denotes (Alt r1 r2) w
| D_star_nil (g : bool) (r : regex) : denotes (Star g r) EmptyString
| D_star_cons (g : bool) (r : regex) (w1 w2 : string) :
    denotes r w1 -> denotes (Star g r) w2 -> denotes (Star g r) (w1 ++ w2)
| D_group (n : nat) (r : regex) (w : string) :
    denotes r w -> denotes (Group n r) w
| D_wordb : denotes WordB EmptyString.

(** [cu'] lies a word of [r] to the right of [cu], with the groups of
    [cu] and possibly more. *)
Definition reaches (r : regex) (cu cu' : cursor) : Prop :=
  exists w gs, rest cu = w ++ rest cu' /\ denotes r w
               /\ groups cu' = (gs ++ groups cu)%list.

Definition has_group (n : nat) (gs : list (nat * string)) : Prop :=
  exists w, lookup_group n gs = Some w.

End Re.

(* ================================================================== *)
(** ** [InvoiceMonitor.is_potential_invoice] *)

Module Detector.

(** [invoice_keywords], as listed in the source (two of its entries are
    written in capitals). *)
Definition invoice_keywords : list string :=
  [ "invoice"; "bill"; "receipt"; "statement";
    "total amount"; "due date"; "tax invoice";
    "payment due"; "charges"; "order number";
    "balance due"; "purchase order"; "VAT"; "GST";
    "invoice number"; "invoice date"; "billing date";
    "payment terms"; "subtotal"; "total due"; "amount due";
    "invoice total"; "account number"; "customer id" ].

Definition strong_keywords : list string :=
  [ "invoice number"; "purchase order"; "total amount" ].

(** [sum(1 for keyword in invoice_keywords if keyword in text_lower)] *)
Definition keyword_matches (text_lower : string) : nat :=
  List.length
    (List.filter (fun keyword => PyStr.contains keyword text_lower)
                 invoice_keywords).

(** [invoice\s*#\s*\w+] *)
Definition invoice_hash_pattern : Re.regex :=
  Re.cat [ Re.lit "invoice"; Re.star Re.space; Re.chr "#";
           Re.star Re.space; Re.plus Re.word ].

(** [total\s*[:$]?\s*\d+] *)
Definition total_pattern : Re.regex :=
  Re.cat [ Re.lit "total"; Re.star Re.space; Re.opt (Re.one_of ":$");
           Re.star Re.space; Re.plus Re.digit ].

Definition is_potential_invoice (text : string) : bool :=
  let text_lower := PyStr.lower text in
  let keyword_matches := keyword_matches text_lower in
  if Nat.leb 3 keyword_matches then true
  else if (Nat.leb 2 keyword_matches
           && List.existsb (fun k => PyStr.contains k text_lower)
                           strong_keywords)%bool then true
  else if (Re.matches invoice_hash_pattern text_lower
           && Re.matches total_pattern text_lower)%bool then true
  else false.

End Detector.

(* ================================================================== *)
(** ** [InvoiceMonitor.extract_invoice_details_from_text] *)

Module Extractor.

Import Re.

(** The patterns are quoted from the source above their definitions; in
    the quotations a blank is put between a star and a closing
    parenthesis. *)

(** A computation that may raise: [None] is an exception that leaves
    the function. *)
Definition raising (A : Type) : Type := option A.
Definition ret {A : Type} (a : A) : raising A := Some a.
Definition bind {A B : Type} (m : raising A) (f : A -> raising B)
  : raising B :=
  match m with Some a => f a | None => None end.

Notation "x <- m ;; k" := (bind m (fun x => k))
  (at level 61, m at next level, right associativity).

(** [m.group(1)] followed by a method call: an unset group is [None],
    on which the call raises. *)
Definition group1 (m : match_object) : raising string := Re.group 1 m.

Record invoice_details : Type := {
  invoice_number : option string;
  purchase_order : option string;
  total_amount : option PyFloat.float;
  invoice_date : option string;
  file_path : option string;
  vendor_name : option string;
  due_date : option string;
  tax_amount : option PyFloat.float;
  subtotal : option PyFloat.float;
  currency : string;
  status : string;
  extracted_from : string
}.

Definition pound : ascii := ascii_of_nat 163.
Definition euro : ascii := ascii_of_nat 164.

(** [[$€£]] *)
Definition currency_symbol : regex :=
  Chr (fun c => (Ascii.eqb c "$" || Ascii.eqb c euro || Ascii.eqb c pound)%bool).

(** [,\d{3}] *)
Definition thousands : regex := cat [chr ","; digit; digit; digit].

(** [\d+(?:,\d{3})*(?:\.\d{2})?] *)
Definition number : regex :=
  cat [ plus digit; star thousands; opt (cat [chr "."; digit; digit]) ].

(** [\w+[-\w]*] *)
Definition token : regex :=
  Seq (plus word) (star (Chr (fun c => (Ascii.eqb c "-" || PyStr.is_word c)%bool))).

(** [\d{1,2}] and [\d{2,4}] *)
Definition digits_1_2 : regex := Seq digit (opt digit).
Definition digits_2_4 : regex :=
  cat [digit; digit; opt (Seq digit (opt digit))].
Definition digits_4 : regex := cat [digit; digit; digit; digit].

(** [\d{1,2}[-/]\d{1,2}[-/]\d{2,4}|\w+\s+\d{1,2},?\s+\d{4}] *)
Definition date_forms : regex :=
  Alt (cat [digits_1_2; one_of "-/"; digits_1_2; one_of "-/"; digits_2_4])
      (cat [plus word; plus space; digits_1_2; opt (chr ",");
            plus space; digits_4]).

(** [invoice\s*#\s*(\w+)] *)
Definition invoice_pattern : regex :=
  cat [ lit_i "invoice"; star space; chr "#"; star space;
        Group 1 (plus word) ].

(** [invoice\s*(?:no|number|num)[.:\s]*(\w+[-\w]* )] *)
Definition alt_invoice_pattern : regex :=
  cat [ lit_i "invoice"; star space;
        alt [lit_i "no"; lit_i "number"; lit_i "num"];
        star (one_of_or_space ".:");
        Group 1 token ].

(** [purchase\s*order\s*#\s*(\w+)] *)
Definition po_pattern : regex :=
  cat [ lit_i "purchase"; star space; lit_i "order"; star space;
        chr "#"; star space; Group 1 (plus word) ].

(** [(?:po|p\.o\.|purchase\s*order)[.:\s#]*(\w+[-\w]* )] *)
Definition alt_po_pattern : regex :=
  cat [ alt [ lit_i "po"; lit_i "p.o.";
              cat [lit_i "purchase"; star space; lit_i "order"] ];
        star (one_of_or_space ".:#");
        Group 1 token ].

(** [total\s*amount\s*[:$]?\s*(\d+(?:,\d{3})*(?:\.\d{2})?)] *)
Definition amount_pattern : regex :=
  cat [ lit_i "total"; star space; lit_i "amount"; star space;
        opt (one_of ":$"); star space; Group 1 number ].

(** [(?:total|amount\s*due|balance\s*due|grand\s*total)[.:\s]*[$€£]?\s*(\d+(?:,\d{3})*(?:\.\d{2})?)] *)
Definition alt_amount_pattern : regex :=
  cat [ alt [ lit_i "total";
              cat [lit_i "amount"; star space; lit_i "due"];
              cat [lit_i "balance"; star space; lit_i "due"];
              cat [lit_i "grand"; star space; lit_i "total"] ];
        star (one_of_or_space ".:"); opt currency_symbol; star space;
        Group 1 number ].

(** [\b\d{1,2}/\d{1,2}/\d{4}\b] *)
Definition date_pattern : regex :=
  cat [ WordB; digits_1_2; chr "/"; digits_1_2; chr "/"; digits_4; WordB ].

(** [(?:invoice|bill|statement)\s*date[.:\s]*(...)] *)
Definition alt_date_pattern : regex :=
  cat [ alt [lit_i "invoice"; lit_i "bill"; lit_i "statement"];
        star space; lit_i "date"; star (one_of_or_space ".:");
        Group 1 date_forms ].

(** [[A-Za-z0-9\s.,&]] *)
Definition vendor_char : regex :=
  Chr (fun c => (PyStr.is_upper c || PyStr.is_lower c || PyStr.is_digit c
                 || PyStr.is_space c || mem c ".,&")%bool).

(** [(?:vendor|supplier|from|bill\s*from|sold\s*by)[.:\s]*([A-Za-z0-9\s.,&]+?)(?:\n|Inc\.|\bLLC\b|\bLtd\b|\bCorp\.?\b)] *)
Definition vendor_pattern : regex :=
  cat [ alt [ lit_i "vendor"; lit_i "supplier"; lit_i "from";
              cat [lit_i "bill"; star space; lit_i "from"];
              cat [lit_i "sold"; star space; lit_i "by"] ];
        star (one_of_or_space ".:");
        Group 1 (lazy_plus vendor_char);
        alt [ chr (ascii_of_nat 10);
              lit_i "Inc.";
              cat [WordB; lit_i "LLC"; WordB];
              cat [WordB; lit_i "Ltd"; WordB];
              cat [WordB; lit_i "Corp"; opt (chr "."); WordB] ] ].

(** [([^<@]+)@] *)
Definition sender_pattern : regex :=
  Seq (Group 1 (plus (none_of "<@"))) (chr "@").

(** [(?:due|payment\s*due|due\s*date)[.:\s]*(...)] *)
Definition due_date_pattern : regex :=
  cat [ alt [ lit_i "due";
              cat [lit_i "payment"; star space; lit_i "due"];
              cat [lit_i "due"; star space; lit_i "date"] ];
        star (one_of_or_space ".:");
        Group 1 date_forms ].

(** [(?:tax|vat|gst)[.:\s]*[$€£]?\s*(\d+(?:,\d{3})*(?:\.\d{2})?)] *)
Definition tax_pattern : regex :=
  cat [ alt [lit_i "tax"; lit_i "vat"; lit_i "gst"];
        star (one_of_or_space ".:"); opt currency_symbol; star space;
        Group 1 number ].

(** [(?:subtotal|sub\s*total)[.:\s]*[$€£]?\s*(\d+(?:,\d{3})*(?:\.\d{2})?)] *)
Definition subtotal_pattern : regex :=
  cat [ alt [lit_i "subtotal"; cat [lit_i "sub"; star space; lit_i "total"]];
        star (one_of_or_space ".:"); opt currency_symbol; star space;
        Group 1 number ].

(** [(?:currency|in)[.:\s]*(USD|EUR|GBP|JPY|CAD|AUD|CHF)] *)
Definition currency_pattern : regex :=
  cat [ alt [lit_i "currency"; lit_i "in"];
        star (one_of_or_space ".:");
        Group 1 (alt [ lit_i "USD"; lit_i "EUR"; lit_i "GBP"; lit_i "JPY";
                       lit_i "CAD"; lit_i "AUD"; lit_i "CHF" ]) ].

(** [float(m.group(1).replace(',', ''))] *)
Definition parse_amount (m : match_object) : raising PyFloat.float :=
  g <- group1 m ;;
  PyFloat.of_string (PyStr.replace_char "," "" g).

Definition extract_invoice_number (text : string) : option string :=
  match search invoice_pattern text with
  | Some invoice_match => Re.group 1 invoice_match
  | None =>
      match search alt_invoice_pattern text with
      | Some alt_invoice_match => Re.group 1 alt_invoice_match
      | None => None
      end
  end.

Definition extract_purchase_order (text : string) : option string :=
  match search po_pattern text with
  | Some po_match => Re.group 1 po_match
  | None =>
      match search alt_po_pattern text with
      | Some alt_po_match => Re.group 1 alt_po_match
      | None => None
      end
  end.

Definition extract_total_amount (text : string)
  : raising (option PyFloat.float) :=
  match search amount_pattern text with
  | Some amount_match => v <- parse_amount amount_match ;; ret (Some v)
  | None =>
      match search alt_amount_pattern text with
      | Some alt_amount_match =>
          v <- parse_amount alt_amount_match ;; ret (Some v)
      | None => ret None
      end
  end.

Definition extract_invoice_date (text : string) : option string :=
  match search date_pattern text with
  | Some date_match => Some (m_whole date_match)
  | None =>
      match search alt_date_pattern text with
      | Some alt_date_match => Re.group 1 alt_date_match
      | None => None
      end
  end.

Definition extract_vendor_name (text : string) (email_sender : option string)
  : raising (option string) :=
  match search vendor_pattern text with
  | Some vendor_match =>
      g <- group1 vendor_match ;; ret (Some (PyStr.strip g))
  | None =>
      match email_sender with
      | Some (String c s) =>
          match search sender_pattern (String c s) with
          | Some sender_match =>
              g <- group1 sender_match ;;
              ret (Some (PyStr.title (PyStr.replace_char "." " " g)))
          | None => ret None
          end
      | _ => ret None
      end
  end.

Definition extract_due_date (text : string) : option string :=
  match search due_date_pattern text with
  | Some due_date_match => Re.group 1 due_date_match
  | None => None
  end.

Definition extract_labelled_amount (pattern : regex) (text : string)
  : raising (option PyFloat.float) :=
  match search pattern text with
  | Some m => v <- parse_amount m ;; ret (Some v)
  | None => ret None
  end.

Definition extract_currency (text : string) : raising string :=
  match search currency_pattern text with
  | Some currency_match => g <- group1 currency_match ;; ret (PyStr.upper g)
  | None =>
      if matches (chr "$") text then ret "USD"
      else if matches (chr euro) text then ret "EUR"
      else if matches (chr pound) text then ret "GBP"
      else ret "USD"
  end.

Definition extract_invoice_details_from_text
  (text : string) (filepath email_subject email_sender : option string)
  : raising invoice_details :=
  let invoice_number := extract_invoice_number text in
  let purchase_order := extract_purchase_order text in
  total_amount <- extract_total_amount text ;;
  let invoice_date := extract_invoice_date text in
  vendor_name <- extract_vendor_name text email_sender ;;
  let due_date := extract_due_date text in
  tax_amount <- extract_labelled_amount tax_pattern text ;;
  subtotal <- extract_labelled_amount subtotal_pattern text ;;
  currency <- extract_currency text ;;
  ret {| invoice_number := invoice_number;
         purchase_order := purchase_order;
         total_amount := total_amount;
         invoice_date := invoice_date;
         file_path := filepath;
         vendor_name := vendor_name;
         due_date := due_date;
         tax_amount := tax_amount;
         subtotal := subtotal;
         currency := currency;
         status := "pending";
         extracted_from := "email_attachment" |}.

End Extractor.

(* ================================================================== *)
(** ** [DatabaseManager]: reconciliation and approval *)

Module Store.

(** Rows of [purchase_orders], [invoices] and [validation_reports]
    (the [created_at] time stamps are left out). *)
Record purchase_order : Type := {
  po_id : Z;
  po_number : option string;
  po_vendor_name : option string;
  po_issue_date : option string;
  po_total_amount : option PyFloat.float;
  po_status : option string
}.

Record invoice : Type := {
  inv_id : Z;
  inv_invoice_number : option string;
  inv_po_number : option string;
  inv_vendor_name : option string;
  inv_invoice_date : option string;
  inv_total_amount : option PyFloat.float;
  inv_file_path : option string;
  inv_status : option string;
  inv_validation_result : option string
}.

(** One entry of the list [discrepancies]: the dictionary with
    ["field": "vendor_name"] or the one with ["field": "total_amount"]. *)
Inductive discrepancy : Type :=
| VendorName (po_value invoice_value : string)
| TotalAmount (po_value invoice_value difference : PyFloat.float).

Definition field (d : discrepancy) : string :=
  match d with
  | VendorName _ _ => "vendor_name"
  | TotalAmount _ _ _ => "total_amount"
  end.

(** The column [discrepancies] holds [str(discrepancies)]; the model
    keeps the list that this text prints. *)
Record validation_report : Type := {
  rep_id : Z;
  rep_invoice_id : option Z;
  rep_report_content : option string;
  rep_discrepancies : option (list discrepancy);
  rep_approval_status : option string
}.

(** [report_sequence] is the largest id [validation_reports] has handed
    out (AUTOINCREMENT). *)
Record database : Type := {
  purchase_orders : list purchase_order;
  invoices : list invoice;
  validation_reports : list validation_report;
  report_sequence : Z
}.

(** The mail settings read by [__init__]. *)
Record manager : Type := {
  email_address : option string;
  email_password : option string;
  approver_email : option string
}.

(** A message handed to the SMTP server. *)
Record mail : Type := {
  mail_to : string;
  mail_subject : string;
  mail_body : string;
  mail_file : option string
}.

(** What [validate_invoice] returns. *)
Inductive outcome : Type :=
| ReturnNone
| ReturnError (message : string)
| ReturnResult (status : string) (invoice_id report_id : Z)
               (discrepancies : list discrepancy) (report_content : string).

Inductive identifier : Type :=
| ById (invoice_id : Z)
| ByNumber (invoice_number : string).

(** *** Statements *)

(** [SELECT ... FROM invoices WHERE id = ?], [fetchone()]. *)
Definition select_invoice (db : database) (id : Z) : option invoice :=
  List.find (fun i => Z.eqb (inv_id i) id) (invoices db).

(** [SELECT id FROM invoices WHERE invoice_number = ?], [fetchone()]. *)
Definition select_invoice_by_number (db : database) (number : string)
  : option invoice :=
  List.find (fun i => PyStr.opt_eqb (inv_invoice_number i) (Some number))
            (invoices db).

(** [SELECT ... FROM purchase_orders WHERE po_number = ?], [fetchone()];
    a NULL on either side of [=] selects nothing. *)
Definition select_purchase_order (db : database) (number : option string)
  : option purchase_order :=
  match number with
  | None => None
  | Some n =>
      List.find (fun p => PyStr.opt_eqb (po_number p) (Some n))
                (purchase_orders db)
  end.

(** [SELECT invoice_id FROM validation_reports WHERE id = ?]. *)
Definition select_report (db : database) (id : Z) : option validation_report :=
  List.find (fun r => Z.eqb (rep_id r) id) (validation_reports db).

Definition set_invoice_status (status validation_result : option string)
  (i : invoice) : invoice :=
  {| inv_id := inv_id i;
     inv_invoice_number := inv_invoice_number i;
     inv_po_number := inv_po_number i;
     inv_vendor_name := inv_vendor_name i;
     inv_invoice_date := inv_invoice_date i;
     inv_total_amount := inv_total_amount i;
     inv_file_path := inv_file_path i;
     inv_status := status;
     inv_validation_result := validation_result |}.

Definition with_invoices (db : database) (l : list invoice) : database :=
  {| purchase_orders := purchase_orders db;
     invoices := l;
     validation_reports := validation_reports db;
     report_sequence := report_sequence db |}.

Definition with_reports (db : database) (l : list validation_report)
  (sequence : Z) : database :=
  {| purchase_orders := purchase_orders db;
     invoices := invoices db;
     validation_reports := l;
     report_sequence := sequence |}.

(** [UPDATE invoices SET status = ?, validation_result = ? WHERE id = ?] *)
Definition update_invoice_result (db : database) (id : Z)
  (status validation_result : string) : database :=
  with_invoices db
    (List.map (fun i => if Z.eqb (inv_id i) id
                        then set_invoice_status (Some status)
                                                (Some validation_result) i
                        else i)
              (invoices db)).

(** [UPDATE invoices SET status = ? WHERE id = ?]; no row has a NULL id. *)
Definition update_invoice_status (db : database) (id : option Z)
  (status : string) : database :=
  match id with
  | None => db
  | Some n =>
      with_invoices db
        (List.map (fun i => if Z.eqb (inv_id i) n
                            then set_invoice_status (Some status)
                                                    (inv_validation_result i) i
                            else i)
                  (invoices db))
  end.

(** [report_content || ?]: NULL stays NULL. *)
Definition sql_concat (a : option string) (b : string) : option string :=
  match a with Some s => Some (s ++ b) | None => None end.

(** [UPDATE validation_reports SET approval_status = ?,
     report_content = report_content || ? WHERE id = ?] *)
Definition update_report (db : database) (id : Z) (approval_status : string)
  (suffix : string) : database :=
  with_reports db
    (List.map (fun r => if Z.eqb (rep_id r) id
                        then {| rep_id := rep_id r;
                                rep_invoice_id := rep_invoice_id r;
                                rep_report_content :=
                                  sql_concat (rep_report_content r) suffix;
                                rep_discrepancies := rep_discrepancies r;
                                rep_approval_status := Some approval_status |}
                        else r)
              (validation_reports db))
    (report_sequence db).

(** [INSERT INTO validation_reports (...) VALUES (?, ?, ?, ?)] and
    [cursor.lastrowid]. *)
Definition insert_report (db : database) (invoice_id : Z)
  (report_content : string) (discrepancies : option (list discrepancy))
  (approval_status : string) : database * Z :=
  let id := report_sequence db + 1 in
  (with_reports db
     (validation_reports db ++
        [ {| rep_id := id;
             rep_invoice_id := Some invoice_id;
             rep_report_content := Some report_content;
             rep_discrepancies := discrepancies;
             rep_approval_status := Some approval_status |} ])%list
     id,
   id).

(** *** [update_approval_status] *)

Definition comment_line (comments : option string) : string :=
  if PyStr.truthy comments
  then PyStr.nl ++ PyStr.nl ++ "Approver Comments: " ++ PyStr.format_opt comments
  else PyStr.nl ++ PyStr.nl ++ "Approved without comments".

(** The connection works on [conn]; [fetchone()[0]] raises on a report
    id that selects no row, the handler returns [False] and the
    connection is closed before any [commit()], which leaves [db]. *)
Definition update_approval_status (db : database) (report_id : Z)
  (approval_status : string) (comments : option string) : database * bool :=
  let conn := update_report db report_id approval_status
                            (comment_line comments) in
  match select_report conn report_id with
  | None => (db, false)
  | Some row =>
      let invoice_id := rep_invoice_id row in
      let conn :=
        if String.eqb approval_status "approved"
        then update_invoice_status conn invoice_id "approved"
        else update_invoice_status conn invoice_id "rejected" in
      (conn, true)
  end.

(** *** [validate_invoice] *)

Definition get_invoice_id_by_number (db : database) (invoice_number : string)
  : option Z :=
  match select_invoice_by_number db invoice_number with
  | Some i => Some (inv_id i)
  | None => None
  end.

(** The integers SQLite can bind: [execute] raises [OverflowError] on
    any other, and no row has such an id. *)
Definition in_int64 (n : Z) : bool :=
  ((- 2 ^ 63 <=? n) && (n <? 2 ^ 63))%bool.

(** The first block of [validate_invoice]: a number is turned into an
    id; [not invoice_id] holds for [None] and for [0]. *)
Definition resolve_identifier (db : database) (invoice_identifier : identifier)
  : option Z :=
  match invoice_identifier with
  | ById n => Some n
  | ByNumber s =>
      match get_invoice_id_by_number db s with
      | Some n => if Z.eqb n 0 then None else Some n
      | None => None
      end
  end.

(** The two comparisons of [validate_invoice], each guarded by the truth
    value of both operands. *)
Definition vendor_discrepancy (po_vendor invoice_vendor : option string)
  : list discrepancy :=
  match po_vendor, invoice_vendor with
  | Some p, Some i =>
      if (PyStr.truthy po_vendor && PyStr.truthy invoice_vendor
          && negb (String.eqb (PyStr.lower p) (PyStr.lower i)))%bool
      then [VendorName p i] else []
  | _, _ => []
  end.

Definition tolerance : PyFloat.float := PyFloat.of_decimal 1 100.

Definition amount_discrepancy (po_amount invoice_amount : option PyFloat.float)
  : list discrepancy :=
  match po_amount, invoice_amount with
  | Some p, Some i =>
      if (PyFloat.truthy po_amount && PyFloat.truthy invoice_amount
          && PyFloat.gtb (PyFloat.abs (PyFloat.sub p i)) tolerance)%bool
      then [TotalAmount p i (PyFloat.abs (PyFloat.sub p i))] else []
  | _, _ => []
  end.

Definition is_empty {A : Type} (l : list A) : bool :=
  match l with [] => true | _ => false end.

(** ["discrepancies"] of a returned dictionary (empty when the key is
    missing or nothing is returned). *)
Definition discrepancies_of (o : outcome) : list discrepancy :=
  match o with
  | ReturnResult _ _ _ ds _ => ds
  | _ => []
  end.

Definition has_field (name : string) (ds : list discrepancy) : bool :=
  List.existsb (fun d => String.eqb (field d) name) ds.

Section Rendering.

(** [str(x)] of a float, the shortest numeral that reads back as [x],
    is a function of the Python runtime; the rendered texts are given
    for any such function. *)
Variable float_str : PyFloat.float -> string.

Definition format_amount (v : option PyFloat.float) : string :=
  match v with Some x => float_str x | None => "None" end.

Definition format_discrepancy (d : discrepancy) : string :=
  let label := PyStr.title (PyStr.replace_char "_" " " (field d)) in
  match d with
  | TotalAmount po_value invoice_value difference =>
      "- " ++ label ++ ": PO: $" ++ float_str po_value
           ++ " vs Invoice: $" ++ float_str invoice_value
           ++ " (Difference: $" ++ float_str difference ++ ")"
  | VendorName po_value invoice_value =>
      "- " ++ label ++ ": PO: " ++ po_value
           ++ " vs Invoice: " ++ invoice_value
  end.

Definition _format_discrepancies (discrepancies : list discrepancy)
  : string :=
  if is_empty discrepancies then "None found"
  else PyStr.join PyStr.nl (List.map format_discrepancy discrepancies).

Definition indent : string := "            ".

Definition line (s : string) : string := indent ++ s ++ PyStr.nl.

Definition render_report (invoice_number po_number : option string)
  (status : string) (invoice_vendor po_vendor : option string)
  (invoice_amount po_amount : option PyFloat.float)
  (discrepancies : list discrepancy) : string :=
  PyStr.nl
  ++ line "Invoice Validation Report"
  ++ line "-------------------------"
  ++ line ("Invoice Number: " ++ PyStr.format_opt invoice_number)
  ++ line ("Purchase Order: " ++ PyStr.format_opt po_number)
  ++ line ("Validation Status: " ++ status)
  ++ line ""
  ++ line "Details:"
  ++ line ("- Invoice Vendor: " ++ PyStr.format_opt invoice_vendor)
  ++ line ("- PO Vendor: " ++ PyStr.format_opt po_vendor)
  ++ line ("- Invoice Amount: $" ++ format_amount invoice_amount)
  ++ line ("- PO Amount: $" ++ format_amount po_amount)
  ++ line ""
  ++ line "Discrepancies:"
  ++ line (if is_empty discrepancies then "None found"
           else _format_discrepancies discrepancies)
  ++ indent.

(** [send_validation_report]: nothing is sent without the three mail
    settings; otherwise the message is handed to the server (whose
    failures are logged and swallowed). *)
Definition send_validation_report (m : manager) (status report_content : string)
  (invoice_file_path : option string) : list mail :=
  match email_address m, email_password m, approver_email m with
  | Some (String _ _), Some (String _ _), Some (String a to) =>
      [ {| mail_to := String a to;
           mail_subject := "Invoice Validation Report - " ++ PyStr.upper status;
           mail_body := report_content;
           mail_file := invoice_file_path |} ]
  | _, _, _ => []
  end.

Record run : Type := {
  stored : database;
  sent : list mail;
  returned : outcome
}.

Definition finish (db : database) (o : outcome) : run :=
  {| stored := db; sent := []; returned := o |}.

(** [validate_invoice].  An id that no row has ends the run with [None];
    one beyond the 64 bits of an SQLite INTEGER cannot be bound ([execute]
    raises [OverflowError]) and the handler returns the error of the
    exception. *)
Definition validate_invoice (m : manager) (db : database)
  (invoice_identifier : identifier) : run :=
  match resolve_identifier db invoice_identifier, invoice_identifier with
  | None, ByNumber s =>
      finish db (ReturnError ("Invoice with number " ++ s ++ " not found"))
  | None, ById _ => finish db ReturnNone
  | Some invoice_id, _ =>
  match select_invoice db invoice_id with
  | None =>
      if in_int64 invoice_id then finish db ReturnNone
      else finish db (ReturnError
                        "Python int too large to convert to SQLite INTEGER")
  | Some invoice =>
  let invoice_number := inv_invoice_number invoice in
  let po_number := inv_po_number invoice in
  let invoice_vendor := inv_vendor_name invoice in
  let invoice_amount := inv_total_amount invoice in
  let file_path := inv_file_path invoice in
  match select_purchase_order db po_number with
  | None =>
      finish (update_invoice_result db invoice_id
                "error" "Purchase order not found")
             (ReturnError "Purchase order not found")
  | Some po =>
  let po_vendor := po_vendor_name po in
  let po_amount := po_total_amount po in
  let discrepancies :=
    (vendor_discrepancy po_vendor invoice_vendor
     ++ amount_discrepancy po_amount invoice_amount)%list in
  let '(status, validation_result) :=
    if is_empty discrepancies
    then ("validated", "Invoice matches purchase order")
    else ("discrepancies_found",
          "Discrepancies found between invoice and purchase order") in
  let conn := update_invoice_result db invoice_id status validation_result in
  let report_content :=
    render_report invoice_number po_number status invoice_vendor
                  po_vendor invoice_amount po_amount discrepancies in
  let '(conn, report_id) :=
    insert_report conn invoice_id report_content
      (if is_empty discrepancies then None else Some discrepancies)
      (if is_empty discrepancies then "auto_approved"
       else "requires_approval") in
  {| stored := conn;
     sent := if (negb (is_empty discrepancies)
                 && PyStr.truthy (approver_email m))%bool
             then send_validation_report m status report_content file_path
             else [];
     returned := ReturnResult status invoice_id report_id discrepancies
                              report_content |}
  end end end.

End Rendering.

End Store.

(* ================================================================== *)
(** ** Sample data *)

Module Samples.

Import Store.

Definition amount (cents : Z) : PyFloat.float := PyFloat.of_decimal cents 100.

Definition sample_po (vendor : string) (total : PyFloat.float) : purchase_order :=
  {| po_id := 1; po_number := Some "PO100"; po_vendor_name := Some vendor;
     po_issue_date := Some "2025-03-20"; po_total_amount := Some total;
     po_status := Some "active" |}.

Definition sample_invoice (po : option string) (vendor : string)
  (total : PyFloat.float) : invoice :=
  {| inv_id := 1; inv_invoice_number := Some "INV1"; inv_po_number := po;
     inv_vendor_name := Some vendor; inv_invoice_date := Some "2025-03-25";
     inv_total_amount := Some total;
     inv_file_path := Some "./invoices/sample_invoice_1.pdf";
     inv_status := Some "pending"; inv_validation_result := None |}.

(** One purchase order [PO100] and one invoice [INV1] that refers to it. *)
Definition sample_db (po_vendor : string) (po_total : PyFloat.float)
  (invoice_vendor : string) (invoice_total : PyFloat.float) : database :=
  {| purchase_orders := [sample_po po_vendor po_total];
     invoices := [sample_invoice (Some "PO100") invoice_vendor invoice_total];
     validation_reports := [];
     report_sequence := 0 |}.

(** The same invoice, referring to a purchase order that is not stored. *)
Definition orphan_db : database :=
  {| purchase_orders := [sample_po "Acme" (amount 50000)];
     invoices := [sample_invoice (Some "PO999") "Acme" (amount 50000)];
     validation_reports := [];
     report_sequence := 0 |}.

Definition sample_manager : manager :=
  {| email_address := None; email_password := None; approver_email := None |}.

(** A database with one report, awaiting approval, on invoice 1. *)
Definition reported_db : database :=
  {| purchase_orders := [sample_po "Acme" (amount 50000)];
     invoices := [sample_invoice (Some "PO100") "Acme Inc" (amount 54000)];
     validation_reports :=
       [ {| rep_id := 1; rep_invoice_id := Some 1;
            rep_report_content := Some "Invoice Validation Report";
            rep_discrepancies :=
              Some [VendorName "Acme" "Acme Inc"];
            rep_approval_status := Some "requires_approval" |} ];
     report_sequence := 1 |}.

(** The vendor comparison as the specification words it: both names
    present, and different once case is normalised and leading and
    trailing blanks are dropped. *)
Definition vendor_mismatch_as_specified (po_vendor invoice_vendor : option string)
  : bool :=
  match po_vendor, invoice_vendor with
  | Some p, Some i =>
      negb (String.eqb (PyStr.lower (PyStr.strip p))
                       (PyStr.lower (PyStr.strip i)))
  | _, _ => false
  end.

(** The amount comparison as the specification words it, on amounts in
    cents: the absolute difference is strictly more than one cent. *)
Definition amount_mismatch_as_specified (po_cents invoice_cents : Z) : bool :=
  Z.ltb 1 (Z.abs (po_cents - invoice_cents)).

(** Any rendering of floats will do where the rendered text plays no
    part. *)
Definition plain_float_str (x : PyFloat.float) : string := "?".

End Samples.

(* ================================================================== *)
(** ** [DatabaseManager]: registering purchase orders and invoices *)

Module Registry.

Import Store.

(** The database file with the AUTOINCREMENT counters of the two tables
    that are inserted into here (the largest id each has handed out). *)
Record catalog : Type := {
  tables : database;
  purchase_order_sequence : Z;
  invoice_sequence : Z
}.

(** The dictionary [po_data]: a key that is missing reads as [None]; for
    ['status'] a missing key ([None]) is told from a stored [None]
    ([Some None]), since [get('status', 'active')] has a default. *)
Record po_data : Type := {
  pd_po_number : option string;
  pd_vendor_name : option string;
  pd_issue_date : option string;
  pd_total_amount : option PyFloat.float;
  pd_status : option (option string)
}.

Definition with_purchase_orders (db : database) (l : list purchase_order)
  : database :=
  {| purchase_orders := l;
     invoices := invoices db;
     validation_reports := validation_reports db;
     report_sequence := report_sequence db |}.

(** The UNIQUE constraint on [po_number]: a stored row with the same
    number; NULL conflicts with nothing. *)
Definition po_number_taken (db : database) (number : option string) : bool :=
  match number with
  | None => false
  | Some n =>
      List.existsb (fun p => PyStr.opt_eqb (po_number p) (Some n))
                   (purchase_orders db)
  end.

Definition invoice_number_taken (db : database) (number : option string) : bool :=
  match number with
  | None => false
  | Some n =>
      List.existsb (fun i => PyStr.opt_eqb (inv_invoice_number i) (Some n))
                   (invoices db)
  end.

(** What a REAL column holds after a float is bound to it: SQLite stores
    a NaN as NULL and a negative zero as zero. *)
Definition sql_real (v : option PyFloat.float) : option PyFloat.float :=
  match v with
  | Some S754_nan => None
  | Some (S754_zero _) => Some (S754_zero false)
  | _ => v
  end.

(** [add_purchase_order]: the INSERT raises [IntegrityError] on a taken
    number, the connection is closed without a commit and [False] is
    returned. *)
Definition add_purchase_order (c : catalog) (d : po_data) : catalog * bool :=
  if po_number_taken (tables c) (pd_po_number d) then (c, false)
  else
    let id := purchase_order_sequence c + 1 in
    ({| tables :=
          with_purchase_orders (tables c)
            (purchase_orders (tables c) ++
               [ {| po_id := id;
                    po_number := pd_po_number d;
                    po_vendor_name := pd_vendor_name d;
                    po_issue_date := pd_issue_date d;
                    po_total_amount := sql_real (pd_total_amount d);
                    po_status := match pd_status d with
                                 | Some s => s
                                 | None => Some "active"
                                 end |} ])%list;
        purchase_order_sequence := id;
        invoice_sequence := invoice_sequence c |},
     true).

(** [add_invoice]: the dictionary is the one the extractor builds; its
    ['purchase_order'] goes to the column [po_number], the status stored
    is always 'pending', and the new id ([lastrowid]) is returned, or
    [None] on a taken invoice number. *)
Definition add_invoice (c : catalog) (d : Extractor.invoice_details)
  : catalog * option Z :=
  if invoice_number_taken (tables c) (Extractor.invoice_number d) then (c, None)
  else
    let id := invoice_sequence c + 1 in
    ({| tables :=
          with_invoices (tables c)
            (invoices (tables c) ++
               [ {| inv_id := id;
                    inv_invoice_number := Extractor.invoice_number d;
                    inv_po_number := Extractor.purchase_order d;
                    inv_vendor_name := Extractor.vendor_name d;
                    inv_invoice_date := Extractor.invoice_date d;
                    inv_total_amount := sql_real (Extractor.total_amount d);
                    inv_file_path := Extractor.file_path d;
                    inv_status := Some "pending";
                    inv_validation_result := None |} ])%list;
        purchase_order_sequence := purchase_order_sequence c;
        invoice_sequence := id |},
     Some id).

(** [validate_purchase_order]:
    [SELECT id FROM purchase_orders WHERE po_number = ? AND status = 'active']. *)
Definition validate_purchase_order (db : database) (number : option string)
  : bool :=
  match number with
  | None => false
  | Some n =>
      List.existsb (fun p => (PyStr.opt_eqb (po_number p) (Some n)
                              && PyStr.opt_eqb (po_status p) (Some "active"))%bool)
                   (purchase_orders db)
  end.

(** One row of [get_pending_approvals]. *)
Record pending_approval : Type := {
  pa_report_id : Z;
  pa_invoice_number : option string;
  pa_po_number : option string;
  pa_vendor_name : option string;
  pa_total_amount : option PyFloat.float;
  pa_file_path : option string
}.

(** [get_pending_approvals]: the reports with approval_status
    'requires_approval', joined with their invoices.  The source returns
    the rows newest first (ORDER BY created_at DESC); the creation times
    are not part of the model, the rows stand in table order here and
    only membership is stated of them. *)
Definition get_pending_approvals (db : database) : list pending_approval :=
  List.flat_map
    (fun r =>
       if PyStr.opt_eqb (rep_approval_status r) (Some "requires_approval")
       then match rep_invoice_id r with
            | Some iid =>
                List.map (fun i =>
                            {| pa_report_id := rep_id r;
                               pa_invoice_number := inv_invoice_number i;
                               pa_po_number := inv_po_number i;
                               pa_vendor_name := inv_vendor_name i;
                               pa_total_amount := inv_total_amount i;
                               pa_file_path := inv_file_path i |})
                         (List.filter (fun i => Z.eqb (inv_id i) iid)
                                      (invoices db))
            | None => []
            end
       else [])
    (validation_reports db).

Definition awaits_approval (db : database) (report_id : Z) : Prop :=
  exists row, List.In row (get_pending_approvals db)
              /\ pa_report_id row = report_id.

(** *** [setup_database]: removing duplicates *)

(** [SELECT MIN(id) FROM t GROUP BY key]: the least id among the rows
    that share the key of [j] (two NULL keys are one group). *)
Definition group_min {A : Type} (id : A -> Z) (key : A -> option string)
  (t : list A) (j : A) : Z :=
  List.fold_right Z.min (id j)
    (List.map id (List.filter (fun i => PyStr.opt_eqb (key i) (key j)) t)).

(** [DELETE FROM t WHERE id NOT IN (SELECT MIN(id) FROM t GROUP BY key)]. *)
Definition remove_duplicates {A : Type} (id : A -> Z) (key : A -> option string)
  (t : list A) : list A :=
  List.filter
    (fun i => List.existsb (fun j => Z.eqb (id i) (group_min id key t j)) t) t.

(** [setup_database] on a file that exists: the tables are there (CREATE
    TABLE IF NOT EXISTS does nothing), then duplicates are removed from
    [invoices] by invoice_number and from [purchase_orders] by po_number. *)
Definition setup_database (c : catalog) : catalog :=
  {| tables :=
       {| purchase_orders :=
            remove_duplicates po_id po_number (purchase_orders (tables c));
          invoices :=
            remove_duplicates inv_id inv_invoice_number (invoices (tables c));
          validation_reports := validation_reports (tables c);
          report_sequence := report_sequence (tables c) |};
     purchase_order_sequence := purchase_order_sequence c;
     invoice_sequence := invoice_sequence c |}.

(** The purchase orders with their status column rewritten by [f]. *)
Definition with_po_status (f : purchase_order -> option string)
  (p : purchase_order) : purchase_order :=
  {| po_id := po_id p; po_number := po_number p;
     po_vendor_name := po_vendor_name p; po_issue_date := po_issue_date p;
     po_total_amount := po_total_amount p; po_status := f p |}.

Definition restatus_orders (f : purchase_order -> option string) (db : database)
  : database :=
  with_purchase_orders db (List.map (with_po_status f) (purchase_orders db)).

(** The rewriting of one invoice's result, as a map over the table. *)
Definition restamp (id : Z) (status validation_result : string) (i : invoice)
  : invoice :=
  if Z.eqb (inv_id i) id
  then set_invoice_status (Some status) (Some validation_result) i
  else i.

(** *** Invariants of the tables *)

(** PRIMARY KEY AUTOINCREMENT on [validation_reports]: the ids are
    pairwise distinct and none exceeds the counter. *)
Definition report_ids_ok (db : database) : Prop :=
  List.NoDup (List.map rep_id (validation_reports db))
  /\ List.Forall (fun r => rep_id r <= report_sequence db)
                 (validation_reports db).

Definition invoice_ids_ok (c : catalog) : Prop :=
  List.NoDup (List.map inv_id (invoices (tables c)))
  /\ List.Forall (fun i => inv_id i <= invoice_sequence c)
                 (invoices (tables c)).

(** UNIQUE on [invoice_number]: no two rows share a number that is not
    NULL. *)
Fixpoint numbers_unique (l : list invoice) : Prop :=
  match l with
  | [] => True
  | i :: l' =>
      (forall n, inv_invoice_number i = Some n ->
                 forall j, List.In j l' -> inv_invoice_number j <> Some n)
      /\ numbers_unique l'
  end.

End Registry.

(* ================================================================== *)
(** ** Further sample data *)

Module Cases.

Import Store Registry.

(** An empty database file, as [setup_database] creates it. *)
Definition empty_catalog : catalog :=
  {| tables := {| purchase_orders := []; invoices := [];
                  validation_reports := []; report_sequence := 0 |};
     purchase_order_sequence := 0;
     invoice_sequence := 0 |}.

Definition acme_order : po_data :=
  {| pd_po_number := Some "PO100"; pd_vendor_name := Some "Acme";
     pd_issue_date := Some "2025-03-20";
     pd_total_amount := Some (Samples.amount 50000);
     pd_status := None |}.

(** The dictionary of an invoice as [extract_invoice_details_from_text]
    builds it. *)
Definition details (number po : option string) (vendor : string)
  (total : PyFloat.float) : Extractor.invoice_details :=
  {| Extractor.invoice_number := number;
     Extractor.purchase_order := po;
     Extractor.total_amount := Some total;
     Extractor.invoice_date := Some "03/25/2025";
     Extractor.file_path := Some "./invoices/20250325_101500_inv.pdf";
     Extractor.vendor_name := Some vendor;
     Extractor.due_date := None;
     Extractor.tax_amount := None;
     Extractor.subtotal := None;
     Extractor.currency := "USD";
     Extractor.status := "pending";
     Extractor.extracted_from := "email_attachment" |}.

(** The catalog with the purchase order [PO100] of Acme over 500.00. *)
Definition acme_catalog : catalog := fst (add_purchase_order empty_catalog acme_order).

End Cases.

(* ================================================================== *)
(** ** Shapes of extracted values *)

Module Shapes.

Fixpoint all_chars (p : ascii -> bool) (s : string) : bool :=
  match s with
  | EmptyString => true
  | String c s' => (p c && all_chars p s')%bool
  end.

Definition is_key_char (c : ascii) : bool :=
  (Ascii.eqb c "-" || PyStr.is_word c)%bool.

(** A word character followed by word characters and hyphens. *)
Definition key_shaped (s : string) : bool :=
  match s with
  | EmptyString => false
  | String c s' => (PyStr.is_word c && all_chars is_key_char s')%bool
  end.

(** The currencies of the data model. *)
Definition currency_codes : list string :=
  [ "USD"; "EUR"; "GBP"; "JPY"; "CAD"; "AUD"; "CHF" ].



(** The sign of a float is not set, and it is a number. *)
Definition is_nonnegative_number (x : PyFloat.float) : bool :=
  match x with
  | S754_zero false | S754_infinity false | S754_finite false _ _ => true
  | _ => false
  end.

End Shapes.

(* ================================================================== *)
(** ** [InvoiceMonitor]: mailbox connection and message processing *)

Module Monitor.

Import Store Registry.

(** [s.endswith(suffix)]: [suffix] is [s] or ends the tail of [s]. *)
Fixpoint endswith (s suffix : string) : bool :=
  (String.eqb s suffix
   || match s with
      | EmptyString => false
      | String _ s' => endswith s' suffix
      end)%bool.

(** [s.endswith((suffix, ...))]. *)
Definition endswith_any (s : string) (suffixes : list string) : bool :=
  List.existsb (endswith s) suffixes.

Definition attachment_extensions : list string :=
  [ ".pdf"; ".png"; ".jpg"; ".jpeg"; ".tiff"; ".bmp" ].

Definition image_extensions : list string :=
  [ ".png"; ".jpg"; ".jpeg"; ".tiff"; ".bmp" ].

(** [os.path.join(a, b)] of [posixpath]. *)
Definition path_join (a b : string) : string :=
  match b with
  | String "/" _ => b
  | _ => if (String.eqb a "" || endswith a "/")%bool then a ++ b
         else a ++ "/" ++ b
  end.

(** *** [connect_to_mailbox] *)

(** What the loop does to the outside: a connection attempt (with its
    number) or a sleep (with its length in seconds). *)
Inductive event : Type :=
| Attempt (number : Z)
| Sleep (seconds : Z).

(** The value of a call: the connection, [None], or the exception that
    [time.sleep] raises on a delay it does not accept (it is raised
    inside the [except] block, so nothing catches it). *)
Inductive connected (mailbox : Type) : Type :=
| Mail (mail : mailbox)
| NoMail
| SleepError.

Arguments Mail {mailbox} mail.
Arguments NoMail {mailbox}.
Arguments SleepError {mailbox}.

Section Connection.

Variable mailbox : Type.

(** The server: what [IMAP4_SSL(...)] followed by [login] gives at the
    attempt of that number, [None] when either raises. *)
Variable dial : Z -> option mailbox.

(** The clock: whether [time.sleep] takes a delay that is not negative
    after the attempt of that number.  It raises [ValueError] on a
    negative delay, and [OverflowError] or [OSError] on one too long for
    the clock of the system (some 9.2e9 seconds, less the time the system
    is up). *)
Variable clock_accepts : Z -> Z -> bool.

(** The iterations of [for attempt in range(1, retries + 1)] from
    [attempt] on, [remaining] of them. *)
Fixpoint connect_from (retries delay attempt : Z) (remaining : nat)
  : connected mailbox * list event :=
  match remaining with
  | O => (NoMail, [])
  | S remaining' =>
      match dial attempt with
      | Some mail => (Mail mail, [Attempt attempt])
      | None =>
          if attempt <? retries then
            if ((delay <? 0) || negb (clock_accepts attempt delay))%bool
            then (SleepError, [Attempt attempt])
            else
              let '(result, trace) :=
                connect_from retries delay (attempt + 1) remaining' in
              (result, Attempt attempt :: Sleep delay :: trace)
          else (NoMail, [Attempt attempt])
      end
  end.

Definition connect_to_mailbox (retries delay : Z)
  : connected mailbox * list event :=
  connect_from retries delay 1 (Z.to_nat retries).

End Connection.

Fixpoint attempts (trace : list event) : Z :=
  match trace with
  | [] => 0
  | Attempt _ :: rest => 1 + attempts rest
  | Sleep _ :: rest => attempts rest
  end.

Fixpoint slept (trace : list event) : Z :=
  match trace with
  | [] => 0
  | Attempt _ :: rest => slept rest
  | Sleep seconds :: rest => seconds + slept rest
  end.

(** The trace ends with a sleep. *)
Fixpoint ends_asleep (trace : list event) : bool :=
  match trace with
  | [] => false
  | [Sleep _] => true
  | _ :: rest => ends_asleep rest
  end.

(** *** Messages and the files around them *)

(** What the monitor reads of an [email.message.Message]: the Message-ID
    header ([None] when the message has none), the decoded subject and
    sender, the text [extract_email_body] gives, and [get_filename()] of
    each part of [walk()], in order. *)
Record message : Type := {
  message_id : option string;
  subject : string;
  sender : string;
  body : string;
  filenames : list (option string)
}.

(** The file system, the clock and the text readers, per position of the
    part that is being handled:
    [now]: [datetime.now().strftime('%Y%m%d_%H%M%S')];
    [written]: whether the payload could be written under the path (no
    exception in [download_attachment]);
    [pdf_pages]: [extract_text()] of each page of [PdfReader(path)],
    [None] when the reader raises;
    [pdf_ocr], [image_ocr]: [extract_text_from_pdf_with_ocr] and
    [extract_text_from_image], which give [''] on any failure. *)
Record world : Type := {
  invoice_download_path : string;
  now : nat -> string;
  written : nat -> string -> bool;
  pdf_pages : string -> option (list string);
  pdf_ocr : string -> string;
  image_ocr : string -> string
}.

(** [download_attachment]: the part is found (the caller took the name
    from a part of the same message) and written under a stamped name. *)
Definition download_attachment (w : world) (position : nat) (filename : string)
  : option string :=
  let save_path :=
    path_join (invoice_download_path w) (now w position ++ "_" ++ filename) in
  if written w position save_path then Some save_path else None.

Definition nonempty (s : string) : bool := PyStr.truthy (Some s).

(** [extract_text_from_file]; [None] when [PdfReader] raises. *)
Definition extract_text_from_file (w : world) (filepath : string)
  : Extractor.raising string :=
  if endswith filepath ".pdf" then
    match pdf_pages w filepath with
    | None => None
    | Some pages =>
        let text := PyStr.join PyStr.nl (List.filter nonempty pages) in
        if negb (nonempty (PyStr.strip text)) then Some (pdf_ocr w filepath)
        else Some text
    end
  else if endswith_any (PyStr.lower filepath) image_extensions
  then Some (image_ocr w filepath)
  else Some "".

(** A file name [extract_text_from_file] reads nothing from: it ends
    neither in '.pdf' as written nor, lower-cased, in an image
    extension. *)
Definition unreadable (name : string) : bool :=
  (negb (endswith name ".pdf")
   && negb (endswith_any (PyStr.lower name) image_extensions))%bool.

(** The loop of [process_attachments] from the part at [position] on.
    The catalog is returned in every case: what [add_invoice] committed
    stays when a later part raises.  The log lines, the CSV log and the
    call of [validate_purchase_order] (whose answer is only logged) leave
    no trace here. *)
Fixpoint attachments_from (w : world) (position : nat)
  (parts : list (option string)) (email_subject email_sender : option string)
  (c : catalog) (processed_invoices : list Z)
  : catalog * Extractor.raising (list Z) :=
  match parts with
  | [] => (c, Some processed_invoices)
  | filename :: rest =>
      let next c' processed' :=
        attachments_from w (S position) rest email_subject email_sender
                         c' processed' in
      match filename with
      | Some name =>
          if (nonempty name
              && endswith_any (PyStr.lower name) attachment_extensions)%bool
          then
            match download_attachment w position name with
            | Some filepath =>
                if nonempty filepath then
                  match extract_text_from_file w filepath with
                  | None => (c, None)
                  | Some text =>
                      if Detector.is_potential_invoice text then
                        match Extractor.extract_invoice_details_from_text
                                text (Some filepath) email_subject email_sender
                        with
                        | None => (c, None)
                        | Some invoice_details =>
                            let '(c', invoice_id) :=
                              add_invoice c invoice_details in
                            match invoice_id with
                            | Some id =>
                                if Z.eqb id 0 then next c' processed_invoices
                                else next c' (processed_invoices ++ [id])%list
                            | None => next c' processed_invoices
                            end
                        end
                      else next c processed_invoices
                  end
                else next c processed_invoices
            | None => next c processed_invoices
            end
          else next c processed_invoices
      | None => next c processed_invoices
      end
  end.

Definition process_attachments (w : world) (m : message)
  (email_subject email_sender : option string) (c : catalog)
  : catalog * Extractor.raising (list Z) :=
  attachments_from w 0 (filenames m) email_subject email_sender c [].

(** The monitor: the set [processed_emails] and the database. *)
Record monitor : Type := {
  processed_emails : list string;
  db : catalog
}.

(** [email_message.get("Message-ID", "")]. *)
Definition identifier (m : message) : string :=
  match message_id m with
  | Some i => i
  | None => ""
  end.

Definition already_processed (mon : monitor) (i : string) : bool :=
  List.existsb (String.eqb i) (processed_emails mon).

(** [process_email]: the new monitor and the list returned, [None] when
    an exception leaves the method. *)
Definition process_email (w : world) (mon : monitor) (m : message)
  : monitor * Extractor.raising (list Z) :=
  let message_id := identifier m in
  if already_processed mon message_id then (mon, Some [])
  else
    let seen := message_id :: processed_emails mon in
    if Detector.is_potential_invoice (body m) then
      let '(c, processed_invoices) :=
        process_attachments w m (Some (subject m)) (Some (sender m)) (db mon) in
      ({| processed_emails := seen; db := c |}, processed_invoices)
    else ({| processed_emails := seen; db := db mon |}, Some []).

(** [c'] is [c] with the rows [new] appended to the invoices table, each
    of them 'pending', without a validation result and under an id above
    the counter of [c]; nothing else differs. *)
Definition appended (c c' : catalog) (new : list invoice) : Prop :=
  purchase_orders (tables c') = purchase_orders (tables c)
  /\ validation_reports (tables c') = validation_reports (tables c)
  /\ report_sequence (tables c') = report_sequence (tables c)
  /\ purchase_order_sequence c' = purchase_order_sequence c
  /\ invoices (tables c') = (invoices (tables c) ++ new)%list
  /\ invoice_sequence c' = invoice_sequence c + Z.of_nat (List.length new)
  /\ List.Forall (fun i => inv_status i = Some "pending"
                           /\ inv_validation_result i = None
                           /\ invoice_sequence c < inv_id i
                              <= invoice_sequence c') new.

End Monitor.

(* ================================================================== *)
(** ** Sample messages *)

Module Deliveries.

Import Registry Monitor.

Definition invoice_text : string :=
  "INVOICE  Invoice # INV7  Purchase Order # PO100  Total Amount: $500.00".

(** Every file can be written and every PDF has one page, with the text
    above. *)
Definition office : world :=
  {| invoice_download_path := "./invoices";
     now := fun _ => "20250325_101500";
     written := fun _ _ => true;
     pdf_pages := fun _ => Some [invoice_text];
     pdf_ocr := fun _ => "";
     image_ocr := fun _ => "" |}.

Definition fresh_monitor : monitor :=
  {| processed_emails := []; db := Cases.acme_catalog |}.

(** A message without a Message-ID header. *)
Definition invoice_mail : message :=
  {| message_id := None;
     subject := "Invoice INV7";
     sender := "billing@acme.com";
     body := "Please find attached the invoice for purchase order PO100, total amount 500.00";
     filenames := [None; Some "inv7.pdf"] |}.

(** Another one, with another attachment. *)
Definition second_mail : message :=
  {| message_id := None;
     subject := "Invoice INV8";
     sender := "billing@bolt.com";
     body := "Invoice INV8 for purchase order PO200, total amount 75.00";
     filenames := [Some "inv8.pdf"] |}.

(** The same invoice under a name in capitals. *)
Definition capital_mail : message :=
  {| message_id := Some "<1@acme.com>";
     subject := "Invoice INV7";
     sender := "billing@acme.com";
     body := body invoice_mail;
     filenames := [None; Some "INVOICE.PDF"] |}.

End Deliveries.


(* ================================================================== *)
(** ** [ApproverInterface]: the approver's commands *)

Module Approver.

Import Store Registry.

(** [str(n)] of an int. *)
Definition int_str (n : Z) : string :=
  DecimalString.NilZero.string_of_int (Z.to_int n).

(** The blanks [int] skips around a numeral: tab to carriage return, the
    space, and the two blanks above the ASCII range, next line (133) and
    no-break space (160). *)
Definition is_int_space (c : ascii) : bool :=
  (PyStr.in_range 9 13 c || Nat.eqb (PyStr.code c) 32
   || Nat.eqb (PyStr.code c) 133 || Nat.eqb (PyStr.code c) 160)%bool.

Fixpoint skip_spaces (s : string) : string :=
  match s with
  | String c s' => if is_int_space c then skip_spaces s' else s
  | EmptyString => EmptyString
  end.

(** The digits of the body of a numeral: decimal digits, with single
    underscores between two digits, up to the blanks that may follow;
    [None] for any other text. *)
Fixpoint digits (s : string) (after_digit : bool) : option string :=
  match s with
  | EmptyString => if after_digit then Some EmptyString else None
  | String c s' =>
      if PyStr.is_digit c
      then match digits s' true with
           | Some d => Some (String c d)
           | None => None
           end
      else if (Ascii.eqb c "_" && after_digit)%bool then digits s' false
      else if (is_int_space c && after_digit)%bool
      then match skip_spaces s' with
           | EmptyString => Some EmptyString
           | String _ _ => None
           end
      else None
  end.

Section Console.

(** [sys.get_int_max_str_digits()]: the most digits a numeral may have,
    0 for no limit (4300 unless configured, no limit before Python
    3.11). *)
Variable max_str_digits : nat.

(** [str(x)] of a float, as in [Store]. *)
Variable float_str : PyFloat.float -> string.

Definition within_limit (numeral : string) : bool :=
  (Nat.eqb max_str_digits 0
   || Nat.leb (String.length numeral) max_str_digits)%bool.

(** [int(text)] for a [str]; [None]: [ValueError]. *)
Definition int_of_str (text : string) : option Z :=
  let s := skip_spaces text in
  let '(negative, body) :=
    match s with
    | String c b =>
        if Ascii.eqb c "-" then (true, b)
        else if Ascii.eqb c "+" then (false, b)
        else (false, s)
    | EmptyString => (false, s)
    end in
  match digits body false with
  | Some numeral =>
      if within_limit numeral then
        match DecimalString.NilEmpty.uint_of_string numeral with
        | Some d => Some (if negative then - Z.of_uint d else Z.of_uint d)
        | None => None
        end
      else None
  | None => None
  end.

(** [f"{s:<width}"]: padded with spaces on the right, never cut. *)
Fixpoint spaces (n : nat) : string :=
  match n with
  | O => EmptyString
  | S n' => String " " (spaces n')
  end.

Definition ljust (s : string) (width : nat) : string :=
  s ++ spaces (width - String.length s).

(** *** [list_pending_approvals] *)

(** The line of one row.  A format specification such as [<15] cannot
    be applied to [None]: the f-string raises [TypeError] ([None] here)
    when one of the four columns is NULL. *)
Definition row_line (approval : pending_approval) : option string :=
  match pa_invoice_number approval, pa_po_number approval,
        pa_vendor_name approval, pa_total_amount approval with
  | Some invoice_number, Some po_number, Some vendor_name, Some total_amount =>
      Some (ljust (int_str (pa_report_id approval)) 5 ++ " "
            ++ ljust invoice_number 15 ++ " "
            ++ ljust po_number 15 ++ " "
            ++ ljust vendor_name 20 ++ " $"
            ++ ljust (float_str total_amount) 10)
  | _, _, _, _ => None
  end.

(** The loop over the rows: the lines printed, and whether the loop was
    left by the [TypeError]. *)
Fixpoint print_rows (rows : list pending_approval) : list string * bool :=
  match rows with
  | [] => ([], false)
  | approval :: rest =>
      match row_line approval with
      | Some l => let '(printed, raised) := print_rows rest in
                  (l :: printed, raised)
      | None => ([], true)
      end
  end.

Definition heading : list string :=
  [ PyStr.nl ++ "Pending Approvals:";
    ljust "ID" 5 ++ " " ++ ljust "Invoice" 15 ++ " " ++ ljust "PO Number" 15
      ++ " " ++ ljust "Vendor" 20 ++ " " ++ ljust "Amount" 10;
    "----------------------------------------------------------------------" ].

(** [list_pending_approvals], given the rows [get_pending_approvals]
    returned. *)
Definition list_pending_approvals (pending_approvals : list pending_approval)
  : list string * bool :=
  match pending_approvals with
  | [] => (["No pending approvals found."], false)
  | _ :: _ =>
      let '(printed, raised) := print_rows pending_approvals in
      ((heading ++ printed)%list, raised)
  end.

(** *** [approve_invoice] and [reject_invoice] *)

(** The two methods differ in three texts: the status handed to
    [update_approval_status], the word of the messages and the comment
    used when none is given.  [report_id] is [None] when the argument is
    left out; the database after the call and the line printed are
    returned. *)
Definition decide (approval_status verb default_comments : string)
  (db : database) (report_id : option string) (comments : list string)
  : database * string :=
  match report_id with
  | None | Some EmptyString => (db, "Please provide a report ID")
  | Some text =>
      match int_of_str text with
      | None => (db, "Report ID must be a number")
      | Some report_id =>
          let comments_text :=
            match comments with
            | [] => default_comments
            | _ :: _ => PyStr.join " " comments
            end in
          let '(db', success) :=
            update_approval_status db report_id approval_status
                                   (Some comments_text) in
          if success
          then (db', "Invoice with report ID " ++ int_str report_id
                     ++ " has been " ++ approval_status)
          else (db', "Failed to " ++ verb ++ " invoice with report ID "
                     ++ int_str report_id)
      end
  end.

Definition approve_invoice : database -> option string -> list string
                             -> database * string :=
  decide "approved" "approve" "Approved without comments".

Definition reject_invoice : database -> option string -> list string
                            -> database * string :=
  decide "rejected" "reject" "Rejected without comments".

End Console.

End Approver.

(* ================================================================== *)
(** ** A sample for the approver *)

Module Desk.

Import Store Registry.

(** An invoice as extracted from a text that names no vendor, over
    540.00 for the purchase order [PO100] of 500.00. *)
Definition vendorless : Extractor.invoice_details :=
  {| Extractor.invoice_number := Some "INV9";
     Extractor.purchase_order := Some "PO100";
     Extractor.total_amount := Some (Samples.amount 54000);
     Extractor.invoice_date := None;
     Extractor.file_path := Some "./invoices/20250325_101500_inv9.pdf";
     Extractor.vendor_name := None;
     Extractor.due_date := None;
     Extractor.tax_amount := None;
     Extractor.subtotal := None;
     Extractor.currency := "USD";
     Extractor.status := "pending";
     Extractor.extracted_from := "email_attachment" |}.

(** The database after that invoice was added and validated. *)
Definition vendorless_db : database :=
  stored (validate_invoice Samples.plain_float_str Samples.sample_manager
            (tables (fst (add_invoice Cases.acme_catalog vendorless)))
            (ByNumber "INV9")).

End Desk.

(* ================================================================== *)
(** * Properties *)

Import Store.

(** ** Tables as lists: selecting after an update *)

Section FindMap.

Context {A : Type} (key : A -> Z) (g : A -> A).
Hypothesis key_kept : forall a, key (g a) = key a.

Lemma find_after_update (k : Z) (l : list A) :
  List.find (fun a => Z.eqb (key a) k)
            (List.map (fun a => if Z.eqb (key a) k then g a else a) l)
  = option_map g (List.find (fun a => Z.eqb (key a) k) l).
Proof.
  induction l as [|a l IH]; simpl; [reflexivity|].
  destruct (Z.eqb (key a) k) eqn:E; simpl.
  - rewrite key_kept, E. reflexivity.
  - rewrite E. exact IH.
Qed.

End FindMap.

Lemma select_report_after_update db rid st sfx :
  select_report (update_report db rid st sfx) rid
  = option_map
      (fun r => {| rep_id := rep_id r;
                   rep_invoice_id := rep_invoice_id r;
                   rep_report_content := sql_concat (rep_report_content r) sfx;
                   rep_discrepancies := rep_discrepancies r;
                   rep_approval_status := Some st |})
      (select_report db rid).
Proof.
  unfold select_report, update_report; simpl.
  apply (find_after_update rep_id); reflexivity.
Qed.

Lemma select_invoice_after_status db id st :
  select_invoice (update_invoice_status db (Some id) st) id
  = option_map (fun i => set_invoice_status (Some st) (inv_validation_result i) i)
               (select_invoice db id).
Proof.
  unfold select_invoice, update_invoice_status; simpl.
  apply (find_after_update inv_id); reflexivity.
Qed.

Lemma select_invoice_after_result db id st vr :
  select_invoice (update_invoice_result db id st vr) id
  = option_map (set_invoice_status (Some st) (Some vr)) (select_invoice db id).
Proof.
  unfold select_invoice, update_invoice_result; simpl.
  apply (find_after_update inv_id); reflexivity.
Qed.

Lemma reports_after_invoice_status db id st :
  validation_reports (update_invoice_status db id st) = validation_reports db.
Proof. destruct id; reflexivity. Qed.

Lemma select_report_after_invoice_status db id st rid :
  select_report (update_invoice_status db id st) rid = select_report db rid.
Proof. unfold select_report. rewrite reports_after_invoice_status. reflexivity. Qed.

Lemma select_invoice_after_report db rid st sfx id :
  select_invoice (update_report db rid st sfx) id = select_invoice db id.
Proof. reflexivity. Qed.

(** ** [update_approval_status] *)

(** The function on a report id that selects a row: the report and the
    invoice it names are rewritten and the call succeeds. *)
Lemma update_approval_status_found db rid st c r :
  select_report db rid = Some r ->
  update_approval_status db rid st c
  = (update_invoice_status (update_report db rid st (comment_line c))
       (rep_invoice_id r)
       (if String.eqb st "approved" then "approved" else "rejected"),
     true).
Proof.
  intros H. unfold update_approval_status.
  rewrite select_report_after_update, H; simpl.
  destruct (String.eqb st "approved"); reflexivity.
Qed.

(** C7: a decision on a report id that selects no stored report returns
    [False] and leaves the database as it was: no report content, no
    approval status and no invoice status is changed. *)
Theorem C7_unknown_report_no_mutation :
  forall (db : database) (report_id : Z) (approval_status : string)
         (comments : option string),
    select_report db report_id = None ->
    update_approval_status db report_id approval_status comments = (db, false).
Proof.
  intros db rid st c H. unfold update_approval_status.
  rewrite select_report_after_update, H. reflexivity.
Qed.

Lemma C7_unknown_report_witness :
  select_report Samples.reported_db 7 = None
  /\ update_approval_status Samples.reported_db 7 "approved" None
     = (Samples.reported_db, false).
Proof.
  split; [reflexivity|].
  apply (C7_unknown_report_no_mutation Samples.reported_db 7 "approved" None).
  reflexivity.
Defined.

(** C8: two decisions in a row on one report that resolves, whose invoice
    resolves: both calls succeed, and afterwards the report's
    approval_status and the invoice's status are the second decision,
    whatever the first one was. *)
Theorem C8_second_decision_overwrites :
  forall (db : database) (report_id invoice_id : Z) (r : validation_report)
         (i : invoice) (first second : string) (c1 c2 : option string),
    select_report db report_id = Some r ->
    rep_invoice_id r = Some invoice_id ->
    select_invoice db invoice_id = Some i ->
    second = "approved" \/ second = "rejected" ->
    let after1 := update_approval_status db report_id first c1 in
    let after2 := update_approval_status (fst after1) report_id second c2 in
    snd after1 = true /\ snd after2 = true
    /\ (exists r2, select_report (fst after2) report_id = Some r2
                   /\ rep_approval_status r2 = Some second)
    /\ (exists i2, select_invoice (fst after2) invoice_id = Some i2
                   /\ inv_status i2 = Some second).
Proof.
  intros db rid iid r i d1 d2 c1 c2 Hr Hi Hinv Hd after1 after2.
  subst after1 after2.
  rewrite (update_approval_status_found db rid d1 c1 r Hr); simpl fst; simpl snd.
  set (db1 := update_invoice_status _ _ _).
  assert (Hr1 : exists r1, select_report db1 rid = Some r1
                           /\ rep_invoice_id r1 = Some iid).
  { subst db1. rewrite select_report_after_invoice_status,
      select_report_after_update, Hr. simpl. eexists; split; [reflexivity|].
    exact Hi. }
  destruct Hr1 as (r1 & Hr1 & Hi1).
  assert (Hinv1 : exists i1, select_invoice db1 iid = Some i1).
  { subst db1. rewrite Hi, select_invoice_after_status,
      select_invoice_after_report, Hinv. simpl. eexists; reflexivity. }
  destruct Hinv1 as (i1 & Hinv1).
  rewrite (update_approval_status_found db1 rid d2 c2 r1 Hr1); simpl fst; simpl snd.
  repeat split.
  - rewrite select_report_after_invoice_status, select_report_after_update, Hr1.
    simpl. eexists; split; reflexivity.
  - rewrite Hi1, select_invoice_after_status, select_invoice_after_report, Hinv1.
    simpl. eexists; split; [reflexivity|]. simpl.
    destruct Hd as [-> | ->]; reflexivity.
Qed.

Lemma C8_second_decision_witness :
  let after1 := update_approval_status Samples.reported_db 1 "approved" None in
  let after2 := update_approval_status (fst after1) 1 "rejected"
                                       (Some "wrong vendor") in
  snd after1 = true /\ snd after2 = true
  /\ (exists r2, select_report (fst after2) 1 = Some r2
                 /\ rep_approval_status r2 = Some "rejected")
  /\ (exists i2, select_invoice (fst after2) 1 = Some i2
                 /\ inv_status i2 = Some "rejected").
Proof.
  refine (C8_second_decision_overwrites Samples.reported_db 1 1 _ _
            "approved" "rejected" None (Some "wrong vendor") _ _ _ _).
  - reflexivity.
  - reflexivity.
  - reflexivity.
  - right; reflexivity.
Defined.

(** ** [validate_invoice] *)

(** Unfold a run whose invoice and purchase order are known. *)
Ltac run_validation H1 H2 H3 :=
  unfold validate_invoice; rewrite H1, H2, H3.

Lemma vendor_discrepancy_fields pv iv :
  has_field "total_amount" (vendor_discrepancy pv iv) = false.
Proof.
  unfold vendor_discrepancy.
  destruct pv as [p|], iv as [i|]; try reflexivity.
  destruct (_ && _ && _)%bool; reflexivity.
Qed.

Lemma amount_discrepancy_fields pa ia :
  has_field "vendor_name" (amount_discrepancy pa ia) = false.
Proof.
  unfold amount_discrepancy.
  destruct pa as [p|], ia as [i|]; try reflexivity.
  destruct (_ && _ && _)%bool; reflexivity.
Qed.

Lemma has_field_app name ds1 ds2 :
  has_field name (ds1 ++ ds2) = (has_field name ds1 || has_field name ds2)%bool.
Proof. apply List.existsb_app. Qed.

(** The discrepancies a run returns when both rows are found. *)
Lemma validate_invoice_discrepancies fs m db ident id inv po :
  resolve_identifier db ident = Some id ->
  select_invoice db id = Some inv ->
  select_purchase_order db (inv_po_number inv) = Some po ->
  discrepancies_of (returned (validate_invoice fs m db ident))
  = (vendor_discrepancy (po_vendor_name po) (inv_vendor_name inv)
     ++ amount_discrepancy (po_total_amount po) (inv_total_amount inv))%list.
Proof.
  intros H1 H2 H3. run_validation H1 H2 H3.
  destruct (is_empty _); reflexivity.
Qed.

Lemma vendor_discrepancy_no_amount pv iv p i d :
  ~ List.In (TotalAmount p i d) (vendor_discrepancy pv iv).
Proof.
  unfold vendor_discrepancy.
  destruct pv as [x|], iv as [y|]; try (intros []).
  destruct (_ && _ && _)%bool; [intros [E | []]; discriminate E | intros []].
Qed.

Lemma amount_discrepancy_recorded pa ia :
  has_field "total_amount" (amount_discrepancy pa ia) = true
  <-> exists p i, pa = Some p /\ ia = Some i
                  /\ PyFloat.is_zero p = false /\ PyFloat.is_zero i = false
                  /\ PyFloat.gtb (PyFloat.abs (PyFloat.sub p i)) tolerance = true.
Proof.
  unfold amount_discrepancy.
  destruct pa as [p|], ia as [i|];
    try (split; [discriminate | intros (p' & i' & A & B & _); discriminate]).
  cbn [PyFloat.truthy].
  destruct (PyFloat.is_zero p) eqn:Zp, (PyFloat.is_zero i) eqn:Zi;
    cbn [negb andb];
    try (split; [discriminate|];
         intros (p' & i' & A & B & C & D & _);
         injection A as <-; injection B as <-; congruence).
  destruct (PyFloat.gtb (PyFloat.abs (PyFloat.sub p i)) tolerance) eqn:G.
  - split; [|reflexivity]. intros _. exists p, i. repeat split; assumption.
  - split; [discriminate|].
    intros (p' & i' & A & B & _ & _ & C).
    injection A as <-; injection B as <-. congruence.
Qed.

Lemma amount_discrepancy_entry pa ia p i d :
  List.In (TotalAmount p i d) (amount_discrepancy pa ia) ->
  pa = Some p /\ ia = Some i /\ d = PyFloat.abs (PyFloat.sub p i).
Proof.
  unfold amount_discrepancy.
  destruct pa as [x|], ia as [y|]; try (intros []).
  destruct (_ && _ && _)%bool; [|intros []].
  intros [E | []]. injection E as <- <- <-. repeat split.
Qed.

(** C1, as the code has it: an amount discrepancy is recorded exactly when
    both amounts are present (neither NULL nor zero) and the binary64
    value of [abs(po - invoice)] exceeds the binary64 value of 0.01; the
    entry carries the two amounts and that difference.  100.00 against
    100.02 gives an entry whose difference is 0.019999999999996021; 0.02
    against 0.01, whose difference is the value of 0.01 itself, gives
    none. *)
Theorem C1_amount_discrepancy_binary64 :
  forall (float_str : PyFloat.float -> string) (m : manager) (db : database)
         (invoice_identifier : identifier) (id : Z) (inv : invoice)
         (po : purchase_order),
    resolve_identifier db invoice_identifier = Some id ->
    select_invoice db id = Some inv ->
    select_purchase_order db (inv_po_number inv) = Some po ->
    let ds := discrepancies_of
                (returned (validate_invoice float_str m db invoice_identifier)) in
    (has_field "total_amount" ds = true
     <-> exists p i, po_total_amount po = Some p /\ inv_total_amount inv = Some i
                     /\ PyFloat.is_zero p = false /\ PyFloat.is_zero i = false
                     /\ PyFloat.gtb (PyFloat.abs (PyFloat.sub p i)) tolerance
                        = true)
    /\ (forall p i d, List.In (TotalAmount p i d) ds ->
           po_total_amount po = Some p /\ inv_total_amount inv = Some i
           /\ d = PyFloat.abs (PyFloat.sub p i))
    /\ amount_discrepancy (Some (Samples.amount 10000)) (Some (Samples.amount 10002))
       = [ TotalAmount (Samples.amount 10000) (Samples.amount 10002)
                       (S754_finite false 5764607523033088 (-58)) ]
    /\ amount_discrepancy (Some (Samples.amount 2)) (Some (Samples.amount 1)) = [].
Proof.
  intros fs m db ident id inv po H1 H2 H3 ds. subst ds.
  rewrite (validate_invoice_discrepancies fs m db ident id inv po H1 H2 H3).
  split; [|split; [|split]].
  - rewrite has_field_app, vendor_discrepancy_fields. cbn [orb].
    apply amount_discrepancy_recorded.
  - intros p i d H. apply List.in_app_or in H. destruct H as [H | H].
    + exfalso. exact (vendor_discrepancy_no_amount _ _ _ _ _ H).
    + exact (amount_discrepancy_entry _ _ _ _ _ H).
  - vm_compute. reflexivity.
  - vm_compute. reflexivity.
Qed.

Lemma C1_amount_discrepancy_witness :
  let ds := discrepancies_of
              (returned (validate_invoice Samples.plain_float_str
                 Samples.sample_manager
                 (Samples.sample_db "Acme" (Samples.amount 50000)
                                    "Acme" (Samples.amount 54000))
                 (ByNumber "INV1"))) in
  has_field "total_amount" ds = true
  /\ List.In (TotalAmount (Samples.amount 50000) (Samples.amount 54000)
                          (PyFloat.of_decimal 40 1)) ds.
Proof.
  intros ds.
  destruct (C1_amount_discrepancy_binary64 Samples.plain_float_str
              Samples.sample_manager
              (Samples.sample_db "Acme" (Samples.amount 50000)
                                 "Acme" (Samples.amount 54000))
              (ByNumber "INV1") 1
              (Samples.sample_invoice (Some "PO100") "Acme" (Samples.amount 54000))
              (Samples.sample_po "Acme" (Samples.amount 50000))
              eq_refl eq_refl eq_refl) as (A & _).
  split.
  - apply A. exists (Samples.amount 50000), (Samples.amount 54000).
    repeat split; vm_compute; reflexivity.
  - vm_compute. left. reflexivity.
Defined.

(** C1 as claimed fails: with amounts in cents, a difference of one cent
    should pass, yet for 100.00 against 100.01 the run records an amount
    discrepancy (the binary64 difference is 0.010000000000005116). *)
Lemma C1_one_cent_counterexample :
  ~ (forall po_cents invoice_cents : Z,
       has_field "total_amount"
         (discrepancies_of
            (returned (validate_invoice Samples.plain_float_str
               Samples.sample_manager
               (Samples.sample_db "Acme" (Samples.amount po_cents)
                                  "Acme" (Samples.amount invoice_cents))
               (ByNumber "INV1"))))
       = Samples.amount_mismatch_as_specified po_cents invoice_cents).
Proof.
  intros H. specialize (H 10000 10001).
  vm_compute in H. discriminate H.
Qed.

(** C2: a run that returns a result has appended exactly one report, whose
    approval_status is 'requires_approval' when the discrepancies are not
    empty and 'auto_approved' when they are; every other run leaves the
    reports as they were. *)
Theorem C2_report_created_with_status :
  forall (float_str : PyFloat.float -> string) (m : manager) (db : database)
         (invoice_identifier : identifier),
    let r := validate_invoice float_str m db invoice_identifier in
    match returned r with
    | ReturnResult _ _ report_id discrepancies _ =>
        exists row,
          validation_reports (stored r) = (validation_reports db ++ [row])%list
          /\ rep_id row = report_id
          /\ match discrepancies with
             | [] => rep_discrepancies row = None
                     /\ rep_approval_status row = Some "auto_approved"
             | _ :: _ => rep_discrepancies row = Some discrepancies
                         /\ rep_approval_status row = Some "requires_approval"
             end
    | _ => validation_reports (stored r) = validation_reports db
    end.
Proof.
  intros fs m db ident r. subst r. unfold validate_invoice.
  destruct (resolve_identifier db ident) as [id|];
    [|destruct ident; reflexivity].
  destruct (select_invoice db id) as [inv|];
    [|destruct (in_int64 id); reflexivity].
  destruct (select_purchase_order db (inv_po_number inv)) as [po|];
    [|reflexivity].
  destruct (_ ++ _)%list as [|d ds] eqn:E; simpl;
    eexists; repeat split; reflexivity.
Qed.

(** C3: when the invoice's po_number selects no purchase order, the run
    returns the error 'Purchase order not found', stores status 'error'
    with that validation_result on the invoice, and adds no report. *)
Theorem C3_purchase_order_not_found :
  forall (float_str : PyFloat.float -> string) (m : manager) (db : database)
         (invoice_identifier : identifier) (id : Z) (inv : invoice),
    resolve_identifier db invoice_identifier = Some id ->
    select_invoice db id = Some inv ->
    select_purchase_order db (inv_po_number inv) = None ->
    let r := validate_invoice float_str m db invoice_identifier in
    returned r = ReturnError "Purchase order not found"
    /\ validation_reports (stored r) = validation_reports db
    /\ report_sequence (stored r) = report_sequence db
    /\ exists inv', select_invoice (stored r) id = Some inv'
                    /\ inv_status inv' = Some "error"
                    /\ inv_validation_result inv' = Some "Purchase order not found".
Proof.
  intros fs m db ident id inv H1 H2 H3 r. subst r.
  run_validation H1 H2 H3. simpl.
  repeat split.
  rewrite select_invoice_after_result, H2. simpl.
  eexists; repeat split.
Qed.

Lemma C3_purchase_order_not_found_witness :
  let r := validate_invoice Samples.plain_float_str Samples.sample_manager
                            Samples.orphan_db (ByNumber "INV1") in
  returned r = ReturnError "Purchase order not found"
  /\ validation_reports (stored r) = validation_reports Samples.orphan_db
  /\ report_sequence (stored r) = report_sequence Samples.orphan_db
  /\ exists inv', select_invoice (stored r) 1 = Some inv'
                  /\ inv_status inv' = Some "error"
                  /\ inv_validation_result inv' = Some "Purchase order not found".
Proof.
  refine (C3_purchase_order_not_found Samples.plain_float_str
            Samples.sample_manager Samples.orphan_db (ByNumber "INV1") 1 _ _ _ _).
  - reflexivity.
  - reflexivity.
  - reflexivity.
Defined.

(** C4, as the code has it: a vendor discrepancy is recorded exactly when
    both vendor names are present (neither NULL nor empty) and their
    lower-cased forms differ; blanks at either end count.  'ABC Supplies'
    against 'abc supplies' gives none, against 'ABC Corp' gives one. *)
Theorem C4_vendor_discrepancy_by_lowercase :
  forall (float_str : PyFloat.float -> string) (m : manager) (db : database)
         (invoice_identifier : identifier) (id : Z) (inv : invoice)
         (po : purchase_order),
    resolve_identifier db invoice_identifier = Some id ->
    select_invoice db id = Some inv ->
    select_purchase_order db (inv_po_number inv) = Some po ->
    (has_field "vendor_name"
       (discrepancies_of
          (returned (validate_invoice float_str m db invoice_identifier))) = true
     <-> exists p i, po_vendor_name po = Some p /\ inv_vendor_name inv = Some i
                     /\ p <> "" /\ i <> ""
                     /\ PyStr.lower p <> PyStr.lower i)
    /\ vendor_discrepancy (Some "ABC Supplies") (Some "abc supplies") = []
    /\ vendor_discrepancy (Some "ABC Supplies") (Some "ABC Corp")
       = [VendorName "ABC Supplies" "ABC Corp"].
Proof.
  intros fs m db ident id inv po H1 H2 H3.
  split; [|split; reflexivity].
  rewrite (validate_invoice_discrepancies fs m db ident id inv po H1 H2 H3).
  rewrite has_field_app, amount_discrepancy_fields, Bool.orb_false_r.
  unfold vendor_discrepancy.
  destruct (po_vendor_name po) as [p|], (inv_vendor_name inv) as [i|];
    try (split; [discriminate | intros (p' & i' & A & B & _); discriminate]).
  destruct p as [|a p]; [split; [discriminate|];
    intros (p' & i' & A & B & C & _); injection A as <-; congruence |].
  destruct i as [|b i]; [split; [discriminate|];
    intros (p' & i' & A & B & _ & C & _); injection B as <-; congruence |].
  cbn [PyStr.truthy andb].
  destruct (String.eqb_spec (PyStr.lower (String a p)) (PyStr.lower (String b i)))
    as [E|E]; cbn [negb].
  - split; [discriminate|].
    intros (p' & i' & A & B & _ & _ & C).
    injection A as <-; injection B as <-. contradiction.
  - split; [|reflexivity]. intros _.
    exists (String a p), (String b i). repeat split; try discriminate. exact E.
Qed.

Lemma C4_vendor_discrepancy_witness :
  (has_field "vendor_name"
     (discrepancies_of
        (returned (validate_invoice Samples.plain_float_str Samples.sample_manager
           (Samples.sample_db "ABC Supplies" (Samples.amount 10000)
                              "ABC Corp" (Samples.amount 10000))
           (ById 1)))) = true
   <-> exists p i,
         po_vendor_name (Samples.sample_po "ABC Supplies" (Samples.amount 10000))
         = Some p
         /\ inv_vendor_name (Samples.sample_invoice (Some "PO100") "ABC Corp"
                                                    (Samples.amount 10000))
            = Some i
         /\ p <> "" /\ i <> ""
                   /\ PyStr.lower p <> PyStr.lower i)
  /\ vendor_discrepancy (Some "ABC Supplies") (Some "abc supplies") = []
  /\ vendor_discrepancy (Some "ABC Supplies") (Some "ABC Corp")
     = [VendorName "ABC Supplies" "ABC Corp"].
Proof.
  refine (C4_vendor_discrepancy_by_lowercase Samples.plain_float_str
            Samples.sample_manager
            (Samples.sample_db "ABC Supplies" (Samples.amount 10000)
                               "ABC Corp" (Samples.amount 10000))
            (ById 1) 1
            (Samples.sample_invoice (Some "PO100") "ABC Corp" (Samples.amount 10000))
            (Samples.sample_po "ABC Supplies" (Samples.amount 10000)) _ _ _).
  - reflexivity.
  - reflexivity.
  - reflexivity.
Defined.

(** C4 as claimed fails: with blanks ignored, 'ABC Supplies' and
    'ABC Supplies ' are the same vendor, yet the run records a vendor
    discrepancy for them. *)
Lemma C4_whitespace_counterexample :
  ~ (forall (po_vendor invoice_vendor : string),
       has_field "vendor_name"
         (discrepancies_of
            (returned (validate_invoice Samples.plain_float_str
               Samples.sample_manager
               (Samples.sample_db po_vendor (Samples.amount 10000)
                                  invoice_vendor (Samples.amount 10000))
               (ById 1))))
       = Samples.vendor_mismatch_as_specified (Some po_vendor)
                                              (Some invoice_vendor)).
Proof.
  intros H. specialize (H "ABC Supplies" "ABC Supplies ").
  vm_compute in H. discriminate H.
Qed.

(** C10: an amount that is zero counts as absent, so when the purchase
    order's total or the invoice's total is 0 the run records no amount
    discrepancy, whatever the other total is. *)
Theorem C10_zero_amount_never_flagged :
  forall (float_str : PyFloat.float -> string) (m : manager) (db : database)
         (invoice_identifier : identifier) (id : Z) (inv : invoice)
         (po : purchase_order),
    resolve_identifier db invoice_identifier = Some id ->
    select_invoice db id = Some inv ->
    select_purchase_order db (inv_po_number inv) = Some po ->
    (exists z, po_total_amount po = Some z /\ PyFloat.is_zero z = true)
    \/ (exists z, inv_total_amount inv = Some z /\ PyFloat.is_zero z = true) ->
    has_field "total_amount"
      (discrepancies_of
         (returned (validate_invoice float_str m db invoice_identifier)))
    = false.
Proof.
  intros fs m db ident id inv po H1 H2 H3 Hz.
  rewrite (validate_invoice_discrepancies fs m db ident id inv po H1 H2 H3).
  rewrite has_field_app, vendor_discrepancy_fields. simpl.
  unfold amount_discrepancy.
  destruct Hz as [(z & -> & Z0) | (z & -> & Z0)].
  - destruct (inv_total_amount inv); [|reflexivity].
    simpl. rewrite Z0. reflexivity.
  - destruct (po_total_amount po); [|reflexivity].
    simpl. rewrite Z0, Bool.andb_false_r. reflexivity.
Qed.

Lemma C10_zero_amount_witness :
  has_field "total_amount"
    (discrepancies_of
       (returned (validate_invoice Samples.plain_float_str Samples.sample_manager
          (Samples.sample_db "Acme" (Samples.amount 0)
                             "Acme" (Samples.amount 99999900))
          (ById 1))))
  = false.
Proof.
  refine (C10_zero_amount_never_flagged Samples.plain_float_str
            Samples.sample_manager
            (Samples.sample_db "Acme" (Samples.amount 0)
                               "Acme" (Samples.amount 99999900))
            (ById 1) 1 _ _ _ _ _ _).
  - reflexivity.
  - reflexivity.
  - reflexivity.
  - left. exists (S754_zero false). split; reflexivity.
Defined.

(** ** Strings *)

Lemma append_nil_r (s : string) : s ++ "" = s.
Proof. induction s as [|c s IH]; simpl; [reflexivity | rewrite IH; reflexivity]. Qed.

Lemma append_assoc (a b c : string) : (a ++ b) ++ c = a ++ (b ++ c).
Proof. induction a as [|x a IH]; simpl; [reflexivity | rewrite IH; reflexivity]. Qed.

Lemma length_append (a b : string) :
  String.length (a ++ b) = (String.length a + String.length b)%nat.
Proof. induction a as [|x a IH]; simpl; [reflexivity | rewrite IH; reflexivity]. Qed.

Lemma take_append (w s : string) :
  Re.take (String.length (w ++ s) - String.length s) (w ++ s) = w.
Proof.
  rewrite length_append.
  replace (String.length w + String.length s - String.length s)%nat
    with (String.length w) by lia.
  induction w as [|c w IH]; simpl.
  - destruct s; reflexivity.
  - rewrite IH. reflexivity.
Qed.

Lemma replace_char_append (old : ascii) (new a b : string) :
  PyStr.replace_char old new (a ++ b)
  = PyStr.replace_char old new a ++ PyStr.replace_char old new b.
Proof.
  induction a as [|c a IH]; simpl; [reflexivity|].
  destruct (Ascii.eqb c old).
  - rewrite IH, append_assoc. reflexivity.
  - rewrite IH. reflexivity.
Qed.

(** ** The matcher is sound for the words of its pattern *)

Section MatcherSoundness.

Import Re.

Lemma reaches_refl_eps cu : reaches Eps cu cu.
Proof. exists "", []. repeat split. constructor. Qed.

(** Whatever [run] answers was answered by its continuation, at a cursor
    that lies a word of the pattern further on. *)
Lemma run_sound (r : regex) :
  forall cu k res,
    run r cu k = Some res ->
    exists cu', k cu' = Some res /\ reaches r cu cu'.
Proof.
  induction r as [|p|r1 IH1 r2 IH2|r1 IH1 r2 IH2|g r1 IH1|n r1 IH1|];
    intros cu k res H; simpl in H.
  - exists cu. split; [exact H | apply reaches_refl_eps].
  - destruct (rest cu) as [|c s'] eqn:E; [discriminate|].
    destruct (p c) eqn:P; [|discriminate].
    exists (advance c s' cu). split; [exact H|].
    exists (String c ""), []. repeat split.
    + rewrite E. reflexivity.
    + constructor; exact P.
  - apply IH1 in H. destruct H as (cu1 & H & w1 & g1 & R1 & D1 & G1).
    apply IH2 in H. destruct H as (cu2 & H & w2 & g2 & R2 & D2 & G2).
    exists cu2. split; [exact H|].
    exists (w1 ++ w2), (g2 ++ g1)%list. repeat split.
    + rewrite R1, R2, append_assoc. reflexivity.
    + constructor; assumption.
    + rewrite G2, G1, List.app_assoc. reflexivity.
  - destruct (run r1 cu k) as [m|] eqn:E.
    + injection H as <-. apply IH1 in E.
      destruct E as (cu1 & E & w & gs & R & D & G).
      exists cu1. split; [exact E|]. exists w, gs. repeat split; try assumption.
      apply D_alt_l; exact D.
    + apply IH2 in H.
      destruct H as (cu1 & E' & w & gs & R & D & G).
      exists cu1. split; [exact E'|]. exists w, gs. repeat split; try assumption.
      apply D_alt_r; exact D.
  - revert H. generalize (String.length (rest cu)) as fuel. intros fuel.
    revert cu res. induction fuel as [|fuel IHf]; intros cu res H; simpl in H.
    + exists cu. split; [exact H|].
      exists "", []. repeat split. constructor.
    + assert (Again : forall m,
        run r1 cu (fun cu1 =>
          if shorter cu1 cu then repeat_step (run r1) g k fuel cu1 else None)
        = Some m ->
        exists cu', k cu' = Some m /\ reaches (Star g r1) cu cu').
      { intros m E. apply IH1 in E.
        destruct E as (cu1 & E & w1 & g1 & R1 & D1 & G1).
        destruct (shorter cu1 cu); [|discriminate].
        apply IHf in E. destruct E as (cu2 & E & w2 & g2 & R2 & D2 & G2).
        exists cu2. split; [exact E|].
        exists (w1 ++ w2), (g2 ++ g1)%list. repeat split.
        - rewrite R1, R2, append_assoc. reflexivity.
        - apply D_star_cons; assumption.
        - rewrite G2, G1, List.app_assoc. reflexivity. }
      assert (Stop : forall m, k cu = Some m ->
                exists cu', k cu' = Some m /\ reaches (Star g r1) cu cu').
      { intros m E. exists cu. split; [exact E|].
        exists "", []. repeat split. constructor. }
      destruct g.
      * destruct (run r1 cu _) as [m|] eqn:E.
        -- injection H as <-. apply Again. reflexivity.
        -- apply Stop. exact H.
      * destruct (k cu) as [m|] eqn:E.
        -- injection H as <-. apply Stop. reflexivity.
        -- apply Again. exact H.
  - apply IH1 in H. destruct H as (cu1 & H & w & gs & R & D & G).
    exists (close_group n cu cu1). split; [exact H|].
    exists w, ((n, consumed cu cu1) :: gs)%list. repeat split.
    + exact R.
    + constructor; exact D.
    + simpl. rewrite G. reflexivity.
  - destruct (xorb _ _); [|discriminate].
    exists cu. split; [exact H|].
    exists "", []. repeat split. constructor.
Qed.

(** [run] uses its continuation only through the answers it gives. *)
Lemma run_ext (r : regex) :
  forall cu k k', (forall c, k c = k' c) -> run r cu k = run r cu k'.
Proof.
  induction r as [|p|r1 IH1 r2 IH2|r1 IH1 r2 IH2|g r1 IH1|n r1 IH1|];
    intros cu k k' E; simpl.
  - apply E.
  - destruct (rest cu) as [|c s']; [reflexivity|].
    destruct (p c); [apply E | reflexivity].
  - apply IH1. intros c. apply IH2. exact E.
  - rewrite (IH1 cu k k' E), (IH2 cu k k' E). reflexivity.
  - generalize (String.length (rest cu)) as fuel. intros fuel. revert cu.
    induction fuel as [|fuel IHf]; intros cu; simpl; [apply E|].
    rewrite (E cu).
    rewrite (IH1 cu
      (fun cu1 => if shorter cu1 cu then repeat_step (run r1) g k fuel cu1 else None)
      (fun cu1 => if shorter cu1 cu then repeat_step (run r1) g k' fuel cu1 else None)).
    + reflexivity.
    + intros c. destruct (shorter c cu); [apply IHf | reflexivity].
  - apply IH1. intros c. apply E.
  - destruct (xorb _ _); [apply E | reflexivity].
Qed.

(** The bound on a repetition loses nothing: once the fuel covers the text
    that is left, more fuel gives the same answer. *)
Lemma repeat_step_enough (r : regex) (g : bool) (k : cursor -> option cursor) :
  forall fuel cu,
    (String.length (rest cu) <= fuel)%nat ->
    repeat_step (run r) g k (S fuel) cu = repeat_step (run r) g k fuel cu.
Proof.
  induction fuel as [|fuel IH]; intros cu L.
  - assert (N : run r cu (fun cu1 =>
                  if shorter cu1 cu then repeat_step (run r) g k 0 cu1 else None)
                = None).
    { destruct (run r cu _) as [m|] eqn:E; [|reflexivity].
      apply run_sound in E. destruct E as (cu1 & E & _).
      unfold shorter in E.
      destruct (Nat.ltb_spec (String.length (rest cu1)) (String.length (rest cu)));
        [lia | discriminate E]. }
    simpl. simpl in N. rewrite N. destruct g; [reflexivity|].
    destruct (k cu); reflexivity.
  - change (repeat_step (run r) g k (S (S fuel)) cu)
      with (if g
            then match run r cu (fun cu1 =>
                         if shorter cu1 cu
                         then repeat_step (run r) g k (S fuel) cu1 else None) with
                 | Some m => Some m
                 | None => k cu
                 end
            else match k cu with
                 | Some m => Some m
                 | None =>
                     run r cu (fun cu1 =>
                       if shorter cu1 cu
                       then repeat_step (run r) g k (S fuel) cu1 else None)
                 end).
    rewrite (run_ext r cu
      (fun cu1 => if shorter cu1 cu
                  then repeat_step (run r) g k (S fuel) cu1 else None)
      (fun cu1 => if shorter cu1 cu
                  then repeat_step (run r) g k fuel cu1 else None)).
    + reflexivity.
    + intros c. unfold shorter.
      destruct (Nat.ltb_spec (String.length (rest c)) (String.length (rest cu)));
        [apply IH; lia | reflexivity].
Qed.

Lemma repeat_step_more_fuel (r : regex) (g : bool) (k : cursor -> option cursor)
  (cu : cursor) (extra : nat) :
  repeat_step (run r) g k (String.length (rest cu) + extra) cu
  = run (Star g r) cu k.
Proof.
  induction extra as [|extra IH].
  - rewrite Nat.add_0_r. reflexivity.
  - rewrite Nat.add_succ_r, repeat_step_enough by lia. exact IH.
Qed.

End MatcherSoundness.

(** ** Groups of a match *)

Section Groups.

Import Re.

Lemma has_group_app n gs gs0 :
  has_group n gs0 -> has_group n (gs ++ gs0).
Proof.
  intros (w & H). induction gs as [|[i s] gs IH].
  - exists w; exact H.
  - unfold has_group in *. simpl.
    destruct (Nat.eqb i n); [eexists; reflexivity | exact IH].
Qed.

Lemma run_keeps_group r cu res n :
  run r cu Some = Some res -> has_group n (groups cu) ->
  has_group n (groups res).
Proof.
  intros H G. apply run_sound in H.
  destruct H as (cu' & E & w & gs & _ & _ & Gs).
  injection E as ->. rewrite Gs. apply has_group_app; exact G.
Qed.

Lemma cat_cons r r' rs : cat (r :: r' :: rs) = Seq r (cat (r' :: rs)).
Proof. reflexivity. Qed.

Lemma run_seq r1 r2 cu k :
  run (Seq r1 r2) cu k = run r1 cu (fun cu1 => run r2 cu1 k).
Proof. reflexivity. Qed.

Lemma consumed_word cu cu' w :
  rest cu = w ++ rest cu' -> consumed cu cu' = w.
Proof. intros H. unfold consumed. rewrite H. apply take_append. Qed.

(** A pattern that ends in group [n]: after a match the group holds a
    word of its body. *)
Lemma run_group_last n body pre :
  forall cu res,
    run (cat (pre ++ [Group n body])) cu Some = Some res ->
    exists w, lookup_group n (groups res) = Some w /\ denotes body w.
Proof.
  induction pre as [|a pre IH]; intros cu res H.
  - simpl in H. apply run_sound in H.
    destruct H as (cu1 & E & w & gs & R & D & _).
    injection E as <-. exists w. simpl. rewrite Nat.eqb_refl.
    rewrite (consumed_word _ _ _ R). split; [reflexivity | exact D].
  - assert (N : exists r' rs, (pre ++ [Group n body])%list = r' :: rs).
    { destruct pre; simpl; eauto. }
    destruct N as (r' & rs & N). simpl List.app in H. rewrite N in H.
    rewrite cat_cons, run_seq in H. apply run_sound in H.
    destruct H as (cu1 & H & _). rewrite <- N in H. apply IH in H. exact H.
Qed.

(** A pattern with group [n] anywhere at its top level: after a match the
    group is set. *)
Lemma run_group_set n body post pre :
  forall cu res,
    run (cat (pre ++ Group n body :: post)) cu Some = Some res ->
    has_group n (groups res).
Proof.
  induction pre as [|a pre IH]; intros cu res H.
  - destruct post as [|b post].
    + apply (run_group_last n body []) in H.
      destruct H as (w & H & _). exists w; exact H.
    + simpl List.app in H. rewrite cat_cons, run_seq in H.
      change (run (Group n body) cu (fun cu1 => run (cat (b :: post)) cu1 Some))
        with (run body cu (fun cu1 =>
                run (cat (b :: post)) (close_group n cu cu1) Some)) in H.
      apply run_sound in H. destruct H as (cu1 & H & _).
      apply (run_keeps_group _ _ _ n) in H; [exact H|].
      unfold has_group. simpl. rewrite Nat.eqb_refl. eexists; reflexivity.
  - assert (N : exists r' rs, (pre ++ Group n body :: post)%list = r' :: rs).
    { destruct pre; simpl; eauto. }
    destruct N as (r' & rs & N). simpl List.app in H. rewrite N in H.
    rewrite cat_cons, run_seq in H. apply run_sound in H.
    destruct H as (cu1 & H & _). rewrite <- N in H. apply IH in H. exact H.
Qed.

(** What [search] returns comes from a run of the pattern. *)
Lemma search_from_run r :
  forall s prev off m,
    search_from r prev s off = Some m ->
    exists prev' s' cu,
      run r (start_at prev' s') Some = Some cu /\ m_groups m = groups cu.
Proof.
  induction s as [|c s IH]; intros prev off m H; simpl in H.
  - destruct (run r (start_at prev "") Some) as [cu|] eqn:E; [|discriminate].
    injection H as <-. exists prev, "", cu. split; [exact E | reflexivity].
  - destruct (run r (start_at prev (String c s)) Some) as [cu|] eqn:E.
    + injection H as <-. exists prev, (String c s), cu.
      split; [exact E | reflexivity].
    + apply IH in H. exact H.
Qed.

Lemma search_group_last n body pre text m :
  search (cat (pre ++ [Group n body])) text = Some m ->
  exists w, group n m = Some w /\ denotes body w.
Proof.
  intros H. apply search_from_run in H.
  destruct H as (prev' & s' & cu & H & G).
  apply run_group_last in H. unfold group. rewrite G. exact H.
Qed.

Lemma search_group_set n body post pre text m :
  search (cat (pre ++ Group n body :: post)) text = Some m ->
  exists w, group n m = Some w.
Proof.
  intros H. apply search_from_run in H.
  destruct H as (prev' & s' & cu & H & G).
  apply run_group_set in H. unfold group. rewrite G. exact H.
Qed.

End Groups.

(** ** Numbers: what the amount patterns capture, [float] reads *)

Section Numbers.

Import Re.

Ltac invert H := inversion H; subst; clear H.

Lemma digit_is_no_comma c : PyStr.is_digit c = true -> Ascii.eqb c "," = false.
Proof.
  intros D. destruct (Ascii.eqb_spec c ","); [subst; discriminate | reflexivity].
Qed.

Lemma digit_is_no_dot c : PyStr.is_digit c = true -> Ascii.eqb c "." = false.
Proof.
  intros D. destruct (Ascii.eqb_spec c "."); [subst; discriminate | reflexivity].
Qed.

Lemma all_digits_append a b :
  PyFloat.all_digits (a ++ b) = (PyFloat.all_digits a && PyFloat.all_digits b)%bool.
Proof.
  induction a as [|c a IH]; simpl; [reflexivity|].
  rewrite IH, Bool.andb_assoc. reflexivity.
Qed.

Lemma replace_comma_digits w :
  PyFloat.all_digits w = true -> PyStr.replace_char "," "" w = w.
Proof.
  induction w as [|c w IH]; simpl; [reflexivity|].
  intros H. apply Bool.andb_true_iff in H. destruct H as (D & H).
  rewrite (digit_is_no_comma c D), (IH H). reflexivity.
Qed.

Lemma denotes_eps w : denotes Eps w -> w = "".
Proof. intros H. invert H. reflexivity. Qed.

Lemma denotes_chr p w :
  denotes (Chr p) w -> exists c, w = String c "" /\ p c = true.
Proof. intros H. invert H. eauto. Qed.

Lemma denotes_seq r1 r2 w :
  denotes (Seq r1 r2) w ->
  exists w1 w2, w = w1 ++ w2 /\ denotes r1 w1 /\ denotes r2 w2.
Proof. intros H. invert H. eauto. Qed.

Lemma denotes_alt r1 r2 w :
  denotes (Alt r1 r2) w -> denotes r1 w \/ denotes r2 w.
Proof. intros H. invert H; [left | right]; assumption. Qed.

Lemma denotes_digit w :
  denotes digit w -> exists c, w = String c "" /\ PyStr.is_digit c = true.
Proof. apply denotes_chr. Qed.

Lemma denotes_digit_all w : denotes digit w -> PyFloat.all_digits w = true.
Proof.
  intros H. apply denotes_digit in H. destruct H as (c & -> & D).
  simpl. rewrite D. reflexivity.
Qed.

Lemma star_digits g w :
  denotes (Star g digit) w -> PyFloat.all_digits w = true.
Proof.
  intros H. remember (Star g digit) as r eqn:R.
  induction H; try discriminate R.
  - reflexivity.
  - injection R as -> ->.
    rewrite all_digits_append, (denotes_digit_all _ H), IHdenotes2; reflexivity.
Qed.

Lemma thousands_digits w :
  denotes Extractor.thousands w ->
  PyFloat.all_digits (PyStr.replace_char "," "" w) = true.
Proof.
  intros H. unfold Extractor.thousands, cat in H.
  apply denotes_seq in H. destruct H as (w0 & w1 & -> & H0 & H).
  apply denotes_seq in H. destruct H as (w2 & w3 & -> & H2 & H).
  apply denotes_seq in H. destruct H as (w4 & w5 & -> & H4 & H5).
  apply denotes_chr in H0. destruct H0 as (c & -> & C).
  apply Ascii.eqb_eq in C. subst c.
  apply denotes_digit in H2, H4, H5.
  destruct H2 as (c1 & -> & D1), H4 as (c2 & -> & D2), H5 as (c3 & -> & D3).
  simpl.
  rewrite (digit_is_no_comma _ D1), (digit_is_no_comma _ D2),
    (digit_is_no_comma _ D3). simpl.
  rewrite D1, D2, D3. reflexivity.
Qed.

Lemma star_thousands g w :
  denotes (Star g Extractor.thousands) w ->
  PyFloat.all_digits (PyStr.replace_char "," "" w) = true.
Proof.
  intros H. remember (Star g Extractor.thousands) as r eqn:R.
  induction H; try discriminate R.
  - reflexivity.
  - injection R as -> ->.
    rewrite replace_char_append, all_digits_append,
      (thousands_digits _ H), IHdenotes2; reflexivity.
Qed.

Lemma read_digits_append ds :
  forall tail acc count,
    PyFloat.all_digits ds = true -> PyFloat.stops tail ->
    exists v, PyFloat.read_digits (ds ++ tail) acc count
              = (v, (count + String.length ds)%nat, tail).
Proof.
  induction ds as [|c ds IH]; intros tail acc count D St.
  - exists acc. simpl. rewrite Nat.add_0_r.
    destruct tail as [|t tail]; simpl; [reflexivity|].
    simpl in St. rewrite St. reflexivity.
  - simpl in D. apply Bool.andb_true_iff in D. destruct D as (Dc & D).
    cbn [append PyFloat.read_digits String.length]. rewrite Dc.
    destruct (IH tail (10 * acc + Z.of_nat (PyStr.code c - 48)) (S count) D St)
      as (v & E).
    exists v. rewrite E. f_equal. f_equal. lia.
Qed.

Lemma of_string_integer ds :
  PyFloat.all_digits ds = true -> ds <> "" ->
  exists v, PyFloat.of_string ds = Some v.
Proof.
  intros D N. unfold PyFloat.of_string.
  destruct (read_digits_append ds "" 0 0%nat D I) as (v & E).
  rewrite append_nil_r in E. rewrite E.
  destruct ds as [|c ds]; [contradiction|]. simpl.
  eexists; reflexivity.
Qed.

Lemma of_string_fraction ds fs :
  PyFloat.all_digits ds = true -> ds <> "" ->
  PyFloat.all_digits fs = true -> fs <> "" ->
  exists v, PyFloat.of_string (ds ++ String "." fs) = Some v.
Proof.
  intros D N Df Nf. unfold PyFloat.of_string.
  destruct (read_digits_append ds (String "." fs) 0 0%nat D eq_refl) as (v & E).
  rewrite E.
  destruct ds as [|c ds]; [contradiction|]. simpl.
  destruct (read_digits_append fs "" v 0%nat Df I) as (v' & E').
  rewrite append_nil_r in E'. rewrite E'.
  destruct fs as [|f fs]; [contradiction|]. simpl.
  eexists; reflexivity.
Qed.

(** Every word of the number pattern, its commas removed, is a numeral
    that [float] reads. *)
Lemma number_parses w :
  denotes Extractor.number w ->
  exists v, PyFloat.of_string (PyStr.replace_char "," "" w) = Some v.
Proof.
  intros H. unfold Extractor.number, cat, plus, star, opt in H.
  apply denotes_seq in H. destruct H as (hd & tl & -> & Hhd & Htl).
  apply denotes_seq in Hhd. destruct Hhd as (d1 & ds & -> & Hd1 & Hds).
  apply denotes_seq in Htl. destruct Htl as (th & fr & -> & Hth & Hfr).
  apply denotes_digit in Hd1. destruct Hd1 as (c & -> & Dc).
  apply star_digits in Hds. apply star_thousands in Hth.
  rewrite !replace_char_append.
  rewrite (replace_comma_digits (String c "")) by (simpl; rewrite Dc; reflexivity).
  rewrite (replace_comma_digits ds Hds).
  set (th' := PyStr.replace_char "," "" th) in *.
  assert (Dall : PyFloat.all_digits ((String c "" ++ ds) ++ th') = true).
  { rewrite !all_digits_append, Hds, Hth. simpl. rewrite Dc. reflexivity. }
  assert (Nall : (String c "" ++ ds) ++ th' <> "") by (simpl; discriminate).
  rewrite <- append_assoc.
  apply denotes_alt in Hfr. destruct Hfr as [Hfr | Hfr].
  - apply denotes_seq in Hfr. destruct Hfr as (dot & ff & -> & Hdot & Hff).
    apply denotes_seq in Hff. destruct Hff as (f1 & f2 & -> & Hf1 & Hf2).
    apply denotes_chr in Hdot. destruct Hdot as (x & -> & X).
    apply Ascii.eqb_eq in X. subst x.
    apply denotes_digit in Hf1, Hf2.
    destruct Hf1 as (a & -> & F1), Hf2 as (b & -> & F2).
    simpl PyStr.replace_char.
    rewrite (digit_is_no_comma _ F1), (digit_is_no_comma _ F2).
    apply of_string_fraction; try assumption.
    + simpl. rewrite F1, F2. reflexivity.
    + discriminate.
  - apply denotes_eps in Hfr. subst fr. simpl PyStr.replace_char.
    rewrite append_nil_r.
    apply of_string_integer; assumption.
Qed.

End Numbers.

(** ** [is_potential_invoice] *)

(** C5, as the code has it: with fewer than two keyword matches the
    detector answers true exactly when the lower-cased text matches both
    [invoice\s*#\s*\w+] and [total\s*[:$]?\s*\d+], and false otherwise. *)
Theorem C5_few_keywords_need_both_patterns :
  forall text : string,
    (Detector.keyword_matches (PyStr.lower text) < 2)%nat ->
    Detector.is_potential_invoice text
    = (Re.matches Detector.invoice_hash_pattern (PyStr.lower text)
       && Re.matches Detector.total_pattern (PyStr.lower text))%bool.
Proof.
  intros text H. unfold Detector.is_potential_invoice.
  destruct (Nat.leb_spec 3 (Detector.keyword_matches (PyStr.lower text)));
    [lia|].
  destruct (Nat.leb_spec 2 (Detector.keyword_matches (PyStr.lower text)));
    [lia|].
  cbn [andb].
  destruct (_ && _)%bool; reflexivity.
Qed.

Lemma C5_few_keywords_witness :
  (Detector.keyword_matches (PyStr.lower "Please find the receipt attached") < 2)%nat
  /\ Detector.is_potential_invoice "Please find the receipt attached" = false.
Proof.
  split; [vm_compute; lia|].
  rewrite (C5_few_keywords_need_both_patterns "Please find the receipt attached").
  - vm_compute. reflexivity.
  - vm_compute. lia.
Defined.

(** C5 as claimed fails: 'invoice #1 total 5' holds a single vocabulary
    term, 'invoice', and is accepted through the two patterns. *)
Lemma C5_pattern_branch_counterexample :
  ~ (forall text : string,
       (Detector.keyword_matches (PyStr.lower text) < 2)%nat ->
       Detector.is_potential_invoice text = false).
Proof.
  intros H. specialize (H "invoice #1 total 5").
  assert (K : (Detector.keyword_matches (PyStr.lower "invoice #1 total 5") < 2)%nat)
    by (vm_compute; lia).
  apply H in K. vm_compute in K. discriminate K.
Qed.

(** ** [extract_invoice_details_from_text] *)

Section ExtractorTotality.

Import Re Extractor.

Lemma matches_false r s : matches r s = false -> search r s = None.
Proof. unfold matches. destruct (search r s); [discriminate | reflexivity]. Qed.

(** A match of a pattern that ends in the number group always parses. *)
Lemma parse_amount_total pre text m :
  search (cat (pre ++ [Group 1 number])) text = Some m ->
  exists v, parse_amount m = Some v.
Proof.
  intros H. apply search_group_last in H. destruct H as (w & G & D).
  unfold parse_amount, group1. rewrite G. simpl.
  apply number_parses. exact D.
Qed.

Lemma extract_labelled_amount_total pattern pre text :
  pattern = cat (pre ++ [Group 1 number]) ->
  exists v,
    extract_labelled_amount pattern text = Some v
    /\ (matches pattern text = false -> v = None).
Proof.
  intros ->. unfold extract_labelled_amount, matches.
  destruct (search _ text) as [m|] eqn:E.
  - destruct (parse_amount_total pre text m E) as (v & P).
    rewrite P. simpl. eexists; split; [reflexivity | discriminate].
  - eexists; split; reflexivity.
Qed.

Lemma extract_total_amount_total text :
  exists v,
    extract_total_amount text = Some v
    /\ (matches amount_pattern text = false ->
        matches alt_amount_pattern text = false -> v = None).
Proof.
  unfold extract_total_amount, matches.
  destruct (search amount_pattern text) as [m|] eqn:E.
  - apply (parse_amount_total [_; _; _; _; _; _]) in E. destruct E as (v & P).
    rewrite P. simpl. eexists; split; [reflexivity | discriminate].
  - destruct (search alt_amount_pattern text) as [m|] eqn:E'.
    + apply (parse_amount_total [_; _; _; _]) in E'. destruct E' as (v & P).
      rewrite P. simpl. eexists; split; [reflexivity | discriminate].
    + eexists; split; reflexivity.
Qed.

Lemma extract_vendor_name_total text email_sender :
  exists v,
    extract_vendor_name text email_sender = Some v
    /\ (matches vendor_pattern text = false ->
        PyStr.truthy email_sender = false
        \/ (exists s, email_sender = Some s /\ matches sender_pattern s = false) ->
        v = None).
Proof.
  unfold extract_vendor_name, matches.
  destruct (search vendor_pattern text) as [m|] eqn:E.
  - apply (search_group_set 1 _ [_] [_; _]) in E. destruct E as (w & G).
    unfold group1. rewrite G. simpl.
    eexists; split; [reflexivity | discriminate].
  - destruct email_sender as [[|c s]|].
    + eexists; split; reflexivity.
    + destruct (search sender_pattern (String c s)) as [m|] eqn:E'.
      * pose proof E' as E''.
        apply (search_group_set 1 _ [_] []) in E''. destruct E'' as (w & G).
        unfold group1. rewrite G. simpl.
        eexists; split; [reflexivity|].
        intros _ [T | (s' & S' & M)]; [discriminate T|].
        injection S' as <-. rewrite E' in M. discriminate M.
      * eexists; split; reflexivity.
    + eexists; split; reflexivity.
Qed.

Lemma extract_currency_total text :
  exists v,
    extract_currency text = Some v
    /\ (matches currency_pattern text = false ->
        matches (chr "$") text = false ->
        matches (chr euro) text = false ->
        matches (chr pound) text = false -> v = "USD").
Proof.
  unfold extract_currency.
  destruct (search currency_pattern text) as [m|] eqn:E.
  - pose proof E as E'.
    apply (search_group_last 1 _ [_; _]) in E'. destruct E' as (w & G & _).
    unfold group1. rewrite G. simpl.
    eexists; split; [reflexivity|].
    intros M. unfold matches in M. rewrite E in M. discriminate M.
  - destruct (matches (chr "$") text);
      [eexists; split; [reflexivity|]; intros _ D; discriminate D|].
    destruct (matches (chr euro) text);
      [eexists; split; [reflexivity|]; intros _ _ D; discriminate D|].
    destruct (matches (chr pound) text);
      eexists; split; try reflexivity. intros _ _ _ D. discriminate D.
Qed.

Lemma unmatched_number text :
  matches invoice_pattern text = false ->
  matches alt_invoice_pattern text = false ->
  extract_invoice_number text = None.
Proof.
  intros A B. unfold extract_invoice_number.
  rewrite (matches_false _ _ A), (matches_false _ _ B). reflexivity.
Qed.

Lemma unmatched_purchase_order text :
  matches po_pattern text = false ->
  matches alt_po_pattern text = false ->
  extract_purchase_order text = None.
Proof.
  intros A B. unfold extract_purchase_order.
  rewrite (matches_false _ _ A), (matches_false _ _ B). reflexivity.
Qed.

Lemma unmatched_date text :
  matches date_pattern text = false ->
  matches alt_date_pattern text = false ->
  extract_invoice_date text = None.
Proof.
  intros A B. unfold extract_invoice_date.
  rewrite (matches_false _ _ A), (matches_false _ _ B). reflexivity.
Qed.

Lemma unmatched_due_date text :
  matches due_date_pattern text = false -> extract_due_date text = None.
Proof.
  intros A. unfold extract_due_date.
  rewrite (matches_false _ _ A). reflexivity.
Qed.

(** The dictionary the function returns, field by field. *)
Lemma extraction_fields text filepath email_subject email_sender :
  exists total vendor tax sub cur,
    extract_total_amount text = Some total
    /\ extract_vendor_name text email_sender = Some vendor
    /\ extract_labelled_amount tax_pattern text = Some tax
    /\ extract_labelled_amount subtotal_pattern text = Some sub
    /\ extract_currency text = Some cur
    /\ extract_invoice_details_from_text text filepath email_subject email_sender
       = Some {| invoice_number := extract_invoice_number text;
                 purchase_order := extract_purchase_order text;
                 total_amount := total;
                 invoice_date := extract_invoice_date text;
                 file_path := filepath;
                 vendor_name := vendor;
                 due_date := extract_due_date text;
                 tax_amount := tax;
                 subtotal := sub;
                 currency := cur;
                 status := "pending";
                 extracted_from := "email_attachment" |}.
Proof.
  destruct (extract_total_amount_total text) as (total & T & _).
  destruct (extract_vendor_name_total text email_sender) as (vendor & V & _).
  destruct (extract_labelled_amount_total tax_pattern [_; _; _; _] text eq_refl)
    as (tax & X & _).
  destruct (extract_labelled_amount_total subtotal_pattern [_; _; _; _] text eq_refl)
    as (sub & S & _).
  destruct (extract_currency_total text) as (cur & C & _).
  exists total, vendor, tax, sub, cur.
  unfold extract_invoice_details_from_text.
  rewrite T, V, X, S, C. simpl.
  repeat split; reflexivity.
Qed.

End ExtractorTotality.

(** C9: on every text the extractor returns a dictionary (no call in it
    raises), in which every field none of whose patterns match is [None];
    the currency is 'USD' when neither a currency code nor a currency
    sign matches, and the status is 'pending'. *)
Theorem C9_extraction_total_unmatched_unset :
  forall (text : string) (filepath email_subject email_sender : option string),
  exists d : Extractor.invoice_details,
    Extractor.extract_invoice_details_from_text
      text filepath email_subject email_sender = Some d
    /\ (Re.matches Extractor.invoice_pattern text = false ->
        Re.matches Extractor.alt_invoice_pattern text = false ->
        Extractor.invoice_number d = None)
    /\ (Re.matches Extractor.po_pattern text = false ->
        Re.matches Extractor.alt_po_pattern text = false ->
        Extractor.purchase_order d = None)
    /\ (Re.matches Extractor.amount_pattern text = false ->
        Re.matches Extractor.alt_amount_pattern text = false ->
        Extractor.total_amount d = None)
    /\ (Re.matches Extractor.date_pattern text = false ->
        Re.matches Extractor.alt_date_pattern text = false ->
        Extractor.invoice_date d = None)
    /\ (Re.matches Extractor.vendor_pattern text = false ->
        PyStr.truthy email_sender = false
        \/ (exists s, email_sender = Some s
                      /\ Re.matches Extractor.sender_pattern s = false) ->
        Extractor.vendor_name d = None)
    /\ (Re.matches Extractor.due_date_pattern text = false ->
        Extractor.due_date d = None)
    /\ (Re.matches Extractor.tax_pattern text = false ->
        Extractor.tax_amount d = None)
    /\ (Re.matches Extractor.subtotal_pattern text = false ->
        Extractor.subtotal d = None)
    /\ (Re.matches Extractor.currency_pattern text = false ->
        Re.matches (Re.chr "$") text = false ->
        Re.matches (Re.chr Extractor.euro) text = false ->
        Re.matches (Re.chr Extractor.pound) text = false ->
        Extractor.currency d = "USD")
    /\ Extractor.status d = "pending"
    /\ Extractor.file_path d = filepath.
Proof.
  intros text filepath email_subject email_sender.
  destruct (extraction_fields text filepath email_subject email_sender)
    as (total & vendor & tax & sub & cur & T & V & X & S & C & E).
  eexists. split; [exact E|]. cbn.
  destruct (extract_total_amount_total text) as (total' & T' & HT).
  destruct (extract_vendor_name_total text email_sender) as (vendor' & V' & HV).
  destruct (extract_labelled_amount_total Extractor.tax_pattern [_; _; _; _]
              text eq_refl) as (tax' & X' & HX).
  destruct (extract_labelled_amount_total Extractor.subtotal_pattern [_; _; _; _]
              text eq_refl) as (sub' & S' & HS).
  destruct (extract_currency_total text) as (cur' & C' & HC).
  rewrite T in T'; injection T' as <-.
  rewrite V in V'; injection V' as <-.
  rewrite X in X'; injection X' as <-.
  rewrite S in S'; injection S' as <-.
  rewrite C in C'; injection C' as <-.
  split; [apply unmatched_number|].
  split; [apply unmatched_purchase_order|].
  split; [exact HT|].
  split; [apply unmatched_date|].
  split; [exact HV|].
  split; [apply unmatched_due_date|].
  split; [exact HX|].
  split; [exact HS|].
  split; [exact HC|].
  split; reflexivity.
Qed.

Lemma C9_extraction_witness :
  exists d : Extractor.invoice_details,
    Extractor.extract_invoice_details_from_text
      "Dear customer, thank you for your order." None None None = Some d
    /\ Extractor.invoice_number d = None
    /\ Extractor.total_amount d = None
    /\ Extractor.vendor_name d = None
    /\ Extractor.currency d = "USD"
    /\ Extractor.status d = "pending".
Proof.
  destruct (C9_extraction_total_unmatched_unset
              "Dear customer, thank you for your order." None None None)
    as (d & E & N & _ & A & _ & V & _ & _ & _ & C & S & _).
  exists d. split; [exact E|].
  split; [apply N; vm_compute; reflexivity|].
  split; [apply A; vm_compute; reflexivity|].
  split; [apply V; [vm_compute; reflexivity | left; reflexivity]|].
  split; [apply C; vm_compute; reflexivity | exact S].
Defined.

(** C6: on 'Invoice # 4412 ... Total Amount: $1,250.00' the extractor
    finds the invoice number '4412' and no total amount: the first
    pattern allows a colon or a dollar sign after 'total amount', not the
    two in a row, and the second wants the number right after 'total'.
    The same amount is read as 1250.0 once the dollar sign or the colon
    is left out. *)
Theorem C6_total_amount_is_not_extracted :
  forall (filepath email_subject email_sender : option string),
  exists d : Extractor.invoice_details,
    Extractor.extract_invoice_details_from_text
      "Invoice # 4412 ... Total Amount: $1,250.00"
      filepath email_subject email_sender = Some d
    /\ Extractor.invoice_number d = Some "4412"
    /\ Extractor.total_amount d = None
    /\ Extractor.extract_total_amount "Invoice # 4412 ... Total Amount: 1,250.00"
       = Some (Some (PyFloat.of_decimal 1250 1))
    /\ Extractor.extract_total_amount "Invoice # 4412 ... Total Amount $1,250.00"
       = Some (Some (PyFloat.of_decimal 1250 1)).
Proof.
  intros filepath email_subject email_sender.
  destruct (extraction_fields "Invoice # 4412 ... Total Amount: $1,250.00"
              filepath email_subject email_sender)
    as (total & vendor & tax & sub & cur & T & _ & _ & _ & _ & E).
  eexists. split; [exact E|]. cbn.
  assert (T0 : Extractor.extract_total_amount
                 "Invoice # 4412 ... Total Amount: $1,250.00" = Some None)
    by (vm_compute; reflexivity).
  rewrite T0 in T. injection T as <-.
  split; [vm_compute; reflexivity|].
  split; [reflexivity|].
  split; vm_compute; reflexivity.
Qed.

(* ================================================================== *)
(** * Further properties of the code *)

(** ** [validate_invoice]: the whole run *)

(** The run on an invoice and a purchase order that are both found. *)
Lemma validate_invoice_run fs m db ident id inv po :
  resolve_identifier db ident = Some id ->
  select_invoice db id = Some inv ->
  select_purchase_order db (inv_po_number inv) = Some po ->
  let ds := (vendor_discrepancy (po_vendor_name po) (inv_vendor_name inv)
             ++ amount_discrepancy (po_total_amount po) (inv_total_amount inv))%list in
  let status := if is_empty ds then "validated" else "discrepancies_found" in
  let result := if is_empty ds then "Invoice matches purchase order"
                else "Discrepancies found between invoice and purchase order" in
  let content := render_report fs (inv_invoice_number inv) (inv_po_number inv)
                   status (inv_vendor_name inv) (po_vendor_name po)
                   (inv_total_amount inv) (po_total_amount po) ds in
  validate_invoice fs m db ident
  = {| stored := fst (insert_report (update_invoice_result db id status result)
                        id content
                        (if is_empty ds then None else Some ds)
                        (if is_empty ds then "auto_approved"
                         else "requires_approval"));
       sent := if (negb (is_empty ds) && PyStr.truthy (approver_email m))%bool
               then send_validation_report m status content (inv_file_path inv)
               else [];
       returned := ReturnResult status id (report_sequence db + 1) ds content |}.
Proof.
  intros H1 H2 H3 ds status result content. subst ds status result content.
  run_validation H1 H2 H3.
  destruct (is_empty _); reflexivity.
Qed.

(** The four ways a run can end. *)
Lemma validate_invoice_cases fs m db ident :
  (exists s, ident = ByNumber s /\ resolve_identifier db ident = None
             /\ validate_invoice fs m db ident
                = finish db (ReturnError ("Invoice with number " ++ s ++ " not found")))
  \/ (exists id, resolve_identifier db ident = Some id
                 /\ select_invoice db id = None
                 /\ validate_invoice fs m db ident
                    = finish db
                        (if in_int64 id then ReturnNone
                         else ReturnError
                                "Python int too large to convert to SQLite INTEGER"))
  \/ (exists id inv, resolve_identifier db ident = Some id
                     /\ select_invoice db id = Some inv
                     /\ select_purchase_order db (inv_po_number inv) = None
                     /\ validate_invoice fs m db ident
                        = finish (update_invoice_result db id "error"
                                    "Purchase order not found")
                                 (ReturnError "Purchase order not found"))
  \/ (exists id inv po, resolve_identifier db ident = Some id
                        /\ select_invoice db id = Some inv
                        /\ select_purchase_order db (inv_po_number inv) = Some po).
Proof.
  destruct (resolve_identifier db ident) as [id|] eqn:H1.
  - destruct (select_invoice db id) as [inv|] eqn:H2.
    + destruct (select_purchase_order db (inv_po_number inv)) as [po|] eqn:H3.
      * right; right; right. exists id, inv, po. repeat split; assumption.
      * right; right; left. exists id, inv. repeat split; try assumption.
        run_validation H1 H2 H3. reflexivity.
    + right; left. exists id. repeat split; try assumption.
      unfold validate_invoice. rewrite H1, H2.
      destruct (in_int64 id); reflexivity.
  - left. destruct ident as [n|s]; [discriminate H1|].
    exists s. repeat split.
    unfold validate_invoice. rewrite H1. reflexivity.
Qed.

(** X1: an invoice number or an invoice id that selects no stored invoice
    ends the run at once: the number gives the error 'Invoice with number
    ... not found', the id gives [None] or, when it lies beyond the 64
    bits SQLite can bind, the error of the [OverflowError]; nothing is
    stored and nothing is sent. *)
Theorem X1_unknown_invoice_changes_nothing :
  forall (float_str : PyFloat.float -> string) (m : manager) (db : database),
    (forall s, get_invoice_id_by_number db s = None ->
       validate_invoice float_str m db (ByNumber s)
       = {| stored := db; sent := [];
            returned := ReturnError ("Invoice with number " ++ s ++ " not found") |})
    /\ (forall n, select_invoice db n = None ->
          validate_invoice float_str m db (ById n)
          = {| stored := db; sent := [];
               returned :=
                 if in_int64 n then ReturnNone
                 else ReturnError
                        "Python int too large to convert to SQLite INTEGER" |}).
Proof.
  intros fs m db. split.
  - intros s H. unfold validate_invoice, resolve_identifier. rewrite H. reflexivity.
  - intros n H. unfold validate_invoice, resolve_identifier. rewrite H.
    destruct (in_int64 n); reflexivity.
Qed.

Lemma X1_unknown_invoice_witness :
  validate_invoice Samples.plain_float_str Samples.sample_manager
    Samples.orphan_db (ByNumber "INV404")
  = {| stored := Samples.orphan_db; sent := [];
       returned := ReturnError "Invoice with number INV404 not found" |}
  /\ validate_invoice Samples.plain_float_str Samples.sample_manager
       Samples.orphan_db (ById 404)
     = {| stored := Samples.orphan_db; sent := []; returned := ReturnNone |}
  /\ validate_invoice Samples.plain_float_str Samples.sample_manager
       Samples.orphan_db (ById (2 ^ 63))
     = {| stored := Samples.orphan_db; sent := [];
          returned := ReturnError
                        "Python int too large to convert to SQLite INTEGER" |}.
Proof.
  destruct (X1_unknown_invoice_changes_nothing Samples.plain_float_str
              Samples.sample_manager Samples.orphan_db) as (A & B).
  split; [apply (A "INV404"); reflexivity|].
  split; [apply (B 404); reflexivity | apply (B (2 ^ 63)); reflexivity].
Defined.

(** X2: after a run that compares, the invoice's stored status is the
    status returned, and it agrees with the new report: 'validated' goes
    with 'auto_approved' and no discrepancies, 'discrepancies_found' with
    'requires_approval' and at least one; whatever the status was before. *)
Theorem X2_status_and_report_agree :
  forall (float_str : PyFloat.float -> string) (m : manager) (db : database)
         (invoice_identifier : identifier) (id : Z) (inv : invoice)
         (po : purchase_order),
    resolve_identifier db invoice_identifier = Some id ->
    select_invoice db id = Some inv ->
    select_purchase_order db (inv_po_number inv) = Some po ->
    let r := validate_invoice float_str m db invoice_identifier in
    exists status report_id ds content inv' row,
      returned r = ReturnResult status id report_id ds content
      /\ select_invoice (stored r) id = Some inv'
      /\ inv_status inv' = Some status
      /\ List.last (validation_reports (stored r)) row = row
      /\ List.In row (validation_reports (stored r))
      /\ rep_id row = report_id /\ rep_invoice_id row = Some id
      /\ rep_report_content row = Some content
      /\ ((ds = [] /\ status = "validated"
           /\ rep_approval_status row = Some "auto_approved")
          \/ (ds <> [] /\ status = "discrepancies_found"
              /\ rep_approval_status row = Some "requires_approval")).
Proof.
  intros fs m db ident id inv po H1 H2 H3 r. subst r.
  rewrite (validate_invoice_run fs m db ident id inv po H1 H2 H3).
  cbn [stored returned insert_report fst with_reports validation_reports].
  set (ds := (vendor_discrepancy _ _ ++ amount_discrepancy _ _)%list).
  do 4 eexists.
  exists (set_invoice_status
            (Some (if is_empty ds then "validated" else "discrepancies_found"))
            (Some (if is_empty ds then "Invoice matches purchase order"
                   else "Discrepancies found between invoice and purchase order"))
            inv).
  eexists.
  split; [reflexivity|].
  split.
  { change (select_invoice
              (update_invoice_result db id
                 (if is_empty ds then "validated" else "discrepancies_found")
                 (if is_empty ds then "Invoice matches purchase order"
                  else "Discrepancies found between invoice and purchase order"))
              id = Some (set_invoice_status
                           (Some (if is_empty ds then "validated"
                                  else "discrepancies_found"))
                           (Some (if is_empty ds
                                  then "Invoice matches purchase order"
                                  else "Discrepancies found between invoice and purchase order"))
                           inv)).
    rewrite select_invoice_after_result, H2. reflexivity. }
  split; [reflexivity|].
  split; [apply List.last_last|].
  split; [apply List.in_or_app; right; left; reflexivity|].
  split; [reflexivity|]. split; [reflexivity|]. split; [reflexivity|].
  destruct ds as [|d ds']; [left | right]; repeat split. discriminate.
Qed.

Lemma X2_status_and_report_witness :
  let r := validate_invoice Samples.plain_float_str Samples.sample_manager
             (Samples.sample_db "Acme" (Samples.amount 50000)
                                "Acme Inc" (Samples.amount 54000))
             (ByNumber "INV1") in
  exists status report_id ds content inv' row,
    returned r = ReturnResult status 1 report_id ds content
    /\ select_invoice (stored r) 1 = Some inv'
    /\ inv_status inv' = Some status
    /\ List.last (validation_reports (stored r)) row = row
    /\ List.In row (validation_reports (stored r))
    /\ rep_id row = report_id /\ rep_invoice_id row = Some 1
    /\ rep_report_content row = Some content
    /\ ((ds = [] /\ status = "validated"
         /\ rep_approval_status row = Some "auto_approved")
        \/ (ds <> [] /\ status = "discrepancies_found"
            /\ rep_approval_status row = Some "requires_approval")).
Proof.
  exact (X2_status_and_report_agree Samples.plain_float_str Samples.sample_manager
           (Samples.sample_db "Acme" (Samples.amount 50000)
                              "Acme Inc" (Samples.amount 54000))
           (ByNumber "INV1") 1
           (Samples.sample_invoice (Some "PO100") "Acme Inc" (Samples.amount 54000))
           (Samples.sample_po "Acme" (Samples.amount 50000))
           eq_refl eq_refl eq_refl).
Defined.

(** ** Lists as tables: further facts *)

Lemma find_map_preserving {A : Type} (p : A -> bool) (f : A -> A) (l : list A) :
  (forall a, p (f a) = p a) ->
  List.find p (List.map f l) = option_map f (List.find p l).
Proof.
  intros Hp. induction l as [|a l IH]; simpl; [reflexivity|].
  rewrite Hp. destruct (p a); [reflexivity | exact IH].
Qed.

Lemma find_app_none {A : Type} (p : A -> bool) (l1 l2 : list A) :
  List.find p l1 = None -> List.find p (l1 ++ l2) = List.find p l2.
Proof.
  induction l1 as [|a l1 IH]; simpl; [reflexivity|].
  destruct (p a); [discriminate | exact IH].
Qed.

Lemma find_app_some {A : Type} (p : A -> bool) (l1 l2 : list A) (a : A) :
  List.find p l1 = Some a -> List.find p (l1 ++ l2) = Some a.
Proof.
  induction l1 as [|b l1 IH]; simpl; [discriminate|].
  destruct (p b); [trivial | exact IH].
Qed.

Lemma find_none_iff {A : Type} (p : A -> bool) (l : list A) :
  List.find p l = None <-> forall a, List.In a l -> p a = false.
Proof.
  induction l as [|b l IH]; simpl.
  - split; [intros _ a [] | reflexivity].
  - destruct (p b) eqn:E.
    + split; [discriminate|]. intros H. rewrite (H b (or_introl eq_refl)) in E.
      discriminate E.
    + rewrite IH. split.
      * intros H a [<- | Ha]; [exact E | exact (H a Ha)].
      * intros H a Ha. apply H. right. exact Ha.
Qed.

Lemma invoices_after_result db id st vr :
  invoices (update_invoice_result db id st vr)
  = List.map (Registry.restamp id st vr) (invoices db).
Proof. reflexivity. Qed.

Lemma restamp_core id st vr i :
  set_invoice_status None None (Registry.restamp id st vr i) = set_invoice_status None None i.
Proof. unfold Registry.restamp. destruct (Z.eqb _ _); reflexivity. Qed.

Lemma map_restamp_core id st vr l :
  List.map (set_invoice_status None None) (List.map (Registry.restamp id st vr) l)
  = List.map (set_invoice_status None None) l.
Proof.
  rewrite List.map_map. apply List.map_ext. intros i. apply restamp_core.
Qed.

Lemma restamp_other id st vr i :
  inv_id i <> id -> Registry.restamp id st vr i = i.
Proof.
  intros H. unfold Registry.restamp.
  destruct (Z.eqb_spec (inv_id i) id); [contradiction | reflexivity].
Qed.

(** X3: a run never touches the purchase orders, never adds or removes an
    invoice and changes no column of an invoice other than status and
    validation_result; an invoice with another id stays as it is; the
    stored reports are kept and at most one is appended. *)
Theorem X3_validate_invoice_frame :
  forall (float_str : PyFloat.float -> string) (m : manager) (db : database)
         (invoice_identifier : identifier),
    let r := validate_invoice float_str m db invoice_identifier in
    purchase_orders (stored r) = purchase_orders db
    /\ List.map (set_invoice_status None None) (invoices (stored r))
       = List.map (set_invoice_status None None) (invoices db)
    /\ (forall i, List.In i (invoices db) ->
          resolve_identifier db invoice_identifier <> Some (inv_id i) ->
          List.In i (invoices (stored r)))
    /\ exists new, validation_reports (stored r)
                   = (validation_reports db ++ new)%list
                   /\ (List.length new <= 1)%nat.
Proof.
  intros fs m db ident r. subst r.
  assert (Keep : forall id st vr i,
            List.In i (invoices db) ->
            resolve_identifier db ident = Some id ->
            resolve_identifier db ident <> Some (inv_id i) ->
            List.In i (List.map (Registry.restamp id st vr) (invoices db))).
  { intros id st vr i Hi R N. apply List.in_map_iff. exists i. split; [|exact Hi].
    apply restamp_other. intros E. apply N. rewrite R, E. reflexivity. }
  destruct (validate_invoice_cases fs m db ident)
    as [(s & _ & _ & E) | [(id & _ & _ & E) | [(id & inv & R & _ & _ & E)
       | (id & inv & po & H1 & H2 & H3)]]].
  - rewrite E. simpl. repeat split; trivial.
    exists []. rewrite List.app_nil_r. split; [reflexivity | simpl; lia].
  - rewrite E. simpl. repeat split; trivial.
    exists []. rewrite List.app_nil_r. split; [reflexivity | simpl; lia].
  - rewrite E. cbn [stored finish].
    split; [reflexivity|].
    split; [rewrite invoices_after_result; apply map_restamp_core|].
    split; [intros i Hi N; rewrite invoices_after_result; apply Keep; assumption|].
    exists []. rewrite List.app_nil_r. split; [reflexivity | simpl; lia].
  - rewrite (validate_invoice_run fs m db ident id inv po H1 H2 H3).
    cbn [stored insert_report fst with_reports purchase_orders invoices
         validation_reports].
    split; [reflexivity|].
    split; [rewrite invoices_after_result; apply map_restamp_core|].
    split; [intros i Hi N; rewrite invoices_after_result; apply Keep; assumption|].
    eexists. split; [reflexivity | simpl; lia].
Qed.

Lemma X3_validate_invoice_frame_witness :
  let r := validate_invoice Samples.plain_float_str Samples.sample_manager
             Samples.reported_db (ById 1) in
  purchase_orders (stored r) = purchase_orders Samples.reported_db
  /\ List.length (invoices (stored r)) = 1%nat
  /\ List.length (validation_reports (stored r)) = 2%nat.
Proof.
  intros r.
  destruct (X3_validate_invoice_frame Samples.plain_float_str
              Samples.sample_manager Samples.reported_db (ById 1))
    as (P & _ & _ & _).
  split; [exact P|]. split; reflexivity.
Defined.

Lemma resolve_after_result db id st vr ident :
  resolve_identifier (update_invoice_result db id st vr) ident
  = resolve_identifier db ident.
Proof.
  destruct ident as [n|s]; [reflexivity|].
  unfold resolve_identifier, get_invoice_id_by_number, select_invoice_by_number.
  rewrite invoices_after_result.
  rewrite (find_map_preserving _ (Registry.restamp id st vr)).
  - destruct (List.find _ (invoices db)) as [i|]; [|reflexivity].
    simpl. unfold Registry.restamp. destruct (Z.eqb (inv_id i) id); reflexivity.
  - intros i. unfold Registry.restamp. destruct (Z.eqb (inv_id i) id); reflexivity.
Qed.

(** X4: validating the same invoice again returns the same status, the
    same discrepancies and the same report text under the next report
    id, and leaves two reports for the two runs. *)
Theorem X4_revalidation_repeats :
  forall (float_str : PyFloat.float -> string) (m : manager) (db : database)
         (invoice_identifier : identifier) (id : Z) (inv : invoice)
         (po : purchase_order),
    resolve_identifier db invoice_identifier = Some id ->
    select_invoice db id = Some inv ->
    select_purchase_order db (inv_po_number inv) = Some po ->
    let r1 := validate_invoice float_str m db invoice_identifier in
    let r2 := validate_invoice float_str m (stored r1) invoice_identifier in
    exists status report_id ds content,
      returned r1 = ReturnResult status id report_id ds content
      /\ returned r2 = ReturnResult status id (report_id + 1) ds content
      /\ sent r2 = sent r1
      /\ List.length (validation_reports (stored r2))
         = (List.length (validation_reports db) + 2)%nat.
Proof.
  intros fs m db ident id inv po H1 H2 H3 r1 r2. subst r1 r2.
  rewrite (validate_invoice_run fs m db ident id inv po H1 H2 H3).
  cbn [stored insert_report fst].
  set (ds := (vendor_discrepancy _ _ ++ amount_discrepancy _ _)%list).
  set (st := if is_empty ds then "validated" else "discrepancies_found").
  set (vr := if is_empty ds then "Invoice matches purchase order"
             else "Discrepancies found between invoice and purchase order").
  set (content := render_report fs _ _ st _ _ _ _ ds).
  set (db1 := with_reports (update_invoice_result db id st vr) _ _).
  assert (R1 : resolve_identifier db1 ident = Some id).
  { rewrite <- H1, <- (resolve_after_result db id st vr ident).
    destruct ident; reflexivity. }
  assert (S1 : select_invoice db1 id
               = Some (set_invoice_status (Some st) (Some vr) inv)).
  { change (select_invoice (update_invoice_result db id st vr) id
            = Some (set_invoice_status (Some st) (Some vr) inv)).
    rewrite select_invoice_after_result, H2. reflexivity. }
  assert (P1 : select_purchase_order db1
                 (inv_po_number (set_invoice_status (Some st) (Some vr) inv))
               = Some po) by exact H3.
  rewrite (validate_invoice_run fs m db1 ident id _ po R1 S1 P1).
  cbn [stored sent returned insert_report fst with_reports validation_reports
       set_invoice_status inv_vendor_name inv_total_amount inv_invoice_number
       inv_po_number inv_file_path].
  fold ds. fold st. fold content.
  exists st, (report_sequence db + 1), ds, content.
  split; [reflexivity|]. split; [reflexivity|]. split; [reflexivity|].
  subst db1. cbn [validation_reports with_reports update_invoice_result
                  with_invoices].
  rewrite !List.length_app. simpl. lia.
Qed.

Lemma X4_revalidation_witness :
  let r1 := validate_invoice Samples.plain_float_str Samples.sample_manager
              Samples.reported_db (ById 1) in
  let r2 := validate_invoice Samples.plain_float_str Samples.sample_manager
              (stored r1) (ById 1) in
  exists status report_id ds content,
    returned r1 = ReturnResult status 1 report_id ds content
    /\ returned r2 = ReturnResult status 1 (report_id + 1) ds content
    /\ sent r2 = sent r1
    /\ List.length (validation_reports (stored r2))
       = (List.length (validation_reports Samples.reported_db) + 2)%nat.
Proof.
  exact (X4_revalidation_repeats Samples.plain_float_str Samples.sample_manager
           Samples.reported_db (ById 1) 1
           (Samples.sample_invoice (Some "PO100") "Acme Inc" (Samples.amount 54000))
           (Samples.sample_po "Acme" (Samples.amount 50000))
           eq_refl eq_refl eq_refl).
Defined.

(** X5: a run sends at most one message, and only for discrepancies: a
    message goes out exactly when the run found discrepancies and the
    sender address, the password and the approver address are all set.
    It goes to the approver, with the report text as its body. *)
Theorem X5_notification_only_for_discrepancies :
  forall (float_str : PyFloat.float -> string) (m : manager) (db : database)
         (invoice_identifier : identifier),
    let r := validate_invoice float_str m db invoice_identifier in
    let configured := (PyStr.truthy (email_address m)
                       && PyStr.truthy (email_password m)
                       && PyStr.truthy (approver_email m))%bool in
    (sent r = []
     /\ (configured = false \/ discrepancies_of (returned r) = []))
    \/ (exists mail status id report_id ds content,
          sent r = [mail]
          /\ configured = true
          /\ returned r = ReturnResult status id report_id ds content
          /\ ds <> [] /\ status = "discrepancies_found"
          /\ approver_email m = Some (mail_to mail)
          /\ mail_subject mail = "Invoice Validation Report - DISCREPANCIES_FOUND"
          /\ mail_body mail = content).
Proof.
  intros fs m db ident r configured. subst r configured.
  destruct (validate_invoice_cases fs m db ident)
    as [(s & _ & _ & E) | [(id & _ & _ & E) | [(id & inv & R & _ & _ & E)
       | (id & inv & po & H1 & H2 & H3)]]];
    try (rewrite E; left; split; [reflexivity | right; reflexivity]);
    try (rewrite E; left; split;
         [reflexivity | right; destruct (in_int64 id); reflexivity]).
  rewrite (validate_invoice_run fs m db ident id inv po H1 H2 H3).
  cbn [sent returned discrepancies_of].
  set (ds := (vendor_discrepancy _ _ ++ amount_discrepancy _ _)%list).
  destruct ds as [|d ds'] eqn:Eds; cbn [is_empty negb andb].
  - left. split; [reflexivity | right; reflexivity].
  - unfold send_validation_report.
    destruct (approver_email m) as [[|a to]|]; cbn [PyStr.truthy];
      try (left; split; [reflexivity | left; apply Bool.andb_false_r]).
    destruct (email_address m) as [[|b from]|]; cbn [PyStr.truthy andb];
      try (left; split; [reflexivity | left; reflexivity]).
    destruct (email_password m) as [[|c pw]|]; cbn [PyStr.truthy andb];
      try (left; split; [reflexivity | left; reflexivity]).
    right. do 6 eexists.
    split; [reflexivity|]. split; [reflexivity|]. split; [reflexivity|].
    split; [discriminate|]. repeat split.
Qed.

(** ** Report ids *)

Lemma select_report_fresh db row :
  Registry.report_ids_ok db -> rep_id row = report_sequence db + 1 ->
  List.find (fun r => Z.eqb (rep_id r) (rep_id row))
            (validation_reports db ++ [row])
  = Some row.
Proof.
  intros (_ & B) E.
  rewrite find_app_none.
  - simpl. rewrite Z.eqb_refl. reflexivity.
  - apply find_none_iff. intros a Ha.
    rewrite List.Forall_forall in B. specialize (B a Ha).
    apply Z.eqb_neq. lia.
Qed.

Lemma report_ids_ok_insert db row :
  Registry.report_ids_ok db -> rep_id row = report_sequence db + 1 ->
  Registry.report_ids_ok
    (with_reports db (validation_reports db ++ [row]) (rep_id row)).
Proof.
  intros (N & B) E. split; cbn [validation_reports with_reports report_sequence].
  - rewrite List.map_app. simpl.
    apply List.NoDup_app; [exact N | repeat constructor; intros [] | ].
    intros x Hx [<- | []].
    apply List.in_map_iff in Hx. destruct Hx as (a & Ea & Ha).
    rewrite List.Forall_forall in B. specialize (B a Ha). lia.
  - apply List.Forall_app. split.
    + rewrite List.Forall_forall in *. intros a Ha. specialize (B a Ha). lia.
    + repeat constructor. lia.
Qed.

(** X6: report ids stay distinct and below the counter through any run,
    and the report id a run returns is new: it selects the report just
    written, while every id that selected a report before still selects
    the same report. *)
Theorem X6_report_id_is_fresh :
  forall (float_str : PyFloat.float -> string) (m : manager) (db : database)
         (invoice_identifier : identifier),
    Registry.report_ids_ok db ->
    let r := validate_invoice float_str m db invoice_identifier in
    Registry.report_ids_ok (stored r)
    /\ (forall k old, select_report db k = Some old ->
          select_report (stored r) k = Some old)
    /\ match returned r with
       | ReturnResult _ id report_id _ content =>
           select_report db report_id = None
           /\ exists row, select_report (stored r) report_id = Some row
                          /\ rep_invoice_id row = Some id
                          /\ rep_report_content row = Some content
       | _ => True
       end.
Proof.
  intros fs m db ident Ok r. subst r.
  destruct (validate_invoice_cases fs m db ident)
    as [(s & _ & _ & E) | [(id & _ & _ & E) | [(id & inv & R & _ & _ & E)
       | (id & inv & po & H1 & H2 & H3)]]];
    try (rewrite E; cbn [stored returned finish];
         split; [exact Ok|]; split;
         [intros k old Hk; exact Hk
         | try exact I; destruct (in_int64 id); exact I]).
  rewrite (validate_invoice_run fs m db ident id inv po H1 H2 H3).
  cbn [stored returned insert_report fst].
  set (row := {| rep_id := _ |}).
  set (db1 := update_invoice_result db id _ _).
  assert (Ok1 : Registry.report_ids_ok db1) by exact Ok.
  assert (Erow : rep_id row = report_sequence db1 + 1) by reflexivity.
  split; [exact (report_ids_ok_insert db1 row Ok1 Erow)|].
  split.
  - intros k old Hk. unfold select_report.
    cbn [validation_reports with_reports].
    apply find_app_some. exact Hk.
  - split.
    + apply find_none_iff. intros a Ha. destruct Ok as (_ & B).
      rewrite List.Forall_forall in B. specialize (B a Ha).
      apply Z.eqb_neq. lia.
    + exists row. split; [|split; reflexivity].
      exact (select_report_fresh db1 row Ok1 Erow).
Qed.

Lemma X6_report_id_witness :
  Registry.report_ids_ok Samples.reported_db
  /\ let r := validate_invoice Samples.plain_float_str Samples.sample_manager
                Samples.reported_db (ById 1) in
     Registry.report_ids_ok (stored r)
     /\ exists row, select_report (stored r) 2 = Some row
                    /\ rep_invoice_id row = Some 1.
Proof.
  assert (Ok : Registry.report_ids_ok Samples.reported_db).
  { split; simpl.
    - repeat constructor. intros [].
    - constructor; [simpl; lia | constructor]. }
  split; [exact Ok|]. intros r.
  destruct (X6_report_id_is_fresh Samples.plain_float_str Samples.sample_manager
              Samples.reported_db (ById 1) Ok) as (A & _ & _).
  split; [exact A|]. eexists. split; reflexivity.
Defined.

(** ** [update_approval_status]: further behaviour *)

Lemma unknown_report_rolls_back db rid st c :
  select_report db rid = None ->
  update_approval_status db rid st c = (db, false).
Proof.
  intros H. unfold update_approval_status.
  rewrite select_report_after_update, H. reflexivity.
Qed.

(** X7: only the exact text 'approved' approves.  For every other
    approval_status (another spelling, 'requires_approval', ...) the
    report takes that text as its approval_status and the invoice is
    marked 'rejected'; the invoice's validation_result is kept. *)
Theorem X7_anything_but_approved_rejects :
  forall (db : database) (report_id invoice_id : Z) (r : validation_report)
         (i : invoice) (approval_status : string) (comments : option string),
    select_report db report_id = Some r ->
    rep_invoice_id r = Some invoice_id ->
    select_invoice db invoice_id = Some i ->
    approval_status <> "approved" ->
    let after := update_approval_status db report_id approval_status comments in
    snd after = true
    /\ (exists r', select_report (fst after) report_id = Some r'
                   /\ rep_approval_status r' = Some approval_status)
    /\ (exists i', select_invoice (fst after) invoice_id = Some i'
                   /\ inv_status i' = Some "rejected"
                   /\ inv_validation_result i' = inv_validation_result i).
Proof.
  intros db rid iid r i st c Hr Hi Hinv Hst after. subst after.
  rewrite (update_approval_status_found db rid st c r Hr).
  cbn [fst snd].
  destruct (String.eqb_spec st "approved") as [E | _]; [contradiction|].
  split; [reflexivity|]. split.
  - rewrite select_report_after_invoice_status, select_report_after_update, Hr.
    eexists. split; reflexivity.
  - rewrite Hi, select_invoice_after_status, select_invoice_after_report, Hinv.
    eexists. repeat split.
Qed.

Lemma X7_anything_but_approved_witness :
  let after := update_approval_status Samples.reported_db 1 "Approved" None in
  snd after = true
  /\ (exists r', select_report (fst after) 1 = Some r'
                 /\ rep_approval_status r' = Some "Approved")
  /\ (exists i', select_invoice (fst after) 1 = Some i'
                 /\ inv_status i' = Some "rejected"
                 /\ inv_validation_result i' = None).
Proof.
  refine (X7_anything_but_approved_rejects Samples.reported_db 1 1 _
            (Samples.sample_invoice (Some "PO100") "Acme Inc" (Samples.amount 54000))
            "Approved" None _ _ _ _).
  - reflexivity.
  - reflexivity.
  - reflexivity.
  - discriminate.
Defined.

(** X8: a decision never drops report text: the stored content is the old
    content followed by a blank line and 'Approver Comments: ...' when a
    non-empty comment is given, and by 'Approved without comments'
    otherwise, for a rejection as well; a NULL content stays NULL; the
    stored discrepancies and the invoice id of the report are kept. *)
Theorem X8_comment_is_appended :
  forall (db : database) (report_id : Z) (r : validation_report)
         (approval_status : string) (comments : option string),
    select_report db report_id = Some r ->
    let after := update_approval_status db report_id approval_status comments in
    exists r',
      select_report (fst after) report_id = Some r'
      /\ rep_discrepancies r' = rep_discrepancies r
      /\ rep_invoice_id r' = rep_invoice_id r
      /\ rep_report_content r'
         = match rep_report_content r, comments with
           | None, _ => None
           | Some text, Some (String c cs) =>
               Some (text ++ PyStr.nl ++ PyStr.nl ++ "Approver Comments: "
                          ++ String c cs)
           | Some text, _ =>
               Some (text ++ PyStr.nl ++ PyStr.nl ++ "Approved without comments")
           end.
Proof.
  intros db rid r st c Hr after. subst after.
  rewrite (update_approval_status_found db rid st c r Hr).
  cbn [fst].
  rewrite select_report_after_invoice_status, select_report_after_update, Hr.
  eexists. split; [reflexivity|]. cbn.
  split; [reflexivity|]. split; [reflexivity|].
  destruct (rep_report_content r) as [text|]; [|reflexivity].
  destruct c as [[|x xs]|]; reflexivity.
Qed.

Lemma X8_comment_witness :
  exists r',
    select_report (fst (update_approval_status Samples.reported_db 1
                          "rejected" None)) 1 = Some r'
    /\ rep_report_content r'
       = Some ("Invoice Validation Report" ++ PyStr.nl ++ PyStr.nl
               ++ "Approved without comments").
Proof.
  destruct (X8_comment_is_appended Samples.reported_db 1 _ "rejected" None
              eq_refl) as (r' & S & _ & _ & C).
  exists r'. split; [exact S | exact C].
Defined.

Lemma find_after_update_other {A : Type} (key : A -> Z) (g : A -> A)
  (k k' : Z) (l : list A) :
  (forall a, key (g a) = key a) -> k' <> k ->
  List.find (fun a => Z.eqb (key a) k')
            (List.map (fun a => if Z.eqb (key a) k then g a else a) l)
  = List.find (fun a => Z.eqb (key a) k') l.
Proof.
  intros Hk N. induction l as [|a l IH]; simpl; [reflexivity|].
  destruct (Z.eqb_spec (key a) k) as [E | E].
  - rewrite Hk. destruct (Z.eqb_spec (key a) k') as [E' | _]; [lia | exact IH].
  - destruct (Z.eqb (key a) k'); [reflexivity | exact IH].
Qed.

(** X9: a decision touches one report and one invoice.  Purchase orders,
    the report counter and the ids of the reports stay; every other report
    id selects what it selected; every other invoice id selects what it
    selected; no invoice column but the status changes. *)
Theorem X9_update_approval_status_frame :
  forall (db : database) (report_id : Z) (approval_status : string)
         (comments : option string),
    let after := fst (update_approval_status db report_id approval_status
                                             comments) in
    purchase_orders after = purchase_orders db
    /\ report_sequence after = report_sequence db
    /\ List.map rep_id (validation_reports after)
       = List.map rep_id (validation_reports db)
    /\ (forall k, k <> report_id -> select_report after k = select_report db k)
    /\ (forall k r, select_report db report_id = Some r ->
          rep_invoice_id r <> Some k ->
          select_invoice after k = select_invoice db k)
    /\ List.map (fun i => set_invoice_status None (inv_validation_result i) i)
                (invoices after)
       = List.map (fun i => set_invoice_status None (inv_validation_result i) i)
                  (invoices db).
Proof.
  intros db rid st c after. subst after.
  destruct (select_report db rid) as [r|] eqn:Hr.
  - rewrite (update_approval_status_found db rid st c r Hr). cbn [fst].
    set (st' := if String.eqb st "approved" then "approved" else "rejected").
    destruct (rep_invoice_id r) as [iid|] eqn:Hi.
    + split; [reflexivity|]. split; [reflexivity|].
      split.
      { cbn. rewrite List.map_map. apply List.map_ext.
        intros a. destruct (Z.eqb (rep_id a) rid); reflexivity. }
      split.
      { intros k Hk. rewrite select_report_after_invoice_status.
        unfold select_report, update_report. cbn [validation_reports with_reports].
        apply (find_after_update_other rep_id); [reflexivity | exact Hk]. }
      split.
      { intros k r0 E N. injection E as <-.
        unfold select_invoice, update_invoice_status.
        cbn [invoices with_invoices update_report with_reports].
        apply (find_after_update_other inv_id); [reflexivity|].
        intros ->. apply N. exact Hi. }
      { cbn. rewrite List.map_map. apply List.map_ext.
        intros a. destruct (Z.eqb (inv_id a) iid); reflexivity. }
    + split; [reflexivity|]. split; [reflexivity|].
      split.
      { cbn. rewrite List.map_map. apply List.map_ext.
        intros a. destruct (Z.eqb (rep_id a) rid); reflexivity. }
      split.
      { intros k Hk.
        unfold select_report, update_report. cbn.
        apply (find_after_update_other rep_id); [reflexivity | exact Hk]. }
      split; [intros; reflexivity | reflexivity].
  - rewrite (unknown_report_rolls_back db rid st c Hr). cbn [fst].
    repeat split; try reflexivity; try (intros k r E; discriminate E).
Qed.

Lemma X9_update_approval_status_frame_witness :
  let after := fst (update_approval_status Samples.reported_db 1 "approved"
                                           (Some "checked")) in
  purchase_orders after = purchase_orders Samples.reported_db
  /\ report_sequence after = 1
  /\ select_report after 2 = None.
Proof.
  intros after.
  destruct (X9_update_approval_status_frame Samples.reported_db 1 "approved"
              (Some "checked")) as (P & Q & _ & R & _).
  split; [exact P|]. split; [exact Q|].
  fold after in R. rewrite (R 2) by discriminate. reflexivity.
Defined.

(** ** [get_pending_approvals] *)

Section Pending.

Import Registry.

Lemma awaits_approval_report db rid :
  awaits_approval db rid ->
  exists r, List.In r (validation_reports db) /\ rep_id r = rid
            /\ rep_approval_status r = Some "requires_approval".
Proof.
  intros (row & Hin & Hid). unfold get_pending_approvals in Hin.
  apply List.in_flat_map in Hin. destruct Hin as (r & Hr & Hrow).
  exists r. split; [exact Hr|].
  destruct (rep_approval_status r) as [s|] eqn:Es; simpl in Hrow;
    [|contradiction].
  destruct (String.eqb_spec s "requires_approval") as [-> | _];
    [|contradiction].
  split; [|reflexivity].
  destruct (rep_invoice_id r) as [iid|]; [|contradiction].
  apply List.in_map_iff in Hrow. destruct Hrow as (i & <- & _).
  exact Hid.
Qed.

Lemma awaits_approval_intro db r i :
  List.In r (validation_reports db) ->
  rep_approval_status r = Some "requires_approval" ->
  rep_invoice_id r = Some (inv_id i) ->
  List.In i (invoices db) ->
  awaits_approval db (rep_id r).
Proof.
  intros Hr Hs Hi Hin.
  exists {| pa_report_id := rep_id r;
            pa_invoice_number := inv_invoice_number i;
            pa_po_number := inv_po_number i;
            pa_vendor_name := inv_vendor_name i;
            pa_total_amount := inv_total_amount i;
            pa_file_path := inv_file_path i |}.
  split; [|reflexivity].
  unfold get_pending_approvals. apply List.in_flat_map. exists r.
  split; [exact Hr|]. rewrite Hs, Hi. simpl.
  apply List.in_map_iff. exists i. split; [reflexivity|].
  apply List.filter_In. split; [exact Hin | apply Z.eqb_refl].
Qed.

(** X10: the pending list follows the approval workflow.  A run that finds
    discrepancies puts the report it returns on the list of
    [get_pending_approvals]; after a decision on a report id, with any
    approval_status other than 'requires_approval', no row of the list
    carries that report id. *)
Theorem X10_pending_list_follows_workflow :
  forall (float_str : PyFloat.float -> string) (m : manager) (db : database),
    (forall invoice_identifier status id report_id d ds content,
       returned (validate_invoice float_str m db invoice_identifier)
       = ReturnResult status id report_id (d :: ds) content ->
       awaits_approval
         (stored (validate_invoice float_str m db invoice_identifier)) report_id)
    /\ (forall report_id approval_status comments,
          approval_status <> "requires_approval" ->
          ~ awaits_approval
              (fst (update_approval_status db report_id approval_status comments))
              report_id).
Proof.
  intros fs m db. split.
  - intros ident status id rid d ds content H.
    destruct (validate_invoice_cases fs m db ident)
      as [(s & _ & _ & E) | [(id' & _ & _ & E) | [(id' & inv & R & _ & _ & E)
         | (id' & inv & po & H1 & H2 & H3)]]];
      try (rewrite E in H; discriminate H);
      try (rewrite E in H; destruct (in_int64 id'); discriminate H).
    rewrite (validate_invoice_run fs m db ident id' inv po H1 H2 H3) in H |- *.
    cbn [stored returned insert_report fst] in H |- *.
    injection H as _ <- <- Hds _.
    rewrite Hds. cbn [is_empty].
    set (row := {| rep_id := _ |}).
    set (st := if is_empty (d :: ds) then "validated" else "discrepancies_found").
    apply (awaits_approval_intro _ row
             (set_invoice_status (Some "discrepancies_found")
                (Some "Discrepancies found between invoice and purchase order")
                inv)).
    + cbn. apply List.in_or_app. right. left. reflexivity.
    + reflexivity.
    + cbn. unfold select_invoice in H2. apply List.find_some in H2.
      destruct H2 as (_ & E). apply Z.eqb_eq in E. rewrite E. reflexivity.
    + cbn [invoices with_reports]. rewrite invoices_after_result.
      apply List.in_map_iff. exists inv. split.
      * unfold Registry.restamp. unfold select_invoice in H2.
        apply List.find_some in H2. destruct H2 as (_ & E). rewrite E.
        reflexivity.
      * unfold select_invoice in H2. apply List.find_some in H2. apply H2.
  - intros rid st c Hst A. apply awaits_approval_report in A.
    destruct A as (r' & Hin & Hid & Hs).
    destruct (select_report db rid) as [r|] eqn:Hr.
    + rewrite (update_approval_status_found db rid st c r Hr) in Hin.
      cbn [fst] in Hin. rewrite reports_after_invoice_status in Hin.
      cbn in Hin. apply List.in_map_iff in Hin. destruct Hin as (a & Ea & _).
      destruct (Z.eqb_spec (rep_id a) rid) as [E | E].
      * subst r'. cbn in Hs. injection Hs as Hs. contradiction.
      * subst r'. contradiction.
    + rewrite (unknown_report_rolls_back db rid st c Hr) in Hin. cbn [fst] in Hin.
      unfold select_report in Hr.
      pose proof (proj1 (find_none_iff _ _) Hr r' Hin) as F.
      cbn in F. rewrite Hid, Z.eqb_refl in F. discriminate F.
Qed.

Lemma X10_pending_list_witness :
  Registry.awaits_approval Samples.reported_db 1
  /\ ~ Registry.awaits_approval
         (fst (update_approval_status Samples.reported_db 1 "approved" None)) 1.
Proof.
  split.
  - eexists. split; [left; reflexivity | reflexivity].
  - destruct (X10_pending_list_follows_workflow Samples.plain_float_str
                Samples.sample_manager Samples.reported_db) as (_ & B).
    apply B. discriminate.
Defined.

End Pending.

(** ** [add_invoice] and [add_purchase_order] *)

Section Registering.

Import Registry.

Lemma number_not_taken db n :
  invoice_number_taken db (Some n) = false ->
  List.find (fun i => PyStr.opt_eqb (inv_invoice_number i) (Some n)) (invoices db)
  = None.
Proof.
  unfold invoice_number_taken. intros H. apply find_none_iff. intros a Ha.
  destruct (PyStr.opt_eqb (inv_invoice_number a) (Some n)) eqn:E; [|reflexivity].
  rewrite <- H. symmetry. apply List.existsb_exists. exists a. split; assumption.
Qed.

Lemma filter_nothing {A : Type} (p : A -> bool) (l : list A) :
  (forall a, List.In a l -> p a = false) -> List.filter p l = [].
Proof.
  induction l as [|a l IH]; intros H; simpl; [reflexivity|].
  rewrite (H a (or_introl eq_refl)). apply IH.
  intros b Hb. apply H. right. exact Hb.
Qed.

Lemma opt_eqb_refl s : PyStr.opt_eqb (Some s) (Some s) = true.
Proof. simpl. apply String.eqb_refl. Qed.

(** What [add_invoice] stores for a number that is not taken. *)
Lemma add_invoice_new_number c d n :
  Extractor.invoice_number d = Some n ->
  invoice_number_taken (tables c) (Some n) = false ->
  exists row,
    add_invoice c d
    = ({| tables := with_invoices (tables c) (invoices (tables c) ++ [row]);
          purchase_order_sequence := purchase_order_sequence c;
          invoice_sequence := invoice_sequence c + 1 |},
       Some (invoice_sequence c + 1))
    /\ inv_id row = invoice_sequence c + 1
    /\ (inv_invoice_number row = Some n
        /\ inv_po_number row = Extractor.purchase_order d
        /\ inv_vendor_name row = Extractor.vendor_name d
        /\ inv_total_amount row = sql_real (Extractor.total_amount d)).
Proof.
  intros Hn T. unfold add_invoice. rewrite Hn, T.
  eexists. split; [reflexivity|]. repeat split.
Qed.

(** A NaN amount, stored as NULL, is as little a discrepancy as the NaN
    itself, and a zero of either sign is none. *)
Lemma amount_discrepancy_sql_real p v :
  amount_discrepancy p (Registry.sql_real v) = amount_discrepancy p v.
Proof.
  destruct v as [[s | s | | s mx ex]|]; try reflexivity.
  { destruct p as [x|]; [|reflexivity].
    cbn [Registry.sql_real amount_discrepancy PyFloat.truthy PyFloat.is_zero
         negb andb].
    rewrite !Bool.andb_false_r. reflexivity. }
  destruct p as [x|]; [|reflexivity].
  cbn [Registry.sql_real amount_discrepancy].
  replace (PyFloat.gtb (PyFloat.abs (PyFloat.sub x S754_nan)) tolerance)
    with false; [rewrite Bool.andb_false_r; reflexivity|].
  destruct x as [sx | sx | | sx m e]; reflexivity.
Qed.

(** X11: the invoice number is the key of an invoice.  A dictionary whose
    invoice_number is already stored is refused: [None] is returned and
    nothing changes.  A new number is stored under the next id, which is
    returned and which [get_invoice_id_by_number] finds again; adding the
    same dictionary once more is refused, so one row carries the number. *)
Theorem X11_invoice_number_is_unique_key :
  forall (c : catalog) (d : Extractor.invoice_details) (n : string),
    Extractor.invoice_number d = Some n ->
    (invoice_number_taken (tables c) (Some n) = true ->
     add_invoice c d = (c, None))
    /\ (invoice_number_taken (tables c) (Some n) = false ->
        let first := add_invoice c d in
        let second := add_invoice (fst first) d in
        snd first = Some (invoice_sequence c + 1)
        /\ get_invoice_id_by_number (tables (fst first)) n = snd first
        /\ second = (fst first, None)
        /\ List.length
             (List.filter (fun i => PyStr.opt_eqb (inv_invoice_number i) (Some n))
                          (invoices (tables (fst second)))) = 1%nat).
Proof.
  intros c d n Hn. split; intros T.
  - unfold add_invoice. rewrite Hn, T. reflexivity.
  - intros first second. subst first second.
    assert (A : add_invoice c d
                = ({| tables :=
                        with_invoices (tables c)
                          (invoices (tables c) ++
                             [ {| inv_id := invoice_sequence c + 1;
                                  inv_invoice_number := Some n;
                                  inv_po_number := Extractor.purchase_order d;
                                  inv_vendor_name := Extractor.vendor_name d;
                                  inv_invoice_date := Extractor.invoice_date d;
                                  inv_total_amount := Registry.sql_real (Extractor.total_amount d);
                                  inv_file_path := Extractor.file_path d;
                                  inv_status := Some "pending";
                                  inv_validation_result := None |} ])%list;
                      purchase_order_sequence := purchase_order_sequence c;
                      invoice_sequence := invoice_sequence c + 1 |},
                   Some (invoice_sequence c + 1))).
    { unfold add_invoice. rewrite Hn, T. reflexivity. }
    rewrite A. cbn [fst snd].
    pose proof (number_not_taken _ _ T) as F.
    split; [reflexivity|]. split.
    + unfold get_invoice_id_by_number, select_invoice_by_number.
      cbn [tables invoices with_invoices].
      rewrite (find_app_none _ _ _ F). simpl. rewrite String.eqb_refl. reflexivity.
    + assert (T' : invoice_number_taken
                     (with_invoices (tables c)
                        (invoices (tables c) ++
                           [ {| inv_id := invoice_sequence c + 1;
                                inv_invoice_number := Some n;
                                inv_po_number := Extractor.purchase_order d;
                                inv_vendor_name := Extractor.vendor_name d;
                                inv_invoice_date := Extractor.invoice_date d;
                                inv_total_amount := Registry.sql_real (Extractor.total_amount d);
                                inv_file_path := Extractor.file_path d;
                                inv_status := Some "pending";
                                inv_validation_result := None |} ])%list)
                     (Some n) = true).
      { unfold invoice_number_taken. cbn [invoices with_invoices].
        rewrite List.existsb_app. simpl. rewrite String.eqb_refl.
        rewrite Bool.orb_true_r. reflexivity. }
      split.
      * unfold add_invoice at 1. cbn [tables]. rewrite Hn, T'. reflexivity.
      * unfold add_invoice. cbn [tables]. rewrite Hn, T'. cbn [fst tables].
        cbn [invoices with_invoices]. rewrite List.filter_app.
        rewrite List.length_app. simpl. rewrite String.eqb_refl. simpl.
        assert (Z0 : List.filter
                       (fun i => PyStr.opt_eqb (inv_invoice_number i) (Some n))
                       (invoices (tables c)) = []).
        { apply filter_nothing. apply find_none_iff. exact F. }
        rewrite Z0. reflexivity.
Qed.


Lemma X11_invoice_number_witness :
  let d := Cases.details (Some "INV1") (Some "PO100") "Acme" (Samples.amount 50000) in
  let first := add_invoice Cases.acme_catalog d in
  let second := add_invoice (fst first) d in
  snd first = Some 1
  /\ get_invoice_id_by_number (tables (fst first)) "INV1" = Some 1
  /\ second = (fst first, None).
Proof.
  intros d first second.
  destruct (X11_invoice_number_is_unique_key Cases.acme_catalog d "INV1" eq_refl)
    as (_ & B).
  destruct (B eq_refl) as (P & Q & R & _).
  split; [exact P|]. split; [exact Q | exact R].
Defined.

(** X12: an invoice without an invoice number is never refused: every such
    dictionary is stored under a new id, so the same document can be
    stored any number of times. *)
Theorem X12_numberless_invoice_always_stored :
  forall (c : catalog) (d : Extractor.invoice_details),
    Extractor.invoice_number d = None ->
    let first := add_invoice c d in
    let second := add_invoice (fst first) d in
    snd first = Some (invoice_sequence c + 1)
    /\ snd second = Some (invoice_sequence c + 2)
    /\ List.length (invoices (tables (fst second)))
       = (List.length (invoices (tables c)) + 2)%nat.
Proof.
  intros c d Hn first second. subst first second.
  unfold add_invoice. rewrite Hn. cbn.
  split; [reflexivity|]. split; [f_equal; lia|].
  rewrite !List.length_app. simpl. lia.
Qed.

Lemma X12_numberless_invoice_witness :
  let d := Cases.details None (Some "PO100") "Acme" (Samples.amount 50000) in
  snd (add_invoice Cases.acme_catalog d) = Some 1
  /\ snd (add_invoice (fst (add_invoice Cases.acme_catalog d)) d) = Some 2.
Proof.
  intros d.
  destruct (X12_numberless_invoice_always_stored Cases.acme_catalog d eq_refl)
    as (P & Q & _).
  split; [exact P | exact Q].
Defined.

Lemma numbers_unique_app l i :
  numbers_unique l ->
  (forall n, inv_invoice_number i = Some n ->
     forall j, List.In j l -> inv_invoice_number j <> Some n) ->
  numbers_unique (l ++ [i]).
Proof.
  induction l as [|a l IH]; intros U F; simpl.
  - split; [intros n _ j [] | exact I].
  - destruct U as (Ua & U). split.
    + intros n Hn j Hj. apply List.in_app_or in Hj. destruct Hj as [Hj | [<- | []]].
      * exact (Ua n Hn j Hj).
      * intros E. exact (F n E a (or_introl eq_refl) Hn).
    + apply IH; [exact U|]. intros n Hn j Hj. apply (F n Hn). right. exact Hj.
Qed.

(** X13: [add_invoice] keeps the table well formed: whatever dictionary is
    added, the invoice ids stay pairwise distinct and below the counter,
    and no two invoices share an invoice number. *)
Theorem X13_add_invoice_keeps_keys :
  forall (c : catalog) (d : Extractor.invoice_details),
    invoice_ids_ok c ->
    numbers_unique (invoices (tables c)) ->
    invoice_ids_ok (fst (add_invoice c d))
    /\ numbers_unique (invoices (tables (fst (add_invoice c d)))).
Proof.
  intros c d (N & B) U. unfold add_invoice.
  destruct (invoice_number_taken (tables c) (Extractor.invoice_number d)) eqn:T;
    cbn [fst]; [split; [split|]; assumption|].
  split; [split|]; cbn [tables invoices with_invoices invoice_sequence].
  - rewrite List.map_app. simpl.
    apply List.NoDup_app; [exact N | repeat constructor; intros [] |].
    intros x Hx [<- | []].
    apply List.in_map_iff in Hx. destruct Hx as (a & Ea & Ha).
    rewrite List.Forall_forall in B. specialize (B a Ha). lia.
  - apply List.Forall_app. split.
    + rewrite List.Forall_forall in *. intros a Ha. specialize (B a Ha). lia.
    + repeat constructor. simpl. lia.
  - apply numbers_unique_app; [exact U|].
    cbn [inv_invoice_number]. intros n Hn j Hj E.
    rewrite Hn in T. pose proof (number_not_taken _ _ T) as F.
    rewrite find_none_iff in F. specialize (F j Hj). cbn in F.
    rewrite E in F. simpl in F. rewrite String.eqb_refl in F. discriminate F.
Qed.

(** A third invoice added to a table that holds a numbered and a
    numberless one. *)
Lemma X13_add_invoice_keeps_keys_witness :
  let c2 :=
    fst (add_invoice
           (fst (add_invoice Cases.acme_catalog
                   (Cases.details (Some "INV1") (Some "PO100") "Acme"
                                  (Samples.amount 50000))))
           (Cases.details None (Some "PO100") "Acme" (Samples.amount 50000)))
  in
  let d3 := Cases.details (Some "INV2") (Some "PO100") "Acme Inc"
                          (Samples.amount 54000) in
  List.map inv_id (invoices (tables c2)) = [1; 2]
  /\ invoice_ids_ok c2
  /\ numbers_unique (invoices (tables c2))
  /\ invoice_ids_ok (fst (add_invoice c2 d3))
  /\ numbers_unique (invoices (tables (fst (add_invoice c2 d3))))
  /\ List.map inv_invoice_number
       (invoices (tables (fst (add_invoice c2 d3))))
     = [Some "INV1"; None; Some "INV2"].
Proof.
  intros c2 d3.
  assert (Ok : invoice_ids_ok c2).
  { split; cbn.
    - repeat constructor; simpl; [intros [E | []]; discriminate E | intros []].
    - repeat constructor; simpl; lia. }
  assert (U : numbers_unique (invoices (tables c2))).
  { cbn. split; [|split; [|exact I]].
    - intros n _ j [<- | []]. discriminate.
    - intros n E. discriminate E. }
  split; [reflexivity|]. split; [exact Ok|]. split; [exact U|].
  destruct (X13_add_invoice_keeps_keys c2 d3 Ok U) as (A & B).
  split; [exact A|]. split; [exact B | reflexivity].
Defined.


Lemma select_invoice_fresh c row :
  invoice_ids_ok c -> inv_id row = invoice_sequence c + 1 ->
  List.find (fun i => Z.eqb (inv_id i) (inv_id row))
            (invoices (tables c) ++ [row])
  = Some row.
Proof.
  intros (_ & B) E.
  rewrite find_app_none.
  - simpl. rewrite Z.eqb_refl. reflexivity.
  - apply find_none_iff. intros a Ha.
    rewrite List.Forall_forall in B. specialize (B a Ha).
    apply Z.eqb_neq. lia.
Qed.

(** X14: from the extractor's dictionary to the reconciliation.  Once a
    dictionary with a new invoice number is added, validating that number
    compares the purchase order named by the dictionary's purchase_order
    with the dictionary's own vendor_name and total_amount, and returns
    the id that [add_invoice] returned. *)
Theorem X14_added_invoice_is_validated_as_extracted :
  forall (float_str : PyFloat.float -> string) (m : manager) (c : catalog)
         (d : Extractor.invoice_details) (n : string) (po : purchase_order),
    invoice_ids_ok c -> 0 <= invoice_sequence c ->
    Extractor.invoice_number d = Some n ->
    invoice_number_taken (tables c) (Some n) = false ->
    select_purchase_order (tables c) (Extractor.purchase_order d) = Some po ->
    let added := add_invoice c d in
    let r := validate_invoice float_str m (tables (fst added)) (ByNumber n) in
    exists status id report_id content,
      snd added = Some id
      /\ returned r
         = ReturnResult status id report_id
             (vendor_discrepancy (po_vendor_name po) (Extractor.vendor_name d)
              ++ amount_discrepancy (po_total_amount po)
                                    (Extractor.total_amount d))%list
             content.
Proof.
  intros fs m c d n po Ok Pos Hn T Hpo added r. subst added r.
  destruct (add_invoice_new_number c d n Hn T) as (row & A & Erow & Frow).
  rewrite A. cbn [fst snd tables].
  set (db1 := with_invoices (tables c) (invoices (tables c) ++ [row])).
  assert (R : resolve_identifier db1 (ByNumber n) = Some (invoice_sequence c + 1)).
  { unfold resolve_identifier, get_invoice_id_by_number, select_invoice_by_number.
    subst db1. cbn [invoices with_invoices].
    rewrite (find_app_none _ _ _ (number_not_taken _ _ T)).
    simpl. destruct Frow as (Fn & _). rewrite Fn. simpl.
    rewrite String.eqb_refl, Erow.
    destruct (Z.eqb_spec (invoice_sequence c + 1) 0); [lia | reflexivity]. }
  assert (S : select_invoice db1 (invoice_sequence c + 1) = Some row).
  { unfold select_invoice. subst db1. cbn [invoices with_invoices].
    rewrite <- Erow. apply select_invoice_fresh; assumption. }
  destruct Frow as (Fn & Fp & Fv & Fa).
  assert (P : select_purchase_order db1 (inv_po_number row) = Some po).
  { rewrite Fp. exact Hpo. }
  rewrite (validate_invoice_run fs m db1 (ByNumber n) _ row po R S P).
  cbn [returned]. rewrite Fv, Fa, amount_discrepancy_sql_real.
  do 4 eexists. split; reflexivity.
Qed.

Lemma X14_added_invoice_witness :
  let d := Cases.details (Some "INV2") (Some "PO100") "Acme Inc"
                         (Samples.amount 54000) in
  let added := add_invoice Cases.acme_catalog d in
  let r := validate_invoice Samples.plain_float_str Samples.sample_manager
             (tables (fst added)) (ByNumber "INV2") in
  exists status id report_id content,
    snd added = Some id
    /\ returned r
       = ReturnResult status id report_id
           [ VendorName "Acme" "Acme Inc";
             TotalAmount (Samples.amount 50000) (Samples.amount 54000)
                         (PyFloat.of_decimal 40 1) ]
           content.
Proof.
  intros d added r. subst r added.
  assert (Ok : invoice_ids_ok Cases.acme_catalog) by (split; simpl; constructor).
  destruct (X14_added_invoice_is_validated_as_extracted Samples.plain_float_str
              Samples.sample_manager Cases.acme_catalog d "INV2"
              (Samples.sample_po "Acme" (Samples.amount 50000))
              Ok (Z.le_refl 0) eq_refl eq_refl eq_refl)
    as (status & id & rid & content & A & B).
  exists status, id, rid, content. split; [exact A|].
  rewrite B. f_equal; vm_compute; reflexivity.
Defined.


Lemma po_not_taken db n :
  po_number_taken db (Some n) = false ->
  forall p, List.In p (purchase_orders db) ->
            PyStr.opt_eqb (po_number p) (Some n) = false.
Proof.
  unfold po_number_taken. intros H p Hp.
  destruct (PyStr.opt_eqb (po_number p) (Some n)) eqn:E; [|reflexivity].
  rewrite <- H. symmetry. apply List.existsb_exists. exists p. split; assumption.
Qed.

Lemma existsb_nothing {A : Type} (p : A -> bool) (l : list A) :
  (forall a, List.In a l -> p a = false) -> List.existsb p l = false.
Proof.
  induction l as [|a l IH]; intros H; simpl; [reflexivity|].
  rewrite (H a (or_introl eq_refl)). apply IH.
  intros b Hb. apply H. right. exact Hb.
Qed.

(** X15: the po_number is the key of a purchase order.  A number already
    stored is refused and nothing changes.  A new number is stored and
    found again with the vendor and the amount given (as SQLite stores
    it: a NaN amount reads back as NULL, a negative zero as zero); it
    passes
    [validate_purchase_order] exactly when its status is 'active', which
    it is when the dictionary has no 'status'; adding the dictionary again
    is refused. *)
Theorem X15_purchase_order_registration :
  forall (c : catalog) (d : po_data) (n : string),
    pd_po_number d = Some n ->
    (po_number_taken (tables c) (Some n) = true ->
     add_purchase_order c d = (c, false))
    /\ (po_number_taken (tables c) (Some n) = false ->
        let added := add_purchase_order c d in
        snd added = true
        /\ (exists p, select_purchase_order (tables (fst added)) (Some n) = Some p
                      /\ po_vendor_name p = pd_vendor_name d
                      /\ po_total_amount p = sql_real (pd_total_amount d))
        /\ validate_purchase_order (tables (fst added)) (Some n)
           = match pd_status d with
             | None => true
             | Some s => PyStr.opt_eqb s (Some "active")
             end
        /\ add_purchase_order (fst added) d = (fst added, false)).
Proof.
  intros c d n Hn. split; intros T.
  - unfold add_purchase_order. rewrite Hn, T. reflexivity.
  - intros added. subst added.
    pose proof (po_not_taken _ _ T) as F.
    destruct (add_purchase_order c d) as [c1 b] eqn:A.
    unfold add_purchase_order in A. rewrite Hn, T in A. injection A as <- <-.
    cbn [fst snd tables].
    split; [reflexivity|]. split; [|split].
    + unfold select_purchase_order.
      cbn [purchase_orders with_purchase_orders].
      rewrite find_app_none by (apply find_none_iff; exact F).
      simpl. rewrite String.eqb_refl. eexists. repeat split.
    + unfold validate_purchase_order.
      cbn [purchase_orders with_purchase_orders].
      rewrite List.existsb_app.
      rewrite existsb_nothing
        by (intros a Ha; rewrite (F a Ha); reflexivity).
      simpl. rewrite String.eqb_refl. simpl.
      destruct (pd_status d) as [s|]; [|reflexivity].
      rewrite Bool.orb_false_r. reflexivity.
    + unfold add_purchase_order. cbn [tables].
      rewrite Hn. unfold po_number_taken.
      cbn [purchase_orders with_purchase_orders].
      rewrite List.existsb_app. simpl. rewrite String.eqb_refl.
      rewrite Bool.orb_true_r. reflexivity.
Qed.

Lemma X15_purchase_order_witness :
  let added := add_purchase_order Cases.empty_catalog Cases.acme_order in
  snd added = true
  /\ validate_purchase_order (tables (fst added)) (Some "PO100") = true
  /\ add_purchase_order (fst added) Cases.acme_order = (fst added, false).
Proof.
  intros added.
  destruct (X15_purchase_order_registration Cases.empty_catalog Cases.acme_order
              "PO100" eq_refl) as (_ & B).
  destruct (B eq_refl) as (P & _ & Q & R).
  split; [exact P|]. split; [exact Q | exact R].
Defined.

Lemma select_po_after_restatus f db n :
  select_purchase_order (restatus_orders f db) n
  = option_map (with_po_status f) (select_purchase_order db n).
Proof.
  destruct n as [n|]; [|reflexivity].
  unfold select_purchase_order, restatus_orders.
  cbn [purchase_orders with_purchase_orders].
  apply find_map_preserving. reflexivity.
Qed.

(** X16: reconciliation never looks at a purchase order's status.  However
    the status column is filled, [validate_invoice] returns the same
    result, sends the same messages and stores the same invoices and
    reports; with no order 'active', [validate_purchase_order] accepts no
    number at all. *)
Theorem X16_order_status_is_ignored_by_validation :
  forall (float_str : PyFloat.float -> string) (m : manager) (db : database)
         (invoice_identifier : identifier) (f : purchase_order -> option string),
    let r := validate_invoice float_str m db invoice_identifier in
    let r' := validate_invoice float_str m (restatus_orders f db)
                               invoice_identifier in
    returned r' = returned r /\ sent r' = sent r
    /\ invoices (stored r') = invoices (stored r)
    /\ validation_reports (stored r') = validation_reports (stored r)
    /\ ((forall p, f p <> Some "active") ->
        forall n, validate_purchase_order (restatus_orders f db) n = false).
Proof.
  intros fs m db ident f r r'. subst r r'.
  assert (Last : (forall p, f p <> Some "active") ->
                 forall n, validate_purchase_order (restatus_orders f db) n = false).
  { intros H [n|]; [|reflexivity]. unfold validate_purchase_order.
    apply existsb_nothing. intros a Ha. cbn in Ha.
    apply List.in_map_iff in Ha. destruct Ha as (p & <- & _). cbn.
    specialize (H p). destruct (f p) as [s|]; [|apply Bool.andb_false_r].
    simpl. destruct (String.eqb_spec s "active") as [-> | _];
      [contradiction H; reflexivity | apply Bool.andb_false_r]. }
  assert (R : resolve_identifier (restatus_orders f db) ident
              = resolve_identifier db ident) by (destruct ident; reflexivity).
  destruct (validate_invoice_cases fs m db ident)
    as [(s & Ei & R0 & E) | [(id & R0 & S0 & E) | [(id & inv & R0 & S0 & P0 & E)
       | (id & inv & po & H1 & H2 & H3)]]].
  - rewrite E. subst ident. unfold validate_invoice. rewrite R, R0.
    repeat split; trivial.
  - rewrite E. unfold validate_invoice. rewrite R, R0.
    change (select_invoice (restatus_orders f db) id) with (select_invoice db id).
    rewrite S0. destruct (in_int64 id); repeat split; trivial.
  - rewrite E. unfold validate_invoice. rewrite R, R0.
    change (select_invoice (restatus_orders f db) id) with (select_invoice db id).
    rewrite S0, select_po_after_restatus, P0. repeat split; trivial.
  - assert (H3' : select_purchase_order (restatus_orders f db) (inv_po_number inv)
                  = Some (with_po_status f po)).
    { rewrite select_po_after_restatus, H3. reflexivity. }
    rewrite (validate_invoice_run fs m db ident id inv po H1 H2 H3).
    rewrite (validate_invoice_run fs m (restatus_orders f db) ident id inv
               (with_po_status f po) (eq_trans R H1) H2 H3').
    repeat split; trivial.
Qed.

Lemma X16_order_status_witness :
  let inactive (_ : purchase_order) := Some "inactive" in
  let db := Samples.sample_db "Acme" (Samples.amount 50000)
                              "Acme" (Samples.amount 50000) in
  validate_purchase_order (restatus_orders inactive db) (Some "PO100") = false
  /\ returned (validate_invoice Samples.plain_float_str Samples.sample_manager
                 (restatus_orders inactive db) (ByNumber "INV1"))
     = returned (validate_invoice Samples.plain_float_str Samples.sample_manager
                   db (ByNumber "INV1")).
Proof.
  intros inactive db.
  destruct (X16_order_status_is_ignored_by_validation Samples.plain_float_str
              Samples.sample_manager db (ByNumber "INV1") inactive)
    as (A & _ & _ & _ & B).
  split; [apply B; intros p; discriminate | exact A].
Defined.


End Registering.

(** ** [setup_database]: what the removal of duplicates removes *)

Section Duplicates.

Import Registry.

Context {A : Type} (id : A -> Z) (key : A -> option string).

Lemma opt_eqb_eq (a b : option string) : PyStr.opt_eqb a b = true <-> a = b.
Proof.
  destruct a as [x|], b as [y|]; simpl;
    try (split; [discriminate | discriminate]); try (split; reflexivity).
  rewrite String.eqb_eq. split; [intros ->; reflexivity | intros E; injection E; trivial].
Qed.

Lemma fold_min_le_seed (s : Z) (l : list Z) : List.fold_right Z.min s l <= s.
Proof. induction l as [|x l IH]; simpl; lia. Qed.

Lemma fold_min_le_elem (s x : Z) (l : list Z) :
  List.In x l -> List.fold_right Z.min s l <= x.
Proof.
  induction l as [|y l IH]; simpl; [intros []|].
  intros [-> | H]; [lia | specialize (IH H); lia].
Qed.

Lemma fold_min_attained (s : Z) (l : list Z) :
  List.fold_right Z.min s l = s \/ List.In (List.fold_right Z.min s l) l.
Proof.
  induction l as [|y l IH]; simpl; [left; reflexivity|].
  destruct (Z.min_spec y (List.fold_right Z.min s l)) as [(_ & ->) | (_ & ->)].
  - right. left. reflexivity.
  - destruct IH as [IH | IH]; [left; exact IH | right; right; exact IH].
Qed.

Lemma group_min_le (t : list A) (i j : A) :
  List.In i t -> key i = key j -> group_min id key t j <= id i.
Proof.
  intros Hi E. unfold group_min. apply fold_min_le_elem.
  apply List.in_map. apply List.filter_In. split; [exact Hi|].
  apply opt_eqb_eq. exact E.
Qed.

Lemma group_min_attained (t : list A) (j : A) :
  List.In j t ->
  exists i, List.In i t /\ key i = key j /\ id i = group_min id key t j.
Proof.
  intros Hj. unfold group_min.
  destruct (fold_min_attained (id j)
              (List.map id (List.filter
                 (fun i => PyStr.opt_eqb (key i) (key j)) t))) as [E | H].
  - exists j. repeat split; [exact Hj | symmetry; exact E].
  - apply List.in_map_iff in H. destruct H as (i & Ei & Hi).
    apply List.filter_In in Hi. destruct Hi as (Hi & K).
    exists i. repeat split; [exact Hi | apply opt_eqb_eq; exact K | exact Ei].
Qed.

Lemma group_min_same_key (t : list A) (j j' : A) :
  List.In j t -> List.In j' t -> key j = key j' ->
  group_min id key t j = group_min id key t j'.
Proof.
  intros Hj Hj' E.
  destruct (group_min_attained t j Hj) as (i & Hi & Ki & Ei).
  destruct (group_min_attained t j' Hj') as (i' & Hi' & Ki' & Ei').
  pose proof (group_min_le t i' j Hi' (eq_trans Ki' (eq_sym E))).
  pose proof (group_min_le t i j' Hi (eq_trans Ki E)).
  lia.
Qed.

Lemma nodup_map_injective (l : list A) (a b : A) :
  List.NoDup (List.map id l) -> List.In a l -> List.In b l -> id a = id b ->
  a = b.
Proof.
  induction l as [|x l IH]; simpl; [intros _ []|].
  intros N Ha Hb E. inversion N as [|? ? Nx Nl]; subst.
  destruct Ha as [<- | Ha], Hb as [<- | Hb].
  - reflexivity.
  - exfalso. apply Nx. rewrite E. apply List.in_map. exact Hb.
  - exfalso. apply Nx. rewrite <- E. apply List.in_map. exact Ha.
  - exact (IH Nl Ha Hb E).
Qed.

Lemma nodup_map_filter (p : A -> bool) (l : list A) :
  List.NoDup (List.map id l) -> List.NoDup (List.map id (List.filter p l)).
Proof.
  induction l as [|x l IH]; simpl; [trivial|].
  intros N. inversion N as [|? ? Nx Nl]; subst.
  destruct (p x); simpl; [|exact (IH Nl)].
  constructor; [|exact (IH Nl)].
  intros H. apply Nx. apply List.in_map_iff in H. destruct H as (y & Ey & Hy).
  apply List.filter_In in Hy. rewrite <- Ey. apply List.in_map. apply Hy.
Qed.

Lemma nodup_map_other (l : list A) :
  List.NoDup (List.map id l) ->
  (forall a b, List.In a l -> List.In b l -> key a = key b -> id a = id b) ->
  List.NoDup (List.map key l).
Proof.
  induction l as [|x l IH]; simpl; [constructor|].
  intros N H. inversion N as [|? ? Nx Nl]; subst. constructor.
  - intros K. apply List.in_map_iff in K. destruct K as (y & Ey & Hy).
    apply Nx. rewrite <- (H y x (or_intror Hy) (or_introl eq_refl) Ey).
    apply List.in_map. exact Hy.
  - apply IH; [exact Nl|]. intros a b Ha Hb. apply H; right; assumption.
Qed.

(** A row survives exactly when its id is the least of its own group. *)
Lemma kept_iff_least (t : list A) (i : A) :
  List.NoDup (List.map id t) -> List.In i t ->
  (List.In i (remove_duplicates id key t) <-> id i = group_min id key t i).
Proof.
  intros N Hi. unfold remove_duplicates. rewrite List.filter_In. split.
  - intros (_ & K). apply List.existsb_exists in K. destruct K as (j & Hj & E).
    apply Z.eqb_eq in E.
    destruct (group_min_attained t j Hj) as (i' & Hi' & Ki' & Ei').
    assert (i' = i) by (apply (nodup_map_injective t); try assumption; lia).
    subst i'. rewrite (group_min_same_key t i j Hi Hj Ki'). exact E.
  - intros E. split; [exact Hi|]. apply List.existsb_exists.
    exists i. split; [exact Hi | apply Z.eqb_eq; exact E].
Qed.

Lemma remove_duplicates_keys_distinct (t : list A) :
  List.NoDup (List.map id t) ->
  List.NoDup (List.map key (remove_duplicates id key t)).
Proof.
  intros N. apply nodup_map_other.
  - apply nodup_map_filter. exact N.
  - intros a b Ha Hb E.
    assert (Ia : List.In a t) by (apply List.filter_In in Ha; apply Ha).
    assert (Ib : List.In b t) by (apply List.filter_In in Hb; apply Hb).
    apply (kept_iff_least t a N Ia) in Ha.
    apply (kept_iff_least t b N Ib) in Hb.
    rewrite Ha, Hb. apply group_min_same_key; assumption.
Qed.

Lemma remove_duplicates_keeps_least (t : list A) (i : A) :
  List.In i t ->
  (forall j, List.In j t -> key j = key i -> id i <= id j) ->
  List.In i (remove_duplicates id key t).
Proof.
  intros Hi L. unfold remove_duplicates. apply List.filter_In.
  split; [exact Hi|]. apply List.existsb_exists. exists i.
  split; [exact Hi|]. apply Z.eqb_eq.
  destruct (group_min_attained t i Hi) as (i' & Hi' & Ki' & Ei').
  pose proof (L i' Hi' Ki'). pose proof (group_min_le t i i Hi eq_refl). lia.
Qed.

Lemma remove_duplicates_drops_later (t : list A) (i j : A) :
  List.NoDup (List.map id t) -> List.In i t -> List.In j t ->
  key i = key j -> id j < id i ->
  ~ List.In i (remove_duplicates id key t).
Proof.
  intros N Hi Hj E L K. apply (kept_iff_least t i N Hi) in K.
  pose proof (group_min_le t j i Hj (eq_sym E)). lia.
Qed.

End Duplicates.

(** X17: opening the database removes invoices.  After [setup_database] no
    two invoices share an invoice number, NULL counted as a number: of the
    invoices with one number, and of all invoices without a number, only
    the one with the least id is left; an invoice that no other invoice
    shares its number with is kept, and reports and counters are not
    touched. *)
Theorem X17_setup_database_removes_duplicates :
  forall c : Registry.catalog,
    List.NoDup (List.map inv_id (invoices (Registry.tables c))) ->
    let c' := Registry.setup_database c in
    List.NoDup (List.map inv_invoice_number (invoices (Registry.tables c')))
    /\ (forall i, List.In i (invoices (Registry.tables c')) ->
                  List.In i (invoices (Registry.tables c)))
    /\ (forall i, List.In i (invoices (Registry.tables c)) ->
          (forall j, List.In j (invoices (Registry.tables c)) ->
                     inv_invoice_number j = inv_invoice_number i ->
                     inv_id i <= inv_id j) ->
          List.In i (invoices (Registry.tables c')))
    /\ (forall i j, List.In i (invoices (Registry.tables c)) ->
          List.In j (invoices (Registry.tables c)) ->
          inv_invoice_number i = inv_invoice_number j -> inv_id j < inv_id i ->
          ~ List.In i (invoices (Registry.tables c')))
    /\ validation_reports (Registry.tables c')
       = validation_reports (Registry.tables c)
    /\ Registry.invoice_sequence c' = Registry.invoice_sequence c.
Proof.
  intros c N c'. subst c'. cbn.
  split; [apply remove_duplicates_keys_distinct; exact N|].
  split; [intros i Hi; apply List.filter_In in Hi; apply Hi|].
  split; [intros i Hi L; apply remove_duplicates_keeps_least; assumption|].
  split; [intros i j Hi Hj E L;
          apply (remove_duplicates_drops_later inv_id inv_invoice_number _ i j);
          assumption|].
  split; reflexivity.
Qed.

Lemma X17_setup_database_witness :
  let d := Cases.details None (Some "PO100") "Acme" (Samples.amount 50000) in
  let twice := fst (Registry.add_invoice
                      (fst (Registry.add_invoice Cases.acme_catalog d)) d) in
  List.length (invoices (Registry.tables twice)) = 2%nat
  /\ List.NoDup (List.map inv_invoice_number
                   (invoices (Registry.tables (Registry.setup_database twice))))
  /\ List.length (invoices (Registry.tables (Registry.setup_database twice)))
     = 1%nat.
Proof.
  intros d twice.
  assert (N : List.NoDup (List.map inv_id (invoices (Registry.tables twice)))).
  { cbn. repeat constructor; simpl; [intros [E | []]; discriminate E | intros []]. }
  destruct (X17_setup_database_removes_duplicates twice N) as (A & _).
  split; [reflexivity|]. split; [exact A | reflexivity].
Defined.

(** ** [is_potential_invoice]: what the lower-casing does *)

Section DetectorCase.


Lemma lower_append a b :
  PyStr.lower (a ++ b) = PyStr.lower a ++ PyStr.lower b.
Proof.
  unfold PyStr.lower. induction a as [|c a IH]; simpl; [reflexivity|].
  rewrite IH. reflexivity.
Qed.


Lemma lower_char_not_upper c : PyStr.is_upper (PyStr.lower_char c) = false.
Proof. destruct c as [[] [] [] [] [] [] [] []]; reflexivity. Qed.



(** A word that starts with a capital is no part of a lower-cased text. *)
Lemma capital_not_in_lower c sub s :
  PyStr.is_upper c = true ->
  PyStr.contains (String c sub) (PyStr.lower s) = false.
Proof.
  intros U. unfold PyStr.lower.
  induction s as [|x s IH]; [reflexivity|].
  cbn [PyStr.map_chars PyStr.contains String.prefix].
  destruct (Ascii.ascii_dec c (PyStr.lower_char x)) as [E | N].
  - rewrite E, lower_char_not_upper in U. discriminate U.
  - exact IH.
Qed.

Lemma filter_length_le {A : Type} (p : A -> bool) (l : list A) :
  (List.length (List.filter p l) <= List.length l)%nat.
Proof.
  induction l as [|a l IH]; simpl; [lia|].
  destruct (p a); simpl; lia.
Qed.

(** X18: two entries of the keyword list are dead.  The text is lower-cased
    before the keywords are looked for, and 'VAT' and 'GST' are written in
    capitals: neither is ever found, so at most 22 of the 24 keywords can
    match. *)
Theorem X18_vat_and_gst_never_match :
  forall text : string,
    PyStr.contains "VAT" (PyStr.lower text) = false
    /\ PyStr.contains "GST" (PyStr.lower text) = false
    /\ (Detector.keyword_matches (PyStr.lower text) <= 22)%nat.
Proof.
  intros text.
  assert (V : PyStr.contains "VAT" (PyStr.lower text) = false)
    by (apply capital_not_in_lower; reflexivity).
  assert (G : PyStr.contains "GST" (PyStr.lower text) = false)
    by (apply capital_not_in_lower; reflexivity).
  split; [exact V|]. split; [exact G|].
  unfold Detector.keyword_matches, Detector.invoice_keywords.
  change [ "invoice"; "bill"; "receipt"; "statement"; "total amount";
           "due date"; "tax invoice"; "payment due"; "charges"; "order number";
           "balance due"; "purchase order"; "VAT"; "GST"; "invoice number";
           "invoice date"; "billing date"; "payment terms"; "subtotal";
           "total due"; "amount due"; "invoice total"; "account number";
           "customer id" ]
    with ([ "invoice"; "bill"; "receipt"; "statement"; "total amount";
            "due date"; "tax invoice"; "payment due"; "charges"; "order number";
            "balance due"; "purchase order" ]
          ++ [ "VAT"; "GST" ]
          ++ [ "invoice number"; "invoice date"; "billing date"; "payment terms";
               "subtotal"; "total due"; "amount due"; "invoice total";
               "account number"; "customer id" ])%list.
  set (p := fun keyword => PyStr.contains keyword (PyStr.lower text)).
  assert (F : List.filter p ["VAT"; "GST"] = [])
    by (subst p; simpl; rewrite V, G; reflexivity).
  rewrite !List.filter_app, !List.length_app, F.
  match goal with
  | |- (List.length (List.filter p ?l1) + (_ + List.length (List.filter p ?l2))
        <= 22)%nat =>
      pose proof (filter_length_le p l1); pose proof (filter_length_le p l2)
  end.
  cbn [List.length] in *. lia.
Qed.



End DetectorCase.

(** ** Shapes of the extracted fields *)

Section ExtractedShapes.

Import Re Extractor Shapes.

Lemma all_chars_append p a b :
  all_chars p (a ++ b) = (all_chars p a && all_chars p b)%bool.
Proof.
  induction a as [|c a IH]; simpl; [reflexivity|].
  rewrite IH, Bool.andb_assoc. reflexivity.
Qed.

Lemma star_class g p w : denotes (Star g (Chr p)) w -> all_chars p w = true.
Proof.
  intros H. remember (Star g (Chr p)) as r eqn:R.
  induction H; try discriminate R.
  - reflexivity.
  - injection R as -> ->. apply denotes_chr in H.
    destruct H as (c & -> & P). simpl. rewrite P. apply IHdenotes2. reflexivity.
Qed.

Lemma all_chars_weaken (p q : ascii -> bool) s :
  (forall c, p c = true -> q c = true) ->
  all_chars p s = true -> all_chars q s = true.
Proof.
  intros W. induction s as [|c s IH]; simpl; [trivial|].
  intros H. apply Bool.andb_true_iff in H. destruct H as (Hc & Hs).
  rewrite (W c Hc), (IH Hs). reflexivity.
Qed.

Lemma word_is_key_char c : PyStr.is_word c = true -> is_key_char c = true.
Proof. intros H. unfold is_key_char. rewrite H. apply Bool.orb_true_r. Qed.

Lemma plus_word_shape w : denotes (plus word) w -> key_shaped w = true.
Proof.
  intros H. unfold plus, word in H.
  apply denotes_seq in H. destruct H as (a & b & -> & Ha & Hb).
  apply denotes_chr in Ha. destruct Ha as (c & -> & C).
  apply star_class in Hb. simpl. rewrite C. simpl.
  exact (all_chars_weaken _ _ _ word_is_key_char Hb).
Qed.

Lemma token_shape w : denotes token w -> key_shaped w = true.
Proof.
  intros H. unfold token, plus, star, word in H.
  apply denotes_seq in H. destruct H as (a & b & -> & Ha & Hb).
  apply denotes_seq in Ha. destruct Ha as (a1 & a2 & -> & Ha1 & Ha2).
  apply denotes_chr in Ha1. destruct Ha1 as (c & -> & C).
  apply star_class in Ha2. apply star_class in Hb.
  simpl. rewrite C. simpl. rewrite all_chars_append.
  rewrite (all_chars_weaken _ _ _ word_is_key_char Ha2). exact Hb.
Qed.

Lemma extract_invoice_number_shape text s :
  extract_invoice_number text = Some s -> key_shaped s = true.
Proof.
  unfold extract_invoice_number. intros H.
  destruct (search invoice_pattern text) as [m|] eqn:E.
  - apply (search_group_last 1 _ [_; _; _; _]) in E.
    destruct E as (w & G & D). rewrite G in H. injection H as <-.
    apply plus_word_shape. exact D.
  - destruct (search alt_invoice_pattern text) as [m|] eqn:E'; [|discriminate H].
    apply (search_group_last 1 _ [_; _; _; _]) in E'.
    destruct E' as (w & G & D). rewrite G in H. injection H as <-.
    apply token_shape. exact D.
Qed.

Lemma extract_purchase_order_shape text s :
  extract_purchase_order text = Some s -> key_shaped s = true.
Proof.
  unfold extract_purchase_order. intros H.
  destruct (search po_pattern text) as [m|] eqn:E.
  - apply (search_group_last 1 _ [_; _; _; _; _; _]) in E.
    destruct E as (w & G & D). rewrite G in H. injection H as <-.
    apply plus_word_shape. exact D.
  - destruct (search alt_po_pattern text) as [m|] eqn:E'; [|discriminate H].
    apply (search_group_last 1 _ [_; _]) in E'.
    destruct E' as (w & G & D). rewrite G in H. injection H as <-.
    apply token_shape. exact D.
Qed.

(** X20: an extracted invoice number or purchase order number is never an
    empty text: it starts with a word character (a character of the class
    \w: a letter, a digit or other numeral, or the underscore) and goes on
    with word characters and hyphens only (no blank, no punctuation). *)
Theorem X20_extracted_keys_are_tokens :
  forall (text : string) (filepath email_subject email_sender : option string)
         (d : invoice_details),
    extract_invoice_details_from_text text filepath email_subject email_sender
    = Some d ->
    (forall s, invoice_number d = Some s -> key_shaped s = true)
    /\ (forall s, purchase_order d = Some s -> key_shaped s = true).
Proof.
  intros text fp subj snd d H.
  destruct (extraction_fields text fp subj snd)
    as (total & vendor & tax & sub & cur & _ & _ & _ & _ & _ & E).
  rewrite E in H. injection H as <-. cbn.
  split; intros s Hs;
    [exact (extract_invoice_number_shape text s Hs)
    | exact (extract_purchase_order_shape text s Hs)].
Qed.

Lemma X20_extracted_keys_witness :
  exists d,
    extract_invoice_details_from_text
      "Invoice No: INV-2025-001  PO: AB_12-X" None None None = Some d
    /\ invoice_number d = Some "INV-2025-001"
    /\ purchase_order d = Some "AB_12-X"
    /\ key_shaped "INV-2025-001" = true.
Proof.
  destruct (extraction_fields "Invoice No: INV-2025-001  PO: AB_12-X"
              None None None)
    as (total & vendor & tax & sub & cur & _ & _ & _ & _ & _ & E).
  eexists. split; [exact E|]. cbn.
  assert (N : extract_invoice_number "Invoice No: INV-2025-001  PO: AB_12-X"
              = Some "INV-2025-001") by (vm_compute; reflexivity).
  split; [exact N|]. split; [vm_compute; reflexivity|].
  exact (proj1 (X20_extracted_keys_are_tokens _ None None None _ E)
               "INV-2025-001" N).
Defined.

End ExtractedShapes.

Section ExtractedCurrency.

Import Re Extractor Shapes.

(** A property checked on each of the 256 characters holds of all. *)
Lemma every_char (p : ascii -> bool) :
  forallb p (map ascii_of_nat (seq 0 256)) = true -> forall c, p c = true.
Proof.
  intros H c. rewrite forallb_forall in H. apply H.
  rewrite <- (ascii_nat_embedding c). apply in_map. apply in_seq.
  pose proof (nat_ascii_bounded c). lia.
Qed.

Lemma upper_of_same_letter c :
  PyStr.is_upper c = true ->
  forall x, Ascii.eqb (PyStr.lower_char x) (PyStr.lower_char c) = true ->
            PyStr.upper_char x = String c EmptyString.
Proof.
  intros U x E. apply String.eqb_eq.
  assert (T : forallb (fun c =>
                if PyStr.is_upper c
                then forallb (fun x =>
                       if Ascii.eqb (PyStr.lower_char x) (PyStr.lower_char c)
                       then String.eqb (PyStr.upper_char x)
                                       (String c EmptyString)
                       else true)
                     (map ascii_of_nat (seq 0 256))
                else true)
              (map ascii_of_nat (seq 0 256)) = true)
    by (vm_compute; reflexivity).
  pose proof (every_char _ T c) as Tc. cbv beta in Tc. rewrite U in Tc.
  pose proof (every_char _ Tc x) as Tx. cbv beta in Tx.
  rewrite E in Tx. exact Tx.
Qed.

Lemma lit_i_upper s :
  forall w, all_chars PyStr.is_upper s = true -> denotes (lit_i s) w ->
            PyStr.upper w = s.
Proof.
  induction s as [|c s IH]; intros w U H.
  - simpl in H. apply denotes_eps in H. subst w. reflexivity.
  - simpl in U. apply Bool.andb_true_iff in U. destruct U as (Uc & Us).
    destruct s as [|c' s'].
    + simpl in H. apply denotes_chr in H. destruct H as (x & -> & X).
      cbn [PyStr.upper]. rewrite (upper_of_same_letter c Uc x X).
      reflexivity.
    + change (lit_i (String c (String c' s')))
        with (Seq (chr_i c) (lit_i (String c' s'))) in H.
      apply denotes_seq in H. destruct H as (a & b & -> & Ha & Hb).
      apply denotes_chr in Ha. destruct Ha as (x & -> & X).
      cbn [append PyStr.upper].
      rewrite (upper_of_same_letter c Uc x X). cbn [append].
      f_equal. exact (IH b Us Hb).
Qed.

Lemma currency_group_codes w :
  denotes (alt [ lit_i "USD"; lit_i "EUR"; lit_i "GBP"; lit_i "JPY";
                 lit_i "CAD"; lit_i "AUD"; lit_i "CHF" ]) w ->
  List.In (PyStr.upper w) currency_codes.
Proof.
  intros H. unfold alt in H. unfold currency_codes.
  repeat (apply denotes_alt in H; destruct H as [H | H];
          [apply lit_i_upper in H; [rewrite H; simpl; tauto | reflexivity]|]).
  apply lit_i_upper in H; [rewrite H; simpl; tauto | reflexivity].
Qed.

Lemma extract_currency_codes text cur :
  extract_currency text = Some cur -> List.In cur currency_codes.
Proof.
  unfold extract_currency. intros H.
  destruct (search currency_pattern text) as [m|] eqn:E.
  - apply (search_group_last 1 _ [_; _]) in E. destruct E as (w & G & D).
    unfold group1 in H. rewrite G in H. simpl in H. injection H as <-.
    apply currency_group_codes. exact D.
  - destruct (matches (chr "$") text); [injection H as <-; simpl; tauto|].
    destruct (matches (chr euro) text); [injection H as <-; simpl; tauto|].
    destruct (matches (chr pound) text); injection H as <-; simpl; tauto.
Qed.

(** X21: the currency of an extracted invoice is always one of USD, EUR,
    GBP, JPY, CAD, AUD and CHF, in capitals, however the text spells
    it: the default, the code after 'currency' or 'in', or the code of
    the dollar, euro or pound sign found. *)
Theorem X21_currency_is_a_known_code :
  forall (text : string) (filepath email_subject email_sender : option string)
         (d : invoice_details),
    extract_invoice_details_from_text text filepath email_subject email_sender
    = Some d ->
    List.In (currency d) currency_codes.
Proof.
  intros text fp subj snd d H.
  destruct (extraction_fields text fp subj snd)
    as (total & vendor & tax & sub & cur & _ & _ & _ & _ & C & E).
  rewrite E in H. injection H as <-. cbn.
  exact (extract_currency_codes text cur C).
Qed.

Lemma X21_currency_witness :
  (exists d,
     extract_invoice_details_from_text "Amount due in eur: 12.50" None None None
     = Some d
     /\ currency d = "EUR" /\ List.In (currency d) currency_codes)
  /\ extract_currency ("Total: " ++ String euro " 500") = Some "EUR"
  /\ extract_currency ("Total: " ++ String pound " 500") = Some "GBP".
Proof.
  split; [|split; vm_compute; reflexivity].
  destruct (extraction_fields "Amount due in eur: 12.50" None None None)
    as (total & vendor & tax & sub & cur & _ & _ & _ & _ & C & E).
  eexists. split; [exact E|].
  split.
  - cbn. assert (C0 : extract_currency "Amount due in eur: 12.50" = Some "EUR")
      by (vm_compute; reflexivity).
    rewrite C0 in C. injection C as <-. reflexivity.
  - exact (X21_currency_is_a_known_code _ None None None _ E).
Defined.

End ExtractedCurrency.

(** ** Extracted amounts *)

Section ExtractedAmounts.

Import Extractor Shapes.

Lemma shr_1_nonneg mrs : 0 <= shr_m mrs -> 0 <= shr_m (shr_1 mrs).
Proof.
  destruct mrs as [m r s]. simpl.
  destruct m as [|p|p]; simpl; intros H; try lia; destruct p; simpl; lia.
Qed.

Lemma iter_shr_1_nonneg p :
  forall mrs, 0 <= shr_m mrs -> 0 <= shr_m (iter_pos shr_1 p mrs).
Proof.
  induction p as [p IH | p IH |]; intros mrs H; simpl.
  - apply IH, IH, shr_1_nonneg, H.
  - apply IH, IH, H.
  - apply shr_1_nonneg, H.
Qed.

Lemma shr_fexp_nonneg m e l :
  0 <= m -> 0 <= shr_m (fst (shr_fexp PyFloat.prec PyFloat.emax m e l)).
Proof.
  intros H. unfold shr_fexp, shr.
  assert (R : 0 <= shr_m (shr_record_of_loc m l))
    by (destruct l as [|[]]; exact H).
  destruct (_ - e) as [|p|p]; simpl; try exact R.
  apply iter_shr_1_nonneg. exact R.
Qed.

Lemma round_nearest_even_nonneg m l : 0 <= m -> 0 <= round_nearest_even m l.
Proof.
  intros H. unfold round_nearest_even.
  destruct l as [|[]]; try lia. destruct (Z.even m); lia.
Qed.

Lemma binary_round_aux_nonneg m e l :
  0 <= m ->
  is_nonnegative_number (binary_round_aux PyFloat.prec PyFloat.emax false m e l)
  = true.
Proof.
  intros H. unfold binary_round_aux.
  pose proof (shr_fexp_nonneg m e l H) as H1.
  destruct (shr_fexp PyFloat.prec PyFloat.emax m e l) as [mrs' e'].
  simpl in H1.
  pose proof (shr_fexp_nonneg _ e' loc_Exact
                (round_nearest_even_nonneg (shr_m mrs') (loc_of_shr_record mrs') H1))
    as H2.
  destruct (shr_fexp PyFloat.prec PyFloat.emax _ e' loc_Exact) as [mrs'' e''].
  simpl in H2.
  destruct (shr_m mrs'') as [|p|p]; [reflexivity | | lia].
  destruct (Z.leb e'' _); reflexivity.
Qed.

Lemma of_decimal_nonneg num den :
  0 <= num -> is_nonnegative_number (PyFloat.of_decimal num den) = true.
Proof.
  intros H. unfold PyFloat.of_decimal.
  destruct num as [|n|n]; [reflexivity | | lia].
  destruct den as [|d|d]; try reflexivity.
  unfold SFdiv, SFdiv_core_binary.
  set (m' := match _ - _ - _ with Z0 => Z.pos n | Z.pos _ => _ | Z.neg _ => 0 end).
  assert (M : 0 <= m').
  { subst m'. destruct (_ - _ - _) as [|s|s]; try lia.
    apply Z.shiftl_nonneg. lia. }
  pose proof (Z.div_eucl_eq m' (Z.pos d) ltac:(lia)) as Q.
  pose proof (Z.mod_pos_bound m' (Z.pos d) ltac:(lia)) as Rb.
  unfold Z.modulo in Rb.
  destruct (Z.div_eucl m' (Z.pos d)) as [q r].
  apply binary_round_aux_nonneg. nia.
Qed.

Lemma read_digits_nonneg s :
  forall acc count v n rest,
    0 <= acc -> PyFloat.read_digits s acc count = (v, n, rest) -> 0 <= v.
Proof.
  induction s as [|c s IH]; intros acc count v n rest H E;
    cbn [PyFloat.read_digits] in E.
  - injection E as <- _ _. exact H.
  - destruct (PyStr.is_digit c).
    + refine (IH _ _ _ _ _ _ E). lia.
    + injection E as <- _ _. exact H.
Qed.

Lemma of_string_nonneg s v :
  PyFloat.of_string s = Some v -> is_nonnegative_number v = true.
Proof.
  unfold PyFloat.of_string. intros H.
  destruct (PyFloat.read_digits s 0 0) as [[ip ni] r] eqn:E.
  pose proof (read_digits_nonneg s 0 0%nat ip ni r (Z.le_refl 0) E) as P.
  destruct ni as [|ni]; [discriminate H|].
  destruct r as [|c r].
  - injection H as <-. apply of_decimal_nonneg. exact P.
  - destruct (Ascii.eqb c "."); [|discriminate H].
    destruct (PyFloat.read_digits r ip 0) as [[fv nf] r'] eqn:E'.
    pose proof (read_digits_nonneg r ip 0%nat fv nf r' P E') as P'.
    destruct nf as [|nf]; [discriminate H|].
    destruct r'; [|discriminate H].
    injection H as <-. apply of_decimal_nonneg. exact P'.
Qed.

Lemma parse_amount_nonneg m v :
  parse_amount m = Some v -> is_nonnegative_number v = true.
Proof.
  unfold parse_amount, group1, bind. destruct (Re.group 1 m) as [g|];
    [apply of_string_nonneg | discriminate].
Qed.

Lemma labelled_amount_nonneg pattern text v :
  extract_labelled_amount pattern text = Some (Some v) ->
  is_nonnegative_number v = true.
Proof.
  unfold extract_labelled_amount. destruct (Re.search pattern text) as [m|];
    [|discriminate].
  destruct (parse_amount m) as [x|] eqn:P; simpl; [|discriminate].
  intros H. injection H as <-. exact (parse_amount_nonneg m x P).
Qed.

Lemma total_amount_nonneg text v :
  extract_total_amount text = Some (Some v) -> is_nonnegative_number v = true.
Proof.
  unfold extract_total_amount.
  destruct (Re.search amount_pattern text) as [m|].
  - destruct (parse_amount m) as [x|] eqn:P; simpl; [|discriminate].
    intros H. injection H as <-. exact (parse_amount_nonneg m x P).
  - destruct (Re.search alt_amount_pattern text) as [m|]; [|discriminate].
    destruct (parse_amount m) as [x|] eqn:P; simpl; [|discriminate].
    intros H. injection H as <-. exact (parse_amount_nonneg m x P).
Qed.

(** X22: an extracted amount (total, tax or subtotal) is never negative
    and never a NaN: it is zero, a positive number or, for a numeral too
    long for a float, plus infinity. *)
Theorem X22_extracted_amounts_are_nonnegative :
  forall (text : string) (filepath email_subject email_sender : option string)
         (d : invoice_details) (v : PyFloat.float),
    extract_invoice_details_from_text text filepath email_subject email_sender
    = Some d ->
    total_amount d = Some v \/ tax_amount d = Some v \/ subtotal d = Some v ->
    is_nonnegative_number v = true.
Proof.
  intros text fp subj snd d v H K.
  destruct (extraction_fields text fp subj snd)
    as (total & vendor & tax & sub & cur & T & _ & X & S & _ & E).
  rewrite E in H. injection H as <-. cbn in K.
  destruct K as [K | [K | K]]; subst.
  - exact (total_amount_nonneg text v T).
  - exact (labelled_amount_nonneg _ text v X).
  - exact (labelled_amount_nonneg _ text v S).
Qed.

Lemma X22_extracted_amounts_witness :
  exists d,
    extract_invoice_details_from_text "Total: -7,500.00 Tax 0" None None None
    = Some d
    /\ total_amount d = None
    /\ tax_amount d = Some (S754_zero false)
    /\ is_nonnegative_number (S754_zero false) = true.
Proof.
  destruct (extraction_fields "Total: -7,500.00 Tax 0" None None None)
    as (total & vendor & tax & sub & cur & T & _ & X & _ & _ & E).
  eexists. split; [exact E|].
  assert (T0 : extract_total_amount "Total: -7,500.00 Tax 0" = Some None)
    by (vm_compute; reflexivity).
  assert (X0 : extract_labelled_amount tax_pattern "Total: -7,500.00 Tax 0"
               = Some (Some (S754_zero false))) by (vm_compute; reflexivity).
  rewrite T0 in T. injection T as <-. rewrite X0 in X. injection X as <-.
  split; [reflexivity|]. split; [reflexivity|].
  apply (X22_extracted_amounts_are_nonnegative
           _ None None None _ (S754_zero false) E).
  right. left. reflexivity.
Defined.

End ExtractedAmounts.

(** ** The mailbox connection *)

Section MailboxConnection.

Import Monitor.

Variable mailbox : Type.
Variable dial : Z -> option mailbox.
Variable clock_accepts : Z -> Z -> bool.

Lemma connect_from_trace (retries delay : Z) :
  0 <= delay ->
  (forall k, clock_accepts k delay = true) ->
  forall (remaining : nat) (attempt : Z),
    Z.of_nat remaining = retries + 1 - attempt ->
    forall result trace,
      connect_from mailbox dial clock_accepts retries delay attempt
                   remaining
      = (result, trace) ->
      result <> SleepError
      /\ Z.min 1 (Z.of_nat remaining) <= attempts trace <= Z.of_nat remaining
      /\ slept trace = delay * Z.max 0 (attempts trace - 1)
      /\ ends_asleep trace = false
      /\ (forall k, attempt <= k < attempt + attempts trace - 1 ->
                    dial k = None)
      /\ (forall mail, result = Mail mail ->
                       dial (attempt + attempts trace - 1) = Some mail)
      /\ (result = NoMail ->
          attempts trace = Z.of_nat remaining
          /\ forall k, attempt <= k <= retries -> dial k = None).
Proof.
  intros D C. induction remaining as [|n IH]; intros a N result trace E.
  - simpl in E. injection E as <- <-. cbn [attempts slept ends_asleep].
    split; [discriminate|]. split; [simpl; lia|]. split; [lia|].
    split; [reflexivity|]. split; [intros k K; lia|].
    split; [discriminate|]. intros _. split; [reflexivity|].
    intros k K. simpl in N. lia.
  - cbn [connect_from] in E. destruct (dial a) as [mail|] eqn:Da.
    + injection E as <- <-. cbn [attempts slept ends_asleep].
      split; [discriminate|]. split; [lia|]. split; [lia|].
      split; [reflexivity|]. split; [intros k K; lia|].
      split; [|discriminate].
      intros mail' M. injection M as <-.
      replace (a + (1 + 0) - 1) with a by lia. exact Da.
    + destruct (a <? retries) eqn:L.
      * apply Z.ltb_lt in L.
        destruct (delay <? 0) eqn:Dn; [apply Z.ltb_lt in Dn; lia|].
        rewrite (C a) in E. cbn [negb orb] in E.
        destruct (connect_from mailbox dial clock_accepts retries delay
                    (a + 1) n) as [r t] eqn:R.
        injection E as <- <-.
        destruct (IH (a + 1) ltac:(lia) r t R)
          as (I1 & I2 & I3 & I4 & I5 & I6 & I7).
        assert (P : 1 <= attempts t) by lia.
        cbn [attempts slept].
        split; [exact I1|]. split; [lia|].
        split; [rewrite I3, !Z.max_r by lia; ring|].
        split.
        { destruct t as [|e t']; [simpl in P; lia|].
          cbn [ends_asleep]. cbn [ends_asleep] in I4.
          destruct e; exact I4. }
        split.
        { intros k K. destruct (Z.eq_dec k a) as [->|Ne]; [exact Da|].
          apply I5. lia. }
        split.
        { intros mail M.
          replace (a + (1 + attempts t) - 1) with (a + 1 + attempts t - 1)
            by lia.
          exact (I6 mail M). }
        intros M. destruct (I7 M) as (A & F). split; [lia|].
        intros k K. destruct (Z.eq_dec k a) as [->|Ne]; [exact Da|].
        apply F. lia.
      * apply Z.ltb_ge in L. injection E as <- <-.
        cbn [attempts slept ends_asleep].
        split; [discriminate|]. split; [lia|]. split; [lia|].
        split; [reflexivity|]. split; [intros k K; lia|].
        split; [discriminate|]. intros _. split; [lia|].
        intros k K. replace k with a by lia. exact Da.
Qed.

(** X23: [connect_to_mailbox] with a delay that [time.sleep] accepts (not
    negative and not too long for the clock) never raises, tries at most
    [retries] times (not at all when [retries] is zero or less), sleeps
    [delay] seconds between two attempts and never after the last one,
    stops at the first attempt that succeeds and returns its connection,
    and returns [None] only after [retries] failed attempts. *)
Theorem X23_connect_to_mailbox_retries :
  forall (retries delay : Z) (result : connected mailbox) (trace : list event),
    0 <= delay ->
    (forall k, clock_accepts k delay = true) ->
    connect_to_mailbox mailbox dial clock_accepts retries delay
    = (result, trace) ->
    result <> SleepError
    /\ 0 <= attempts trace <= Z.max 0 retries
    /\ slept trace = delay * Z.max 0 (attempts trace - 1)
    /\ ends_asleep trace = false
    /\ (forall k, 1 <= k < attempts trace -> dial k = None)
    /\ (forall mail, result = Mail mail ->
                     dial (attempts trace) = Some mail)
    /\ (result = NoMail ->
        attempts trace = Z.max 0 retries
        /\ forall k, 1 <= k <= retries -> dial k = None).
Proof.
  intros retries delay result trace D C E. unfold connect_to_mailbox in E.
  destruct (Z_le_gt_dec 0 retries) as [P | Ng].
  - destruct (connect_from_trace retries delay D C (Z.to_nat retries) 1
                ltac:(lia) result trace E)
      as (I1 & I2 & I3 & I4 & I5 & I6 & I7).
    split; [exact I1|]. split; [lia|]. split; [exact I3|].
    split; [exact I4|].
    split; [intros k K; apply I5; lia|].
    split.
    { intros mail M. replace (attempts trace) with (1 + attempts trace - 1)
        by lia. exact (I6 mail M). }
    intros M. destruct (I7 M) as (A & F). split; [lia|]. exact F.
  - replace (Z.to_nat retries) with O in E by lia. simpl in E.
    injection E as <- <-. cbn [attempts slept ends_asleep].
    split; [discriminate|]. split; [lia|]. split; [lia|].
    split; [reflexivity|]. split; [intros k K; lia|].
    split; [discriminate|]. intros _. split; [lia|]. intros k K. lia.
Qed.

End MailboxConnection.

(** Two refused attempts, then a connection: three attempts, two sleeps
    of a minute, on a clock that takes delays up to a year. *)
Lemma X23_connect_to_mailbox_witness :
  let dial := fun k : Z => if k =? 3 then Some tt else None in
  let clock := fun _ delay : Z => delay <=? 31536000 in
  Monitor.connect_to_mailbox unit dial clock 5 60
  = (Monitor.Mail tt,
     [ Monitor.Attempt 1; Monitor.Sleep 60; Monitor.Attempt 2;
       Monitor.Sleep 60; Monitor.Attempt 3 ])
  /\ Monitor.slept [ Monitor.Attempt 1; Monitor.Sleep 60; Monitor.Attempt 2;
                     Monitor.Sleep 60; Monitor.Attempt 3 ] = 120
  /\ Monitor.ends_asleep
       [ Monitor.Attempt 1; Monitor.Sleep 60; Monitor.Attempt 2;
         Monitor.Sleep 60; Monitor.Attempt 3 ] = false.
Proof.
  intros dial clock.
  assert (E : Monitor.connect_to_mailbox unit dial clock 5 60
              = (Monitor.Mail tt,
                 [ Monitor.Attempt 1; Monitor.Sleep 60; Monitor.Attempt 2;
                   Monitor.Sleep 60; Monitor.Attempt 3 ]))
    by reflexivity.
  assert (D : 0 <= 60) by lia.
  destruct (X23_connect_to_mailbox_retries unit dial clock 5 60 _ _ D
              (fun _ => eq_refl) E)
    as (_ & _ & S & A & _).
  split; [exact E|]. split; [reflexivity | exact A].
Defined.

(** ** Processing a message *)

Section MessageProcessing.

Import Registry Monitor.

Lemma endswith_refl s : endswith s s = true.
Proof. destruct s; cbn [endswith]; rewrite String.eqb_refl; reflexivity. Qed.

Lemma endswith_append a b : endswith (a ++ b) b = true.
Proof.
  induction a as [|c a IH]; [apply endswith_refl|].
  cbn [append endswith]. rewrite IH. apply Bool.orb_true_r.
Qed.

Lemma endswith_elim s : forall e, endswith s e = true -> exists a, s = a ++ e.
Proof.
  induction s as [|c s IH]; intros e H; cbn [endswith] in H;
    apply Bool.orb_true_iff in H; destruct H as [H | H].
  - apply String.eqb_eq in H. exists "". exact H.
  - discriminate H.
  - apply String.eqb_eq in H. exists "". exact H.
  - destruct (IH e H) as (a & ->). exists (String c a). reflexivity.
Qed.

Lemma endswith_cons c s e :
  endswith (String c s) e = true -> String c s = e \/ endswith s e = true.
Proof.
  cbn [endswith]. intros H. apply Bool.orb_true_iff in H.
  destruct H as [H | H]; [left; apply String.eqb_eq; exact H | right; exact H].
Qed.

Lemma endswith_nil e : endswith "" e = true -> "" = e.
Proof.
  cbn [endswith]. rewrite Bool.orb_false_r. apply String.eqb_eq.
Qed.

Lemma endswith_trans a b c :
  endswith a b = true -> endswith b c = true -> endswith a c = true.
Proof.
  intros H K. apply endswith_elim in H. destruct H as (x & ->).
  apply endswith_elim in K. destruct K as (y & ->).
  rewrite <- append_assoc. apply endswith_append.
Qed.

(** An ending of [p ++ s] is an ending of [s], or [s] is an ending of
    it. *)
Lemma endswith_append_cases p s e :
  endswith (p ++ s) e = true -> endswith s e = true \/ endswith e s = true.
Proof.
  induction p as [|c p IH]; cbn [append endswith]; intros H;
    [left; exact H|].
  apply Bool.orb_true_iff in H. destruct H as [H | H].
  - apply String.eqb_eq in H. subst e. right.
    exact (endswith_append (String c p) s).
  - exact (IH H).
Qed.

Lemma path_join_tail a t name :
  exists p, path_join a (t ++ "_" ++ name) = p ++ name.
Proof.
  unfold path_join.
  destruct (t ++ "_" ++ name) as [|c b] eqn:B.
  - destruct t; discriminate B.
  - assert (T : exists p, String c b = p ++ name)
      by (exists (t ++ "_"); rewrite append_assoc; symmetry; exact B).
    assert (J1 : exists p, a ++ String c b = p ++ name).
    { destruct T as (p & ->). exists (a ++ p). rewrite append_assoc.
      reflexivity. }
    assert (J2 : exists p, a ++ "/" ++ String c b = p ++ name).
    { destruct T as (p & ->). exists (a ++ "/" ++ p).
      rewrite !append_assoc. reflexivity. }
    destruct c as [[] [] [] [] [] [] [] []];
      try (destruct (_ || _)%bool; [exact J1 | exact J2]).
    exact T.
Qed.

(** Nothing is read from a file saved for an attachment of a name that
    passed the filter and is [unreadable]. *)
Lemma unreadable_file_is_empty w position name filepath :
  unreadable name = true ->
  endswith_any (PyStr.lower name) attachment_extensions = true ->
  download_attachment w position name = Some filepath ->
  extract_text_from_file w filepath = Some "".
Proof.
  intros U A D. unfold download_attachment in D.
  destruct (path_join_tail (invoice_download_path w) (now w position) name)
    as (p & P).
  rewrite P in D. destruct (written w position _); [|discriminate D].
  injection D as <-.
  unfold unreadable in U. apply Bool.andb_true_iff in U.
  destruct U as (U1 & U2). apply Bool.negb_true_iff in U1, U2.
  (* the lower-cased name ends in '.pdf' *)
  assert (L : endswith (PyStr.lower name) ".pdf" = true).
  { unfold endswith_any, attachment_extensions in A.
    unfold endswith_any, image_extensions in U2.
    cbn [List.existsb] in A, U2. rewrite U2 in A.
    rewrite Bool.orb_false_r in A. exact A. }
  unfold extract_text_from_file.
  destruct (endswith (p ++ name) ".pdf") eqn:E1.
  - exfalso. apply endswith_append_cases in E1. destruct E1 as [E1 | E1].
    + rewrite E1 in U1. discriminate U1.
    + repeat (apply endswith_cons in E1; destruct E1 as [E1 | E1];
              [subst name; try discriminate U1; discriminate L|]).
      apply endswith_nil in E1. subst name. discriminate L.
  - destruct (endswith_any (PyStr.lower (p ++ name)) image_extensions) eqn:E2;
      [|reflexivity].
    exfalso. rewrite lower_append in E2.
    unfold endswith_any in E2. apply List.existsb_exists in E2.
    destruct E2 as (e & I & E2).
    apply endswith_append_cases in E2. destruct E2 as [E2 | E2].
    + assert (X : endswith_any (PyStr.lower name) image_extensions = true)
        by (apply List.existsb_exists; exists e; split; assumption).
      rewrite X in U2. discriminate U2.
    + pose proof (endswith_trans _ _ _ E2 L) as X.
      simpl in I.
      destruct I as [<- | [<- | [<- | [<- | [<- | []]]]]]; discriminate X.
Qed.

Lemma empty_text_is_no_invoice : Detector.is_potential_invoice "" = false.
Proof. vm_compute. reflexivity. Qed.

Lemma attachments_from_unreadable w subj snd c :
  forall parts position processed,
    List.Forall (fun f => forall name, f = Some name -> unreadable name = true)
                parts ->
    attachments_from w position parts subj snd c processed
    = (c, Some processed).
Proof.
  induction parts as [|f parts IH]; intros position processed F;
    [reflexivity|].
  inversion F as [|f' parts' Hf Hp]; subst.
  cbn [attachments_from]. destruct f as [name|]; [|apply IH; exact Hp].
  destruct (nonempty name); [|apply IH; exact Hp]. cbn [andb].
  destruct (endswith_any (PyStr.lower name) attachment_extensions) eqn:A;
    [|apply IH; exact Hp].
  destruct (download_attachment w position name) as [filepath|] eqn:D;
    [|apply IH; exact Hp].
  destruct (nonempty filepath); [|apply IH; exact Hp].
  rewrite (unreadable_file_is_empty w position name filepath
             (Hf name eq_refl) A D).
  rewrite empty_text_is_no_invoice. apply IH. exact Hp.
Qed.

Lemma capital_pdf_unreadable stem :
  unreadable (stem ++ ".PDF") = true
  /\ endswith_any (PyStr.lower (stem ++ ".PDF")) attachment_extensions = true.
Proof.
  split.
  - unfold unreadable. apply Bool.andb_true_iff. split;
      apply Bool.negb_true_iff.
    + destruct (endswith (stem ++ ".PDF") ".pdf") eqn:E; [|reflexivity].
      apply endswith_append_cases in E. destruct E as [E | E];
        discriminate E.
    + destruct (endswith_any (PyStr.lower (stem ++ ".PDF")) image_extensions)
        eqn:E; [|reflexivity].
      rewrite lower_append in E. unfold endswith_any in E.
      apply List.existsb_exists in E. destruct E as (e & I & E).
      apply endswith_append_cases in E. simpl in I.
      destruct I as [<- | [<- | [<- | [<- | [<- | []]]]]];
        destruct E as [E | E]; discriminate E.
  - rewrite lower_append. unfold endswith_any, attachment_extensions.
    cbn [List.existsb].
    change (PyStr.lower ".PDF") with ".pdf".
    rewrite endswith_append. reflexivity.
Qed.

(** X26: an attachment is read only under a name that ends in '.pdf' in
    small letters or, in any case, in an image extension.  A name such as
    INVOICE.PDF passes the attachment filter, which lower-cases the name,
    and is downloaded, but it is read as the empty text: a message whose
    attachments all have such names stores no invoice. *)
Theorem X26_capital_pdf_is_never_read :
  forall (w : world) (m : message) (email_subject email_sender : option string)
         (c : catalog),
    List.Forall (fun f => forall name, f = Some name -> unreadable name = true)
                (filenames m) ->
    process_attachments w m email_subject email_sender c = (c, Some [])
    /\ forall stem,
         unreadable (stem ++ ".PDF") = true
         /\ endswith_any (PyStr.lower (stem ++ ".PDF")) attachment_extensions
            = true.
Proof.
  intros w m subj snd c F. split.
  - unfold process_attachments. apply attachments_from_unreadable. exact F.
  - exact capital_pdf_unreadable.
Qed.

Lemma already_processed_cons mon i l :
  already_processed {| processed_emails := i :: l; db := db mon |} i = true.
Proof.
  unfold already_processed. cbn [processed_emails List.existsb].
  rewrite String.eqb_refl. reflexivity.
Qed.

Lemma process_email_marks w mon m :
  already_processed (fst (process_email w mon m)) (identifier m) = true.
Proof.
  unfold process_email.
  destruct (already_processed mon (identifier m)) eqn:A; [exact A|].
  destruct (Detector.is_potential_invoice (body m)).
  - destruct (process_attachments w m _ _ (db mon)) as [c r]. cbn [fst].
    unfold already_processed. cbn [processed_emails List.existsb].
    rewrite String.eqb_refl. reflexivity.
  - cbn [fst]. unfold already_processed. cbn [processed_emails List.existsb].
    rewrite String.eqb_refl. reflexivity.
Qed.

(** X24: a message is processed at most once.  After [process_email] has
    seen a message (whatever came of it, an exception included), a
    message with the same Message-ID is skipped: nothing is stored and
    the empty list is returned.  A message without a Message-ID header
    counts as having the identifier [''], so after the first such message
    every other one without the header is skipped too, whatever it
    holds. *)
Theorem X24_message_processed_once :
  forall (w w' : world) (mon : monitor) (m m' : message),
    identifier m' = identifier m ->
    process_email w' (fst (process_email w mon m)) m'
    = (fst (process_email w mon m), Some []).
Proof.
  intros w w' mon m m' I.
  unfold process_email at 1. rewrite I, process_email_marks. reflexivity.
Qed.

(** The rows [attachments_from] appends. *)
Lemma attachments_from_appends w subj snd :
  forall parts position c processed c' result,
    attachments_from w position parts subj snd c processed = (c', result) ->
    exists new,
      appended c c' new
      /\ (0 <= invoice_sequence c ->
          forall ids, result = Some ids ->
                      ids = (processed ++ List.map inv_id new)%list).
Proof.
  assert (Nothing : forall c processed (result : Extractor.raising (list Z)),
             (result = None \/ result = Some processed) ->
             exists new,
               appended c c new
               /\ (0 <= invoice_sequence c ->
                   forall ids, result = Some ids ->
                               ids = (processed ++ List.map inv_id new)%list)).
  { intros c processed result R. exists []. split.
    - unfold appended. rewrite List.app_nil_r. cbn [List.length Z.of_nat].
      repeat (split; [reflexivity|]). split; [lia | constructor].
    - intros _ ids H. cbn [List.map]. rewrite List.app_nil_r.
      destruct R as [-> | ->]; [discriminate H | injection H as <-; reflexivity]. }
  induction parts as [|f parts IH]; intros position c processed c' result E.
  - cbn [attachments_from] in E. injection E as <- <-.
    apply Nothing. right. reflexivity.
  - cbn [attachments_from] in E.
    pose proof (IH (S position) c processed c' result) as Skip.
    assert (Raise : (c, @None (list Z)) = (c', result) ->
                    exists new,
                      appended c c' new
                      /\ (0 <= invoice_sequence c ->
                          forall ids, result = Some ids ->
                            ids = (processed ++ List.map inv_id new)%list)).
    { intros H. injection H as <- <-. apply Nothing. left. reflexivity. }
    destruct f as [name|]; [|exact (Skip E)].
    destruct (nonempty name && _)%bool; [|exact (Skip E)].
    destruct (download_attachment w position name) as [filepath|];
      [|exact (Skip E)].
    destruct (nonempty filepath); [|exact (Skip E)].
    destruct (extract_text_from_file w filepath) as [text|];
      [|exact (Raise E)].
    destruct (Detector.is_potential_invoice text); [|exact (Skip E)].
    destruct (Extractor.extract_invoice_details_from_text _ _ _ _) as [d|];
      [|exact (Raise E)].
    unfold add_invoice in E.
    destruct (invoice_number_taken (tables c) (Extractor.invoice_number d));
      [exact (Skip E)|].
    set (id := invoice_sequence c + 1) in E.
    set (row := {| inv_id := id;
                   inv_invoice_number := Extractor.invoice_number d;
                   inv_po_number := Extractor.purchase_order d;
                   inv_vendor_name := Extractor.vendor_name d;
                   inv_invoice_date := Extractor.invoice_date d;
                   inv_total_amount := Registry.sql_real (Extractor.total_amount d);
                   inv_file_path := Extractor.file_path d;
                   inv_status := Some "pending";
                   inv_validation_result := None |}) in E.
    assert (Step : forall processed',
               (0 <= invoice_sequence c ->
                processed' = (processed ++ [id])%list) ->
               attachments_from w (S position) parts subj snd
                 {| tables := with_invoices (tables c)
                                (invoices (tables c) ++ [row]);
                    purchase_order_sequence := purchase_order_sequence c;
                    invoice_sequence := id |} processed' = (c', result) ->
               exists new,
                 appended c c' new
                 /\ (0 <= invoice_sequence c ->
                     forall ids, result = Some ids ->
                       ids = (processed ++ List.map inv_id new)%list)).
    { intros processed' Hp H.
      destruct (IH _ _ _ _ _ H)
        as (new & (F1 & F2 & F3 & F4 & N1 & N2 & N3) & N4).
      cbn [tables with_invoices purchase_orders validation_reports
           report_sequence purchase_order_sequence invoice_sequence invoices]
        in F1, F2, F3, F4, N1, N2, N3, N4.
      exists (row :: new). split.
      - unfold appended.
        split; [exact F1|]. split; [exact F2|]. split; [exact F3|].
        split; [exact F4|].
        split; [rewrite N1, <- List.app_assoc; reflexivity|].
        split; [rewrite N2; cbn [List.length]; subst id; lia|].
        constructor.
        + cbn [row inv_status inv_validation_result inv_id].
          split; [reflexivity|]. split; [reflexivity|]. subst id. lia.
        + eapply List.Forall_impl; [|exact N3].
          intros i (S1 & S2 & S3). split; [exact S1|]. split; [exact S2|].
          subst id. lia.
      - intros P ids R. rewrite (N4 ltac:(subst id; lia) ids R), (Hp P).
        rewrite <- List.app_assoc. reflexivity. }
    destruct (Z.eqb id 0) eqn:Z0.
    + apply (Step processed); [|exact E].
      intros P. apply Z.eqb_eq in Z0. subst id. lia.
    + apply (Step (processed ++ [id])%list); [|exact E].
      intros _. reflexivity.
Qed.

(** X25: [process_email] only appends to the invoices table.  Purchase
    orders, validation reports and the invoices stored before are left as
    they were; each row added is 'pending', has no validation result and a
    new id; the list returned holds the ids of the rows added, in order;
    and nothing at all is added when the body of the message is not a
    potential invoice, whatever is attached. *)
Theorem X25_process_email_only_appends :
  forall (w : world) (mon mon' : monitor) (m : message)
         (result : Extractor.raising (list Z)),
    0 <= invoice_sequence (db mon) ->
    process_email w mon m = (mon', result) ->
    purchase_orders (tables (db mon')) = purchase_orders (tables (db mon))
    /\ validation_reports (tables (db mon'))
       = validation_reports (tables (db mon))
    /\ exists new,
         invoices (tables (db mon')) = (invoices (tables (db mon)) ++ new)%list
         /\ List.Forall (fun i => inv_status i = Some "pending"
                                  /\ inv_validation_result i = None
                                  /\ invoice_sequence (db mon) < inv_id i)
                        new
         /\ (forall ids, result = Some ids -> ids = List.map inv_id new)
         /\ (Detector.is_potential_invoice (body m) = false -> new = []).
Proof.
  intros w mon mon' m result P E. unfold process_email in E.
  assert (Same : forall seen r,
            ({| processed_emails := seen; db := db mon |}, Some r)
            = (mon', result) -> r = [] ->
            purchase_orders (tables (db mon'))
            = purchase_orders (tables (db mon))
            /\ validation_reports (tables (db mon'))
               = validation_reports (tables (db mon))
            /\ exists new,
                 invoices (tables (db mon'))
                 = (invoices (tables (db mon)) ++ new)%list
                 /\ List.Forall (fun i => inv_status i = Some "pending"
                                          /\ inv_validation_result i = None
                                          /\ invoice_sequence (db mon) < inv_id i)
                                new
                 /\ (forall ids, result = Some ids -> ids = List.map inv_id new)
                 /\ (Detector.is_potential_invoice (body m) = false
                     -> new = [])).
  { intros seen r H ->. injection H as <- <-. cbn [db].
    split; [reflexivity|]. split; [reflexivity|]. exists [].
    rewrite List.app_nil_r. split; [reflexivity|]. split; [constructor|].
    split; [intros ids H; injection H as <-; reflexivity|].
    intros _. reflexivity. }
  destruct (already_processed mon (identifier m)).
  - destruct mon as [seen c]. exact (Same seen [] E eq_refl).
  - destruct (Detector.is_potential_invoice (body m)) eqn:B;
      [|exact (Same _ [] E eq_refl)].
    destruct (process_attachments w m _ _ (db mon)) as [c r] eqn:A.
    injection E as <- <-. cbn [db]. unfold process_attachments in A.
    destruct (attachments_from_appends _ _ _ _ _ _ _ _ _ A)
      as (new & (F1 & F2 & _ & _ & N1 & N2 & N3) & N4).
    split; [exact F1|]. split; [exact F2|]. exists new.
    split; [exact N1|].
    split.
    { eapply List.Forall_impl; [|exact N3].
      intros i (S1 & S2 & S3). split; [exact S1|]. split; [exact S2|]. lia. }
    split; [intros ids R; exact (N4 P ids R)|].
    intros H. discriminate H.
Qed.

End MessageProcessing.

(** The first message without a Message-ID stores its invoice; the second
    one, a different invoice, is skipped. *)
Lemma X24_message_processed_once_witness :
  snd (Monitor.process_email Deliveries.office Deliveries.fresh_monitor
         Deliveries.invoice_mail) = Some [1]
  /\ Monitor.process_email Deliveries.office
       (fst (Monitor.process_email Deliveries.office Deliveries.fresh_monitor
               Deliveries.invoice_mail))
       Deliveries.second_mail
     = (fst (Monitor.process_email Deliveries.office Deliveries.fresh_monitor
               Deliveries.invoice_mail), Some []).
Proof.
  split; [vm_compute; reflexivity|].
  apply (X24_message_processed_once Deliveries.office Deliveries.office
           Deliveries.fresh_monitor Deliveries.invoice_mail
           Deliveries.second_mail).
  reflexivity.
Defined.

Lemma X25_process_email_only_appends_witness :
  exists mon' new,
    Monitor.process_email Deliveries.office Deliveries.fresh_monitor
      Deliveries.invoice_mail = (mon', Some [1])
    /\ invoices (Registry.tables (Monitor.db mon'))
       = (invoices (Registry.tables Cases.acme_catalog) ++ new)%list
    /\ List.map inv_id new = [1].
Proof.
  destruct (Monitor.process_email Deliveries.office Deliveries.fresh_monitor
              Deliveries.invoice_mail) as [mon' r] eqn:E.
  assert (R : r = Some [1]).
  { change r with (snd (mon', r)). rewrite <- E. vm_compute. reflexivity. }
  subst r.
  destruct (X25_process_email_only_appends Deliveries.office
              Deliveries.fresh_monitor mon' Deliveries.invoice_mail (Some [1])
              ltac:(vm_compute; discriminate) E)
    as (_ & _ & new & N & _ & I & _).
  exists mon', new. split; [reflexivity|]. split; [exact N|].
  symmetry. exact (I [1] eq_refl).
Defined.

Lemma X26_capital_pdf_witness :
  Monitor.process_attachments Deliveries.office Deliveries.capital_mail
    (Some "Invoice INV7") (Some "billing@acme.com") Cases.acme_catalog
  = (Cases.acme_catalog, Some [])
  /\ snd (Monitor.process_attachments Deliveries.office Deliveries.invoice_mail
            (Some "Invoice INV7") (Some "billing@acme.com") Cases.acme_catalog)
     = Some [1].
Proof.
  split; [|vm_compute; reflexivity].
  apply (X26_capital_pdf_is_never_read Deliveries.office
           Deliveries.capital_mail).
  repeat constructor; intros name H; [discriminate H|].
  injection H as <-. vm_compute. reflexivity.
Defined.

(** ** The approver's commands *)

Section ApproverCommands.

Import Registry Approver.

Variable max_str_digits : nat.
Variable float_str : PyFloat.float -> string.

Lemma row_line_none approval :
  row_line float_str approval = None
  <-> (pa_invoice_number approval = None \/ pa_po_number approval = None
       \/ pa_vendor_name approval = None \/ pa_total_amount approval = None).
Proof.
  unfold row_line.
  destruct (pa_invoice_number approval), (pa_po_number approval),
    (pa_vendor_name approval), (pa_total_amount approval);
    split; intros H; try reflexivity; try discriminate H;
    try (destruct H as [H | [H | [H | H]]]; discriminate H);
    tauto.
Qed.

Lemma print_rows_raises rows :
  snd (print_rows float_str rows) = true
  <-> exists approval, List.In approval rows
                       /\ row_line float_str approval = None.
Proof.
  induction rows as [|a rows IH]; cbn [print_rows].
  - split; [discriminate | intros (x & [] & _)].
  - destruct (row_line float_str a) as [l|] eqn:L.
    + destruct (print_rows float_str rows) as [printed raised].
      cbn [snd] in *. rewrite IH. split.
      * intros (x & I & N). exists x. split; [right; exact I | exact N].
      * intros (x & [<- | I] & N); [rewrite L in N; discriminate N|].
        exists x. split; assumption.
    + cbn [snd]. split; [|reflexivity]. intros _. exists a.
      split; [left; reflexivity | exact L].
Qed.

Lemma print_rows_lines rows :
  snd (print_rows float_str rows) = false ->
  List.map Some (fst (print_rows float_str rows))
  = List.map (row_line float_str) rows.
Proof.
  induction rows as [|a rows IH]; cbn [print_rows]; [reflexivity|].
  destruct (row_line float_str a) as [l|] eqn:L; [|discriminate].
  destruct (print_rows float_str rows) as [printed raised].
  cbn [fst snd] in *. intros R. cbn [List.map]. rewrite L, (IH R).
  reflexivity.
Qed.

(** X27: the command [list] fails on a pending report whose invoice
    lacks a column.  [list_pending_approvals] raises [TypeError] exactly
    when one of the rows it is given has NULL for the invoice number,
    the purchase order number, the vendor name or the total amount, in
    whatever order the rows come; otherwise it prints the heading and one
    line per row. *)
Theorem X27_list_fails_on_missing_column :
  forall (db : database) (rows : list pending_approval),
    Permutation rows (get_pending_approvals db) ->
    (snd (list_pending_approvals float_str rows) = true
     <-> exists approval,
           List.In approval (get_pending_approvals db)
           /\ (pa_invoice_number approval = None
               \/ pa_po_number approval = None
               \/ pa_vendor_name approval = None
               \/ pa_total_amount approval = None))
    /\ (snd (list_pending_approvals float_str rows) = false ->
        rows <> [] ->
        exists lines,
          fst (list_pending_approvals float_str rows)
          = (heading ++ lines)%list
          /\ List.map Some lines = List.map (row_line float_str) rows).
Proof.
  intros db rows P.
  assert (R : snd (list_pending_approvals float_str rows)
              = snd (print_rows float_str rows)).
  { unfold list_pending_approvals. destruct rows as [|a rows'];
      [reflexivity|].
    destruct (print_rows float_str (a :: rows')) as [printed raised].
    reflexivity. }
  split.
  - rewrite R, print_rows_raises. split.
    + intros (x & I & N). exists x. split.
      * exact (Permutation_in x P I).
      * apply row_line_none. exact N.
    + intros (x & I & N). exists x. split.
      * exact (Permutation_in x (Permutation_sym P) I).
      * apply row_line_none. exact N.
  - intros F Ne. rewrite R in F.
    exists (fst (print_rows float_str rows)). split.
    + unfold list_pending_approvals. destruct rows as [|a rows'];
        [contradiction Ne; reflexivity|].
      destruct (print_rows float_str (a :: rows')) as [printed raised].
      reflexivity.
    + exact (print_rows_lines rows F).
Qed.

Lemma skip_spaces_spaces k : skip_spaces (spaces k) = "".
Proof. induction k as [|k IH]; [reflexivity | exact IH]. Qed.

(** A numeral, followed by blanks, is read back as its digits. *)
Lemma digits_numeral d k :
  forall after_digit,
    d <> Decimal.Nil \/ after_digit = true ->
    digits (DecimalString.NilEmpty.string_of_uint d ++ spaces k) after_digit
    = Some (DecimalString.NilEmpty.string_of_uint d).
Proof.
  induction d as [|d IH|d IH|d IH|d IH|d IH|d IH|d IH|d IH|d IH|d IH];
    intros b H;
    try (cbn [DecimalString.NilEmpty.string_of_uint append digits];
         change (PyStr.is_digit _) with true; cbv iota;
         rewrite (IH true (or_intror eq_refl)); reflexivity).
  destruct H as [H | ->]; [contradiction H; reflexivity|].
  cbn [DecimalString.NilEmpty.string_of_uint append].
  destruct k as [|k]; [reflexivity|].
  cbn [spaces digits]. change (PyStr.is_digit " ") with false.
  change (Ascii.eqb " " "_") with false.
  change (is_int_space " ") with true. cbv iota. cbn [andb].
  rewrite skip_spaces_spaces. reflexivity.
Qed.

Lemma positive_numeral p :
  Z.of_uint (Pos.to_uint p) = Z.pos p.
Proof.
  unfold Z.of_uint. rewrite DecimalPos.Unsigned.of_to. reflexivity.
Qed.

Lemma int_of_str_numeral c rest numeral d :
  is_int_space c = false ->
  Ascii.eqb c "-" = false ->
  Ascii.eqb c "+" = false ->
  digits (String c rest) false = Some numeral ->
  within_limit max_str_digits numeral = true ->
  DecimalString.NilEmpty.uint_of_string numeral = Some d ->
  int_of_str max_str_digits (String c rest) = Some (Z.of_uint d)
  /\ int_of_str max_str_digits (String "-" (String c rest))
     = Some (- Z.of_uint d).
Proof.
  intros Sp Mi Pl D L U. unfold int_of_str. split.
  - cbn [skip_spaces]. rewrite Sp, Mi, Pl, D, L, U. reflexivity.
  - cbn [skip_spaces]. change (is_int_space "-") with false. cbv iota.
    change (Ascii.eqb "-" "-") with true. cbv iota.
    rewrite D, L, U. reflexivity.
Qed.

Lemma numeral_head d :
  d <> Decimal.Nil ->
  exists c rest,
    DecimalString.NilEmpty.string_of_uint d = String c rest
    /\ is_int_space c = false
    /\ Ascii.eqb c "-" = false
    /\ Ascii.eqb c "+" = false.
Proof.
  intros H.
  destruct d as [|d|d|d|d|d|d|d|d|d|d]; [contradiction H; reflexivity| ..];
    cbn [DecimalString.NilEmpty.string_of_uint];
    eexists; eexists; (split; [reflexivity|]);
    (split; [reflexivity|]); split; reflexivity.
Qed.

(** The numeral of a positive number, with or without a minus sign and
    followed by any number of blanks, is read back. *)
Lemma int_of_str_positive p k :
  within_limit max_str_digits (int_str (Z.pos p)) = true ->
  int_of_str max_str_digits (int_str (Z.pos p) ++ spaces k) = Some (Z.pos p)
  /\ int_of_str max_str_digits (int_str (Z.neg p) ++ spaces k)
     = Some (Z.neg p).
Proof.
  pose proof (DecimalPos.Unsigned.to_uint_nonnil p) as Nn.
  assert (E : forall n, n = Z.pos p \/ n = Z.neg p ->
              int_str n
              = (if Z.ltb n 0 then "-" else "")
                ++ DecimalString.NilEmpty.string_of_uint (Pos.to_uint p)).
  { intros n [-> | ->]; unfold int_str;
      cbn [Z.to_int DecimalString.NilZero.string_of_int Z.ltb Z.compare];
      unfold DecimalString.NilZero.string_of_uint;
      destruct (Pos.to_uint p); try reflexivity;
      contradiction Nn; reflexivity. }
  rewrite (E (Z.pos p) (or_introl eq_refl)), (E (Z.neg p) (or_intror eq_refl)).
  cbn [Z.ltb Z.compare append]. intros L.
  destruct (numeral_head (Pos.to_uint p) Nn) as (c & rest & H & Sp & Mi & Pl).
  pose proof (digits_numeral (Pos.to_uint p) k false (or_introl Nn)) as D.
  pose proof (DecimalString.NilEmpty.usu (Pos.to_uint p)) as U.
  rewrite H in D. cbn [append] in D. rewrite H. cbn [append].
  rewrite H in L.
  destruct (int_of_str_numeral c (rest ++ spaces k) (String c rest)
              (Pos.to_uint p) Sp Mi Pl D L ltac:(rewrite <- H; exact U))
    as (A & B).
  rewrite positive_numeral in A, B. split; [exact A | exact B].
Qed.

(** [int(str(n))] is [n], also with the blanks [list] pads the column
    with. *)
Lemma int_of_str_int_str n k :
  within_limit max_str_digits (int_str (Z.abs n)) = true ->
  int_of_str max_str_digits (int_str n ++ spaces k) = Some n.
Proof.
  destruct n as [|p|p]; cbn [Z.abs]; intros L.
  - assert (Nn : Decimal.D0 Decimal.Nil <> Decimal.Nil) by discriminate.
    pose proof (digits_numeral (Decimal.D0 Decimal.Nil) k false
                  (or_introl Nn)) as D.
    exact (proj1 (int_of_str_numeral "0" (spaces k) "0"
                    (Decimal.D0 Decimal.Nil) eq_refl eq_refl eq_refl D L
                    eq_refl)).
  - exact (proj1 (int_of_str_positive p k L)).
  - exact (proj2 (int_of_str_positive p k L)).
Qed.

(** X28: the id that [list] shows can be typed back.  The text of the ID
    column, the blanks it is padded with included, is read by
    [approve_invoice] and [reject_invoice] as the id of that very report
    (as long as the numeral is within the interpreter's limit on
    digits): the decision goes to [update_approval_status] with that id,
    with the status 'approved' or 'rejected', and with the comments
    joined by single blanks, or 'Approved without comments' or 'Rejected
    without comments' when none are given. *)
Theorem X28_listed_id_is_read_back :
  forall (db : database) (report_id : Z) (comments : list string),
    within_limit max_str_digits (int_str (Z.abs report_id)) = true ->
    let shown := ljust (int_str report_id) 5 in
    let text default :=
      match comments with [] => default | _ :: _ => PyStr.join " " comments end
    in
    int_of_str max_str_digits shown = Some report_id
    /\ fst (approve_invoice max_str_digits db (Some shown) comments)
       = fst (update_approval_status db report_id "approved"
                (Some (text "Approved without comments")))
    /\ fst (reject_invoice max_str_digits db (Some shown) comments)
       = fst (update_approval_status db report_id "rejected"
                (Some (text "Rejected without comments"))).
Proof.
  intros db n comments L shown text.
  assert (I : int_of_str max_str_digits shown = Some n)
    by (exact (int_of_str_int_str n _ L)).
  assert (T : exists c rest, shown = String c rest).
  { subst shown. unfold ljust, int_str.
    destruct (Z.to_int n) as [d | d];
      cbn [DecimalString.NilZero.string_of_int];
      [|eexists; eexists; reflexivity].
    unfold DecimalString.NilZero.string_of_uint.
    destruct d; eexists; eexists; reflexivity. }
  split; [exact I|].
  unfold approve_invoice, reject_invoice, decide.
  destruct T as (c & rest & T). rewrite T in *. rewrite I.
  split.
  - destruct (update_approval_status db n "approved" _) as [db' []];
      reflexivity.
  - destruct (update_approval_status db n "rejected" _) as [db' []];
      reflexivity.
Qed.

(** X29: [approve_invoice] and [reject_invoice] leave the database as it
    is unless the argument is the numeral of a stored report: without an
    argument, with a text that [int] refuses and with the id of no report
    nothing is written. *)
Theorem X29_decision_needs_a_stored_report :
  forall (db : database) (report_id : option string) (comments : list string),
    (forall text n, report_id = Some text ->
                    int_of_str max_str_digits text = Some n ->
                    select_report db n = None) ->
    fst (approve_invoice max_str_digits db report_id comments) = db
    /\ fst (reject_invoice max_str_digits db report_id comments) = db.
Proof.
  intros db report_id comments H.
  unfold approve_invoice, reject_invoice, decide.
  destruct report_id as [[|c rest]|]; try (split; reflexivity).
  destruct (int_of_str max_str_digits (String c rest)) as [n|] eqn:I;
    [|split; reflexivity].
  rewrite !(unknown_report_rolls_back db n _ _ (H _ n eq_refl I)).
  split; reflexivity.
Qed.

End ApproverCommands.

(** The invoice without a vendor, once validated, breaks [list]. *)
Lemma X27_list_fails_witness :
  Registry.get_pending_approvals Desk.vendorless_db <> []
  /\ snd (Approver.list_pending_approvals Samples.plain_float_str
            (Registry.get_pending_approvals Desk.vendorless_db)) = true.
Proof.
  split; [vm_compute; discriminate|].
  destruct (X27_list_fails_on_missing_column Samples.plain_float_str
              Desk.vendorless_db
              (Registry.get_pending_approvals Desk.vendorless_db)
              (Permutation_refl _)) as [[_ Raises] _].
  apply Raises.
  destruct (Registry.get_pending_approvals Desk.vendorless_db)
    as [|approval rest] eqn:E; [vm_compute in E; discriminate E|].
  exists approval. split; [left; reflexivity|].
  vm_compute in E. injection E as <- _.
  right. right. left. reflexivity.
Defined.

Lemma X28_listed_id_witness :
  Approver.int_of_str 4300 "1    " = Some 1
  /\ fst (Approver.approve_invoice 4300 Samples.reported_db (Some "1    ")
            ["looks"; "fine"])
     = fst (update_approval_status Samples.reported_db 1 "approved"
              (Some "looks fine")).
Proof.
  destruct (X28_listed_id_is_read_back 4300 Samples.reported_db 1
              ["looks"; "fine"] eq_refl) as (I & A & _).
  split; [exact I | exact A].
Defined.

Lemma X29_decision_witness :
  fst (Approver.approve_invoice 4300 Samples.reported_db (Some "one") []) 
  = Samples.reported_db
  /\ fst (Approver.reject_invoice 4300 Samples.reported_db (Some "7") ["no"])
     = Samples.reported_db.
Proof.
  split.
  - apply (X29_decision_needs_a_stored_report 4300 Samples.reported_db
             (Some "one") []).
    intros text n H I. injection H as <-. vm_compute in I. discriminate I.
  - apply (X29_decision_needs_a_stored_report 4300 Samples.reported_db
             (Some "7") ["no"]).
    intros text n H I. injection H as <-. vm_compute in I.
    injection I as <-. reflexivity.
Defined.
